(** * GPU_Orchestrator: backoff, scheduling strategies and the GPUWorkload
      reconciler, embedded from the Go sources

    - [internal/backoff/backoff.go]: [NextBackoff], [ShouldRetry];
    - [internal/scheduling/strategy.go]: the three [ChooseNode] methods,
      [Factory], [getAvailableGPUs];
    - [controllers/gpuworkload_controller.go]: [Reconcile], [handleDeletion],
      [createJobForWorkload], [requeueWithBackoff] and the helpers.

    Go's [int], [int32], [int64] and [time.Duration] are [Z] with the
    wrap-around written out where the code can reach it; strings are
    [string]; Go maps are [gmap]; slices are lists. *)

From Stdlib Require Import ZArith QArith Qpower Lia Lqa.
From stdpp Require Import base strings gmap list.

Local Open Scope string_scope.

Local Open Scope Z_scope.

(** ** Machine integers *)

Definition wrap (w : Z) (z : Z) : Z :=
  (z + 2 ^ (w - 1)) mod 2 ^ w - 2 ^ (w - 1).

Definition wrap32 : Z -> Z := wrap 32.
Definition wrap64 : Z -> Z := wrap 64.

Definition MinInt64 : Z := - 2 ^ 63.
Definition MaxInt64 : Z := 2 ^ 63 - 1.

Definition int64_range (z : Z) : bool := (MinInt64 <=? z) && (z <=? MaxInt64).

(** ** binary64 arithmetic

    A finite [float64] is a dyadic number [fmant * 2 ^ fexp].  The results of
    [float64(int64)] and of [*] are rounded to 53 significant bits, to
    nearest, ties to even, as IEEE 754 binary64 does.  The exponent is not
    bounded: the values [NextBackoff] handles stay far from overflow, and
    magnitudes below [2 ^ -1022], where binary64 loses precision, are all
    below 1 and convert to the integer 0 either way. *)

Record float64 : Type := Float64 { fmant : Z; fexp : Z }.

(** [m / 2 ^ k] rounded to the nearest integer, ties to the even one. *)
Definition rne (m k : Z) : Z :=
  let q := m / 2 ^ k in
  let r := m mod 2 ^ k in
  let h := 2 ^ (k - 1) in
  if r <? h then q
  else if h <? r then q + 1
  else if Z.even q then q else q + 1.

Definition round53 (x : float64) : float64 :=
  if Z.abs (fmant x) <? 2 ^ 53 then x
  else
    let k := Z.log2 (Z.abs (fmant x)) - 52 in
    Float64 (rne (fmant x) k) (fexp x + k).

(** [float64(z)] for an integer [z]. *)
Definition float64_of_int (z : Z) : float64 := round53 (Float64 z 0).

(** [x * y] on float64. *)
Definition fmul (x y : float64) : float64 :=
  round53 (Float64 (fmant x * fmant y) (fexp x + fexp y)).

(** [math.Pow(2, float64(n))] for an integer [n]: the power of two. *)
Definition Pow2 (n : Z) : float64 := Float64 1 n.

(** The constant [0.1] as the compiler rounds it to float64:
    [0x3FB999999999999A]. *)
Definition tenth : float64 := Float64 3602879701896397 (-55).

(** The mathematical integer part, truncated toward zero. *)
Definition trunc (x : float64) : Z :=
  if 0 <=? fexp x then fmant x * 2 ^ fexp x
  else Z.quot (fmant x) (2 ^ (- fexp x)).

(** [int64(x)] / [time.Duration(x)]: truncation toward zero.  When the
    integer part does not fit in an int64 Go leaves the result to the
    implementation; the amd64 value (the "integer indefinite" [MinInt64]) is
    used here, and every theorem below is stated where conversions fit. *)
Definition int64_of_float (x : float64) : Z :=
  let z := trunc x in
  if int64_range z then z else MinInt64.

(** A value [rand.Float64()] can return: a float64 in [[0, 1)]. *)
Definition unit_float (r : float64) : bool :=
  (0 <=? fmant r) && (fmant r <? 2 ^ 53) &&
  ((fmant r =? 0) || ((fexp r <? 0) && (fmant r <? 2 ^ (- fexp r)))).

(** The largest float64 below 1, [1 - 2^-53]; [math/rand] returns
    [float64(Int63n(1<<53)) / (1<<53)], so it is reached. *)
Definition pred_one : float64 := Float64 (2 ^ 53 - 1) (-53).

(** The real value of a float64, for stating bounds. *)
Definition value (x : float64) : Q := (inject_Z (fmant x) * 2 ^ fexp x)%Q.

(** ** internal/backoff/backoff.go *)

Definition Nanosecond : Z := 1.
Definition Second : Z := 1000000000 * Nanosecond.
Definition Minute : Z := 60 * Second.

(** [NextBackoff(base, attempt)]; [r] is the value [rand.Float64()]
    returns. *)
Definition NextBackoff (base : Z) (attempt : Z) (r : float64) : Z :=
  let maxAttempt := 10 in
  let attempt := if maxAttempt <? attempt then maxAttempt else attempt in
  let exponentialDuration := fmul (float64_of_int base) (Pow2 attempt) in
  let maxDuration := 5 * Minute in
  let exponentialDuration :=
    if maxDuration <? int64_of_float exponentialDuration
    then float64_of_int maxDuration
    else exponentialDuration in
  let jitter := int64_of_float (fmul (fmul r exponentialDuration) tenth) in
  wrap64 (int64_of_float exponentialDuration + jitter).

Definition CalculateNextRetryTime (baseDuration : Z) (attempt : Z) (r : float64) : Z :=
  NextBackoff baseDuration attempt r.

Definition ShouldRetry (currentRetries maxRetries : Z) : bool :=
  currentRetries <? maxRetries.

(** ** Errors and formatting *)

(** The reason an API error carries ([apierrors.ReasonForError]);
    [ReasonUnknown] is also what a plain [fmt.Errorf] error has. *)
Inductive StatusReason : Type :=
| ReasonUnknown
| ReasonNotFound
| ReasonAlreadyExists
| ReasonConflict
| ReasonInternalError.

Record error : Type := Error_ { errReason : StatusReason; errMsg : string }.

Definition Errorf (msg : string) : error := Error_ ReasonUnknown msg.

(** [strconv.Quote], which the verb [%q] applies to a string.  The text is
    put between double quotes; a double quote or a backslash in it is
    preceded by a backslash, the printable ASCII bytes (0x20 to 0x7e) are
    copied, and the other bytes below 0x80 are written [\a \b \f \n \r \t
    \v] or [\x] followed by two lower-case hexadecimal digits.  Bytes from
    0x80 on are copied, as Go does for the printable runes of a valid UTF-8
    text (the names of Kubernetes objects are ASCII). *)
Definition lowerhex (d : nat) : Ascii.ascii :=
  Ascii.ascii_of_nat (if (d <? 10)%nat then 48 + d else 87 + d).

Definition appendEscapedRune (c quote : Ascii.ascii) (rest : string) : string :=
  let r := Ascii.nat_of_ascii c in
  let backslash := Ascii.ascii_of_nat 92 in
  if ((r =? Ascii.nat_of_ascii quote) || (r =? 92))%nat
  then String backslash (String c rest)
  else if ((32 <=? r) && (r <=? 126) || (128 <=? r))%nat then String c rest
  else
    match r with
    | 7%nat => String backslash ("a" ++ rest)
    | 8%nat => String backslash ("b" ++ rest)
    | 12%nat => String backslash ("f" ++ rest)
    | 10%nat => String backslash ("n" ++ rest)
    | 13%nat => String backslash ("r" ++ rest)
    | 9%nat => String backslash ("t" ++ rest)
    | 11%nat => String backslash ("v" ++ rest)
    | _ => String backslash
             ("x" ++ String (lowerhex (r / 16)) (String (lowerhex (r mod 16)) rest))
    end.

Fixpoint appendQuoted (s : string) (quote : Ascii.ascii) : string :=
  match s with
  | EmptyString => String quote EmptyString
  | String c rest => appendEscapedRune c quote (appendQuoted rest quote)
  end.

Definition Quote (s : string) : string :=
  let quote := Ascii.ascii_of_nat 34 in
  String quote (appendQuoted s quote).

(** [apierrors.NewNotFound] and [apierrors.NewAlreadyExists], whose messages
    are [fmt.Sprintf("%s %q not found", ...)] and
    [fmt.Sprintf("%s %q already exists", ...)]. *)
Definition NewNotFound (resource name : string) : error :=
  Error_ ReasonNotFound (resource ++ " " ++ Quote name ++ " not found").

Definition NewAlreadyExists (resource name : string) : error :=
  Error_ ReasonAlreadyExists (resource ++ " " ++ Quote name ++ " already exists").

Definition IsNotFound (err : error) : bool :=
  match errReason err with ReasonNotFound => true | _ => false end.

(** [client.IgnoreNotFound(err)]. *)
Definition IgnoreNotFound (err : option error) : option error :=
  match err with
  | Some e => if IsNotFound e then None else Some e
  | None => None
  end.

Definition digit_char (d : Z) : Ascii.ascii := Ascii.ascii_of_nat (48 + Z.to_nat d).

Fixpoint format_digits (fuel : nat) (n : Z) (acc : string) : string :=
  match fuel with
  | O => acc
  | S fuel' =>
      let acc' := String (digit_char (n mod 10)) acc in
      if n / 10 =? 0 then acc' else format_digits fuel' (n / 10) acc'
  end.

(** [fmt.Sprintf("%d", n)] for an integer of at most 64 bits. *)
Definition format_d (n : Z) : string :=
  if n <? 0 then "-" ++ format_digits 20 (- n) ""
  else format_digits 20 n "".

(** ** api/v1alpha1/gpuworkload_types.go and the Kubernetes objects used *)

Record OwnerReference : Type := {
  orAPIVersion : string;
  orKind : string;
  orName : string;
  orUID : string;
  orController : option bool
}.

(** [metav1.ObjectMeta]; a nil map reads like an empty one, so [Labels] and
    [Annotations] are maps.  [DeletionTimestamp] is [None] for the nil (zero)
    timestamp. *)
Record ObjectMeta : Type := {
  Name : string;
  Namespace : string;
  UID : string;
  Labels : gmap string string;
  Annotations : gmap string string;
  OwnerReferences : list OwnerReference;
  Finalizers : list string;
  DeletionTimestamp : option Z
}.

Definition IsZero (t : option Z) : bool :=
  match t with None => true | Some _ => false end.

Record RetryPolicy : Type := {
  MaxRetries : Z;
  BackoffSeconds : Z
}.

Record GPUWorkloadSpec : Type := {
  ModelName : string;
  GPUCount : Z;
  Priority : string;
  SchedulingStrategy : string;
  RetryPolicy_ : option RetryPolicy
}.

Definition GPUWorkloadPhase : Type := string.

Definition PhasePending : GPUWorkloadPhase := "Pending".
Definition PhaseScheduling : GPUWorkloadPhase := "Scheduling".
Definition PhaseScheduled : GPUWorkloadPhase := "Scheduled".
Definition PhaseRunning : GPUWorkloadPhase := "Running".
Definition PhaseFailed : GPUWorkloadPhase := "Failed".
Definition PhaseSucceeded : GPUWorkloadPhase := "Succeeded".

Record GPUWorkloadStatus : Type := {
  Phase : GPUWorkloadPhase;
  AssignedNode : string;
  LastScheduleTime : option Z;
  RetryCount : Z;
  Message : string;
  JobName : string
}.

Record GPUWorkload : Type := {
  APIVersion : string;
  Kind : string;
  Meta : ObjectMeta;
  Spec : GPUWorkloadSpec;
  Status : GPUWorkloadStatus
}.

Definition NodeReady : string := "Ready".
Definition ConditionTrue : string := "True".

Record NodeCondition : Type := {
  condType : string;
  condStatus : string
}.

(** [corev1.Node]; a resource list maps a resource name to the [Value()] of
    its quantity. *)
Record Node : Type := {
  NodeMeta : ObjectMeta;
  Allocatable : gmap string Z;
  Capacity : gmap string Z;
  Conditions : list NodeCondition
}.

Record Container : Type := {
  cName : string;
  Image : string;
  Env : list (string * string);
  Requests : gmap string Z;
  Limits : gmap string Z
}.

(** [batchv1.Job], with the fields [createJobForWorkload] fills in. *)
Record Job : Type := {
  JobMeta : ObjectMeta;
  BackoffLimit : option Z;
  TemplateLabels : gmap string string;
  RestartPolicy : string;
  NodeName : string;
  Containers : list Container
}.

(** The outcome of a function returning [(T, error)] that can also panic. *)
Inductive result (A : Type) : Type :=
| Ok (a : A)
| Err (e : error)
| Crash.

Arguments Ok {A} a.
Arguments Err {A} e.
Arguments Crash {A}.

(** ** internal/scheduling/strategy.go *)

Inductive Strategy : Type :=
| LeastLoadedStrategy
| RandomStrategy
| CostOptimizedStrategy.

Definition Strategy_Name (s : Strategy) : string :=
  match s with
  | LeastLoadedStrategy => "leastLoaded"
  | RandomStrategy => "random"
  | CostOptimizedStrategy => "costOptimized"
  end.

(** [Factory] never returns an error. *)
Definition Factory (strategyName : string) : Strategy * option error :=
  if String.eqb strategyName "leastLoaded" then (LeastLoadedStrategy, None)
  else if String.eqb strategyName "random" then (RandomStrategy, None)
  else if String.eqb strategyName "costOptimized" then (CostOptimizedStrategy, None)
  else (LeastLoadedStrategy, None).

Definition gpuResource : string := "nvidia.com/gpu".
Definition cheapNodeLabel : string := "gpu-orchestrator/cheap-node".

Section Scheduling.

(** [Sscanf_d s] is the value [fmt.Sscanf(s, "%d", &count)] leaves in
    [count], which starts at 0 and stays 0 when the scan fails. *)
Variable Sscanf_d : string -> Z.

Definition getAvailableGPUs (node : Node) : Z :=
  match Allocatable node !! gpuResource with
  | Some quantity => quantity
  | None =>
      match Capacity node !! gpuResource with
      | Some quantity => quantity
      | None =>
          match Labels (NodeMeta node) !! gpuResource with
          | Some gpuLabel =>
              let count := Sscanf_d gpuLabel in
              if 0 <? count then count else 0
          | None => 0
          end
      end
  end.

(** The loop of [LeastLoadedStrategy.ChooseNode]: [bestNode] is the index
    [i] of [&nodes[i]], [None] for nil. *)
Fixpoint LeastLoaded_loop (gpuCount : Z) (nodes : list Node) (i : nat)
    (bestNode : option nat) (maxAvailableGPUs : Z) : option nat * Z :=
  match nodes with
  | [] => (bestNode, maxAvailableGPUs)
  | node :: rest =>
      let availableGPUs := getAvailableGPUs node in
      if (gpuCount <=? availableGPUs) && (maxAvailableGPUs <? availableGPUs)
      then LeastLoaded_loop gpuCount rest (S i) (Some i) availableGPUs
      else LeastLoaded_loop gpuCount rest (S i) bestNode maxAvailableGPUs
  end.

Definition LeastLoaded_ChooseNode (nodes : list Node) (gw : GPUWorkload) : result Node :=
  if (length nodes =? 0)%nat
  then Err (Errorf "no suitable nodes available for GPU workload")
  else
    let '(bestNode, maxAvailableGPUs) :=
      LeastLoaded_loop (GPUCount (Spec gw)) nodes 0 None (-1) in
    match bestNode with
    | None =>
        Err (Errorf ("no node has enough available GPUs for workload requiring "
                     ++ format_d (GPUCount (Spec gw)) ++ " GPUs"))
    | Some i =>
        match nodes !! i with
        | Some node => Ok node
        | None => Crash
        end
    end.

Definition suitable (gpuCount : Z) (node : Node) : bool :=
  gpuCount <=? getAvailableGPUs node.

(** [rnd] is the draw behind [rand.Intn(n)], reduced modulo [n]. *)
Definition Random_ChooseNode (rnd : nat) (nodes : list Node) (gw : GPUWorkload) : result Node :=
  if (length nodes =? 0)%nat
  then Err (Errorf "no suitable nodes available for GPU workload")
  else
    let suitableNodes := filter (fun node => Is_true (suitable (GPUCount (Spec gw)) node)) nodes in
    if (length suitableNodes =? 0)%nat
    then Err (Errorf ("no node has enough available GPUs for workload requiring "
                      ++ format_d (GPUCount (Spec gw)) ++ " GPUs"))
    else
      let selectedIdx := (rnd mod length suitableNodes)%nat in
      match suitableNodes !! selectedIdx with
      | Some node => Ok node
      | None => Crash
      end.

Definition isCheapNode (gpuCount : Z) (node : Node) : bool :=
  match Labels (NodeMeta node) !! cheapNodeLabel with
  | Some isCheap => String.eqb isCheap "true" && (gpuCount <=? getAvailableGPUs node)
  | None => false
  end.

(** The second loop of [CostOptimizedStrategy.ChooseNode], over
    [cheapNodes]: no capacity test. *)
Fixpoint CostOptimized_loop (cheapNodes : list Node) (i : nat)
    (bestNode : option nat) (maxAvailableGPUs : Z) : option nat * Z :=
  match cheapNodes with
  | [] => (bestNode, maxAvailableGPUs)
  | node :: rest =>
      let availableGPUs := getAvailableGPUs node in
      if maxAvailableGPUs <? availableGPUs
      then CostOptimized_loop rest (S i) (Some i) availableGPUs
      else CostOptimized_loop rest (S i) bestNode maxAvailableGPUs
  end.

(** [bestNode.Name] is read for the log line without a nil test: a nil
    [bestNode] panics. *)
Definition CostOptimized_ChooseNode (nodes : list Node) (gw : GPUWorkload) : result Node :=
  if (length nodes =? 0)%nat
  then Err (Errorf "no suitable nodes available for GPU workload")
  else
    let cheapNodes := filter (fun node => Is_true (isCheapNode (GPUCount (Spec gw)) node)) nodes in
    if (0 <? length cheapNodes)%nat
    then
      let '(bestNode, maxAvailableGPUs) := CostOptimized_loop cheapNodes 0 None (-1) in
      match bestNode with
      | None => Crash
      | Some i =>
          match cheapNodes !! i with
          | Some node => Ok node
          | None => Crash
          end
      end
    else LeastLoaded_ChooseNode nodes gw.

Definition ChooseNode (s : Strategy) (rnd : nat) (nodes : list Node) (gw : GPUWorkload)
    : result Node :=
  match s with
  | LeastLoadedStrategy => LeastLoaded_ChooseNode nodes gw
  | RandomStrategy => Random_ChooseNode rnd nodes gw
  | CostOptimizedStrategy => CostOptimized_ChooseNode nodes gw
  end.

(** What the specification asks of LeastLoaded: [n] sits at some index,
    has enough GPUs, no node with enough GPUs has more, and every earlier
    node with enough GPUs has strictly fewer. *)
Definition least_loaded_choice (nodes : list Node) (g : Z) (n : Node) : Prop :=
  exists i, nodes !! i = Some n /\ g <= getAvailableGPUs n /\
    (forall j m, nodes !! j = Some m -> g <= getAvailableGPUs m ->
                 getAvailableGPUs m <= getAvailableGPUs n) /\
    (forall j m, (j < i)%nat -> nodes !! j = Some m -> g <= getAvailableGPUs m ->
                 getAvailableGPUs m < getAvailableGPUs n).

End Scheduling.

(** ** controllers/gpuworkload_controller.go

    The reconciler talks to the API server through [client.Client].  The
    server is a [Cluster]; a pass runs in the monad [M], which threads the
    cluster, the log of client calls and the recorded events, and which a
    [return] of [Reconcile] or a panic leaves early.  The Prometheus counters
    and the logger are written and never read by the code; they are not part
    of the state. *)

(** [types.NamespacedName], as the pair (namespace, name). *)
Abbreviation NamespacedName := (string * string)%type.

Definition finalizerName : string := "gpu.warp.dev/finalizer".
Definition ownershipAnnotation : string := "gpu.warp.dev/created-by".

(** [ctrl.Result]. *)
Record Result : Type := {
  Requeue : bool;
  RequeueAfter : Z
}.

Definition emptyResult : Result := {| Requeue := false; RequeueAfter := 0 |}.

Record Event : Type := {
  evObject : NamespacedName;
  evType : string;
  evReason : string;
  evMessage : string
}.

Definition EventTypeNormal : string := "Normal".
Definition EventTypeWarning : string := "Warning".

(** The client calls of the file, named by their source line. *)
Inductive Site : Type :=
| L77   (* r.Get of the GPUWorkload *)
| L110  (* r.Update adding the finalizer *)
| L120  (* r.Status().Update of the initial phase *)
| L136  (* r.Status().Update to Failed *)
| L147  (* r.List of the nodes *)
| L151  (* r.Status().Update, result dropped *)
| L167  (* r.Status().Update, result dropped *)
| L184  (* r.Status().Update, result dropped *)
| L199  (* r.Status().Update, result dropped *)
| L216  (* r.Status().Update, result dropped *)
| L227  (* r.Status().Update to Scheduled *)
| L249  (* r.Get of the Job, in handleDeletion *)
| L251  (* r.Delete of the Job *)
| L260  (* r.Update removing the finalizer *)
| L274  (* r.Get of the Job, in createJobForWorkload *)
| L342. (* r.Create of the Job *)

Inductive Call : Type :=
| GetWorkload (key : NamespacedName)
| UpdateWorkload (gw : GPUWorkload)
| UpdateStatus (gw : GPUWorkload)
| ListNodes
| GetJob (key : NamespacedName)
| CreateJob (job : Job)
| DeleteJob (key : NamespacedName).

Record Cluster : Type := {
  workloads : gmap NamespacedName GPUWorkload;
  jobs : gmap NamespacedName Job;
  nodes : list Node
}.

Record State : Type := {
  cluster : Cluster;
  calls : list (Site * Call);
  events : list Event
}.

(** What a pass reads from outside the cluster: the clock at the two
    [time.Now()] calls, the error (if any) the API server or the network
    answers each client call with, and the random draws. *)
Record Environment : Type := {
  nowL119 : Z;
  nowL223 : Z;
  fault : Site -> option error;
  randFloat64 : float64;
  randIntn : nat
}.

Inductive flow (A : Type) : Type :=
| Continue (a : A)
| Return (res : Result) (err : option error)
| Panic.

Arguments Continue {A} a.
Arguments Return {A} res err.
Arguments Panic {A}.

Definition M (A : Type) : Type := State -> flow A * State.

#[global] Instance M_ret : MRet M := fun A a st => (Continue a, st).

#[global] Instance M_bind : MBind M := fun A B k m st =>
  match m st with
  | (Continue a, st') => k a st'
  | (Return res err, st') => (Return res err, st')
  | (Panic, st') => (Panic, st')
  end.

(** [return res, err] out of [Reconcile]. *)
Definition exit {A : Type} (res : Result) (err : option error) : M A :=
  fun st => (Return res err, st).

Definition panic {A : Type} : M A := fun st => (Panic, st).

Definition key_of (m : ObjectMeta) : NamespacedName := (Namespace m, Name m).

Definition set_workloads (c : Cluster) (w : gmap NamespacedName GPUWorkload) : Cluster :=
  {| workloads := w; jobs := jobs c; nodes := nodes c |}.

Definition set_jobs (c : Cluster) (j : gmap NamespacedName Job) : Cluster :=
  {| workloads := workloads c; jobs := j; nodes := nodes c |}.

Definition logged (s : Site) (c : Call) (st : State) : State :=
  {| cluster := cluster st; calls := (calls st ++ [(s, c)])%list; events := events st |}.

Definition with_cluster (st : State) (c : Cluster) : State :=
  {| cluster := c; calls := calls st; events := events st |}.

Definition set_Meta (gw : GPUWorkload) (m : ObjectMeta) : GPUWorkload :=
  {| APIVersion := APIVersion gw; Kind := Kind gw; Meta := m;
     Spec := Spec gw; Status := Status gw |}.

Definition set_Status (gw : GPUWorkload) (s : GPUWorkloadStatus) : GPUWorkload :=
  {| APIVersion := APIVersion gw; Kind := Kind gw; Meta := Meta gw;
     Spec := Spec gw; Status := s |}.

Definition set_Finalizers (m : ObjectMeta) (f : list string) : ObjectMeta :=
  {| Name := Name m; Namespace := Namespace m; UID := UID m; Labels := Labels m;
     Annotations := Annotations m; OwnerReferences := OwnerReferences m;
     Finalizers := f; DeletionTimestamp := DeletionTimestamp m |}.

Definition set_Phase (s : GPUWorkloadStatus) (p : GPUWorkloadPhase) : GPUWorkloadStatus :=
  {| Phase := p; AssignedNode := AssignedNode s; LastScheduleTime := LastScheduleTime s;
     RetryCount := RetryCount s; Message := Message s; JobName := JobName s |}.

Definition set_AssignedNode (s : GPUWorkloadStatus) (n : string) : GPUWorkloadStatus :=
  {| Phase := Phase s; AssignedNode := n; LastScheduleTime := LastScheduleTime s;
     RetryCount := RetryCount s; Message := Message s; JobName := JobName s |}.

Definition set_LastScheduleTime (s : GPUWorkloadStatus) (t : option Z) : GPUWorkloadStatus :=
  {| Phase := Phase s; AssignedNode := AssignedNode s; LastScheduleTime := t;
     RetryCount := RetryCount s; Message := Message s; JobName := JobName s |}.

Definition set_RetryCount (s : GPUWorkloadStatus) (n : Z) : GPUWorkloadStatus :=
  {| Phase := Phase s; AssignedNode := AssignedNode s; LastScheduleTime := LastScheduleTime s;
     RetryCount := n; Message := Message s; JobName := JobName s |}.

Definition set_Message (s : GPUWorkloadStatus) (m : string) : GPUWorkloadStatus :=
  {| Phase := Phase s; AssignedNode := AssignedNode s; LastScheduleTime := LastScheduleTime s;
     RetryCount := RetryCount s; Message := m; JobName := JobName s |}.

Definition set_JobName (s : GPUWorkloadStatus) (j : string) : GPUWorkloadStatus :=
  {| Phase := Phase s; AssignedNode := AssignedNode s; LastScheduleTime := LastScheduleTime s;
     RetryCount := RetryCount s; Message := Message s; JobName := j |}.

(** *** The client

    Every call is logged, then fails with the error the environment injects
    at its site, if any, and otherwise acts on the cluster.  Resource
    versions are not modelled: a write conflict is an injected error. *)

Definition client_Get (env : Environment) (s : Site) (key : NamespacedName)
    : M (GPUWorkload + error) := fun st =>
  let st := logged s (GetWorkload key) st in
  match fault env s with
  | Some err => (Continue (inr err), st)
  | None =>
      match workloads (cluster st) !! key with
      | Some gw => (Continue (inl gw), st)
      | None => (Continue (inr (NewNotFound "gpuworkloads.gpu.warp.dev" (snd key))), st)
      end
  end.

(** [r.Update]: with the status subresource enabled the stored status is
    kept; the object in memory is refreshed from the answer.  An object with
    a deletion timestamp disappears once its last finalizer is gone. *)
Definition client_Update (env : Environment) (s : Site) (gw : GPUWorkload)
    : M (GPUWorkload + error) := fun st =>
  let st := logged s (UpdateWorkload gw) st in
  let key := key_of (Meta gw) in
  match fault env s with
  | Some err => (Continue (inr err), st)
  | None =>
      match workloads (cluster st) !! key with
      | None => (Continue (inr (NewNotFound "gpuworkloads.gpu.warp.dev" (snd key))), st)
      | Some stored =>
          let gw' := set_Status gw (Status stored) in
          let w :=
            if negb (IsZero (DeletionTimestamp (Meta gw')))
               && (length (Finalizers (Meta gw')) =? 0)%nat
            then delete key (workloads (cluster st))
            else <[key := gw']> (workloads (cluster st)) in
          (Continue (inl gw'), with_cluster st (set_workloads (cluster st) w))
      end
  end.

(** [r.Status().Update]: only the status is written. *)
Definition client_StatusUpdate (env : Environment) (s : Site) (gw : GPUWorkload)
    : M (GPUWorkload + error) := fun st =>
  let st := logged s (UpdateStatus gw) st in
  let key := key_of (Meta gw) in
  match fault env s with
  | Some err => (Continue (inr err), st)
  | None =>
      match workloads (cluster st) !! key with
      | None => (Continue (inr (NewNotFound "gpuworkloads.gpu.warp.dev" (snd key))), st)
      | Some stored =>
          let gw' := set_Status stored (Status gw) in
          (Continue (inl gw'),
           with_cluster st (set_workloads (cluster st) (<[key := gw']> (workloads (cluster st)))))
      end
  end.

(** [r.Status().Update(ctx, gpuWorkload)] as a statement: the error is
    dropped, and the object in memory is refreshed only on success. *)
Definition client_StatusUpdate_ (env : Environment) (s : Site) (gw : GPUWorkload)
    : M GPUWorkload :=
  u ← client_StatusUpdate env s gw;
  match u with
  | inl gw' => mret gw'
  | inr _ => mret gw
  end.

Definition client_List (env : Environment) (s : Site) : M (list Node + error) := fun st =>
  let st := logged s ListNodes st in
  match fault env s with
  | Some err => (Continue (inr err), st)
  | None => (Continue (inl (nodes (cluster st))), st)
  end.

Definition client_GetJob (env : Environment) (s : Site) (key : NamespacedName)
    : M (Job + error) := fun st =>
  let st := logged s (GetJob key) st in
  match fault env s with
  | Some err => (Continue (inr err), st)
  | None =>
      match jobs (cluster st) !! key with
      | Some job => (Continue (inl job), st)
      | None => (Continue (inr (NewNotFound "jobs.batch" (snd key))), st)
      end
  end.

Definition client_Create (env : Environment) (s : Site) (job : Job)
    : M (option error) := fun st =>
  let st := logged s (CreateJob job) st in
  let key := key_of (JobMeta job) in
  match fault env s with
  | Some err => (Continue (Some err), st)
  | None =>
      match jobs (cluster st) !! key with
      | Some _ => (Continue (Some (NewAlreadyExists "jobs.batch" (snd key))), st)
      | None =>
          (Continue None,
           with_cluster st (set_jobs (cluster st) (<[key := job]> (jobs (cluster st)))))
      end
  end.

Definition client_Delete (env : Environment) (s : Site) (job : Job)
    : M (option error) := fun st =>
  let key := key_of (JobMeta job) in
  let st := logged s (DeleteJob key) st in
  match fault env s with
  | Some err => (Continue (Some err), st)
  | None =>
      match jobs (cluster st) !! key with
      | None => (Continue (Some (NewNotFound "jobs.batch" (snd key))), st)
      | Some _ =>
          (Continue None,
           with_cluster st (set_jobs (cluster st) (delete key (jobs (cluster st)))))
      end
  end.

(** [r.Recorder.Event(gpuWorkload, eventtype, reason, message)]. *)
Definition Recorder_Event (gw : GPUWorkload) (eventtype reason message : string)
    : M unit := fun st =>
  (Continue tt,
   {| cluster := cluster st; calls := calls st;
      events := (events st ++ [{| evObject := key_of (Meta gw); evType := eventtype;
                                  evReason := reason; evMessage := message |}])%list |}).

(** *** Utility functions *)

Fixpoint containsString (l : list string) (s : string) : bool :=
  match l with
  | [] => false
  | v :: rest => if String.eqb v s then true else containsString rest s
  end.

Fixpoint removeString (l : list string) (s : string) : list string :=
  match l with
  | [] => []
  | v :: rest => if negb (String.eqb v s) then v :: removeString rest s else removeString rest s
  end.

Definition boolPtr (b : bool) : option bool := Some b.

(** The quantity [q.Set(int64(len(value)))] builds. *)
Definition parseQuantity (value : string) : Z := Z.of_nat (String.length value).

Fixpoint isNodeReady_loop (conditions : list NodeCondition) : bool :=
  match conditions with
  | [] => false
  | condition :: rest =>
      if String.eqb (condType condition) NodeReady
      then String.eqb (condStatus condition) ConditionTrue
      else isNodeReady_loop rest
  end.

Definition isNodeReady (node : Node) : bool := isNodeReady_loop (Conditions node).

Definition hasGPUs (node : Node) : bool :=
  match Allocatable node !! gpuResource with
  | Some quantity => 0 <? quantity
  | None => false
  end
  || match Capacity node !! gpuResource with
     | Some quantity => 0 <? quantity
     | None => false
     end
  || match Labels (NodeMeta node) !! gpuResource with
     | Some _ => true
     | None => false
     end.

(** *** requeueWithBackoff *)

Definition requeueWithBackoff (env : Environment) (gw : GPUWorkload) : Result * option error :=
  let baseDuration :=
    match RetryPolicy_ (Spec gw) with
    | Some rp =>
        if 0 <? BackoffSeconds rp then wrap64 (BackoffSeconds rp * Second)
        else 30 * Second
    | None => 30 * Second
    end in
  let backoffDuration := NextBackoff baseDuration (RetryCount (Status gw)) (randFloat64 env) in
  ({| Requeue := false; RequeueAfter := backoffDuration |}, None).

(** *** handleDeletion

    Line 251 reads [err != nil && !client.IgnoreNotFound(err) != nil]; it is
    taken as the usual [client.IgnoreNotFound(err) != nil]: a failed delete
    ends the pass unless the Job was already gone. *)
Definition handleDeletion (env : Environment) (gpuWorkload : GPUWorkload)
    : M (Result * option error) :=
  if containsString (Finalizers (Meta gpuWorkload)) finalizerName then
    _ ← (if negb (String.eqb (JobName (Status gpuWorkload)) "") then
           let jobKey := (Namespace (Meta gpuWorkload), JobName (Status gpuWorkload)) in
           g ← client_GetJob env L249 jobKey;
           match g with
           | inl job =>
               d ← client_Delete env L251 job;
               match IgnoreNotFound d with
               | Some err => exit emptyResult (Some err)
               | None => mret tt
               end
           | inr _ => mret tt
           end
         else mret tt);
    let gpuWorkload :=
      set_Meta gpuWorkload
        (set_Finalizers (Meta gpuWorkload)
           (removeString (Finalizers (Meta gpuWorkload)) finalizerName)) in
    u ← client_Update env L260 gpuWorkload;
    match u with
    | inr err => exit emptyResult (Some err)
    | inl _ => mret (emptyResult, None)
    end
  else mret (emptyResult, None).

(** *** createJobForWorkload *)

(** [fmt.Sprintf("%s-job-%s", gw.Name, gw.UID[:8])], line 270. *)
Definition jobNameFor (gw : GPUWorkload) : string :=
  Name (Meta gw) ++ "-job-" ++ String.substring 0 8 (UID (Meta gw)).

Definition buildJob (gw : GPUWorkload) (node : Node) (jobName : string) : Job :=
  {| JobMeta :=
       {| Name := jobName;
          Namespace := Namespace (Meta gw);
          UID := "";
          Labels := {[ "app" := ModelName (Spec gw);
                       "gpu.warp.dev/workload" := Name (Meta gw);
                       "gpu.warp.dev/controller" := "gpu-orchestrator" ]};
          Annotations := {[ ownershipAnnotation := Name (Meta gw) ]};
          OwnerReferences :=
            [ {| orAPIVersion := APIVersion gw; orKind := Kind gw;
                 orName := Name (Meta gw); orUID := UID (Meta gw);
                 orController := boolPtr true |} ];
          Finalizers := [];
          DeletionTimestamp := None |};
     BackoffLimit := Some 0;
     TemplateLabels := {[ "app" := ModelName (Spec gw) ]};
     RestartPolicy := "Never";
     NodeName := Name (NodeMeta node);
     Containers :=
       [ {| cName := "gpu-workload";
            Image := "python:3.11-slim";
            Env := [ ("MODEL_NAME", ModelName (Spec gw));
                     ("GPU_COUNT", format_d (GPUCount (Spec gw))) ];
            Requests := {[ gpuResource := parseQuantity (format_d (GPUCount (Spec gw))) ]};
            Limits := {[ gpuResource := parseQuantity (format_d (GPUCount (Spec gw))) ]} |} ] |}.

(** [gw.UID[:8]] panics when the UID has fewer than 8 bytes. *)
Definition createJobForWorkload (env : Environment) (gw : GPUWorkload) (node : Node)
    : M (Job + error) :=
  if (String.length (UID (Meta gw)) <? 8)%nat then panic
  else
    let jobName := jobNameFor gw in
    g ← client_GetJob env L274 (Namespace (Meta gw), jobName);
    match g with
    | inl existingJob => mret (inl existingJob)
    | inr _ =>
        let job := buildJob gw node jobName in
        c ← client_Create env L342 job;
        match c with
        | Some err => mret (inr err)
        | None => mret (inl job)
        end
    end.

(** *** Reconcile *)

Definition skipped (phase : GPUWorkloadPhase) : bool :=
  String.eqb phase PhaseScheduled || String.eqb phase PhaseRunning
  || String.eqb phase PhaseSucceeded.

(** [maxRetries] of lines 128-131. *)
Definition maxRetriesOf (gw : GPUWorkload) : Z :=
  match RetryPolicy_ (Spec gw) with
  | Some rp => if 0 <? MaxRetries rp then MaxRetries rp else 3
  | None => 3
  end.

Section Reconciler.

Variable Sscanf_d : string -> Z.

Definition Reconcile (env : Environment) (req : NamespacedName)
    : M (Result * option error) :=
  got ← client_Get env L77 req;
  match got with
  | inr err => exit emptyResult (IgnoreNotFound (Some err))
  | inl gpuWorkload =>
  if skipped (Phase (Status gpuWorkload)) then exit emptyResult None
  else if negb (IsZero (DeletionTimestamp (Meta gpuWorkload)))
  then handleDeletion env gpuWorkload
  else
    gpuWorkload ←
      (if negb (containsString (Finalizers (Meta gpuWorkload)) finalizerName) then
         let gw :=
           set_Meta gpuWorkload
             (set_Finalizers (Meta gpuWorkload)
                (Finalizers (Meta gpuWorkload) ++ [finalizerName])%list) in
         u ← client_Update env L110 gw;
         match u with
         | inr err => exit emptyResult (Some err)
         | inl gw' => mret gw'
         end
       else mret gpuWorkload);
    gpuWorkload ←
      (if String.eqb (Phase (Status gpuWorkload)) "" then
         let gw :=
           set_Status gpuWorkload
             (set_LastScheduleTime (set_Phase (Status gpuWorkload) PhasePending)
                (Some (nowL119 env))) in
         u ← client_StatusUpdate env L120 gw;
         match u with
         | inr err => exit emptyResult (Some err)
         | inl gw' => mret gw'
         end
       else mret gpuWorkload);
    let maxRetries := maxRetriesOf gpuWorkload in
    if maxRetries <=? RetryCount (Status gpuWorkload) then
      let gw :=
        set_Status gpuWorkload
          (set_Message (set_Phase (Status gpuWorkload) PhaseFailed)
             ("Failed to schedule after " ++ format_d maxRetries ++ " retries")) in
      u ← client_StatusUpdate env L136 gw;
      match u with
      | inr err => exit emptyResult (Some err)
      | inl gw' =>
          _ ← Recorder_Event gw' EventTypeWarning "MaxRetriesExceeded" (Message (Status gw'));
          mret (emptyResult, None)
      end
    else
    l ← client_List env L147;
    match l with
    | inr err =>
        let gw :=
          set_Status gpuWorkload
            (set_Message (set_Phase (Status gpuWorkload) PhasePending)
               ("Error listing nodes: " ++ errMsg err)) in
        gw ← client_StatusUpdate_ env L151 gw;
        mret (requeueWithBackoff env gw)
    | inl items =>
    let gpuNodes := filter (fun node => Is_true (isNodeReady node && hasGPUs node)) items in
    if (length gpuNodes =? 0)%nat then
      let gw :=
        set_Status gpuWorkload
          (set_Message (set_Phase (Status gpuWorkload) PhasePending)
             "No ready GPU nodes available") in
      gw ← client_StatusUpdate_ env L167 gw;
      mret (requeueWithBackoff env gw)
    else
    let strategyName :=
      if String.eqb (SchedulingStrategy (Spec gpuWorkload)) "" then "leastLoaded"
      else SchedulingStrategy (Spec gpuWorkload) in
    let '(strategy, err) := Factory strategyName in
    match err with
    | Some _ =>
        let gw :=
          set_Status gpuWorkload
            (set_Message (set_Phase (Status gpuWorkload) PhasePending)
               ("Invalid scheduling strategy: " ++ strategyName)) in
        _ ← client_StatusUpdate_ env L184 gw;
        mret (emptyResult, None)
    | None =>
    match ChooseNode Sscanf_d strategy (randIntn env) gpuNodes gpuWorkload with
    | Crash => panic
    | Err err =>
        let gw :=
          set_Status gpuWorkload
            (set_RetryCount
               (set_Message (set_Phase (Status gpuWorkload) PhasePending) (errMsg err))
               (wrap32 (RetryCount (Status gpuWorkload) + 1))) in
        gw ← client_StatusUpdate_ env L199 gw;
        mret (requeueWithBackoff env gw)
    | Ok selectedNode =>
    j ← createJobForWorkload env gpuWorkload selectedNode;
    match j with
    | inr err =>
        let gw :=
          set_Status gpuWorkload
            (set_RetryCount
               (set_Message (set_Phase (Status gpuWorkload) PhasePending)
                  ("Failed to create job: " ++ errMsg err))
               (wrap32 (RetryCount (Status gpuWorkload) + 1))) in
        gw ← client_StatusUpdate_ env L216 gw;
        mret (requeueWithBackoff env gw)
    | inl job =>
        let gw :=
          set_Status gpuWorkload
            (set_Message
               (set_JobName
                  (set_LastScheduleTime
                     (set_AssignedNode (set_Phase (Status gpuWorkload) PhaseScheduled)
                        (Name (NodeMeta selectedNode)))
                     (Some (nowL223 env)))
                  (Name (JobMeta job)))
               ("Successfully scheduled on node " ++ Name (NodeMeta selectedNode)
                ++ " using " ++ Strategy_Name strategy ++ " strategy")) in
        u ← client_StatusUpdate env L227 gw;
        match u with
        | inr err => exit emptyResult (Some err)
        | inl gw' =>
            _ ← Recorder_Event gw' EventTypeNormal "Scheduled" (Message (Status gw'));
            mret (emptyResult, None)
        end
    end
    end
    end
    end
  end.

(** The three stages of [Reconcile] after the deletion test (lines
    107-114, 116-125 and 127-240), named for the proofs;
    [Reconcile_stages] shows [Reconcile] is their sequence. *)
Definition Reconcile_L107 (env : Environment) (gpuWorkload : GPUWorkload)
    : M GPUWorkload :=
      (if negb (containsString (Finalizers (Meta gpuWorkload)) finalizerName) then
         let gw :=
           set_Meta gpuWorkload
             (set_Finalizers (Meta gpuWorkload)
                (Finalizers (Meta gpuWorkload) ++ [finalizerName])%list) in
         u ← client_Update env L110 gw;
         match u with
         | inr err => exit emptyResult (Some err)
         | inl gw' => mret gw'
         end
       else mret gpuWorkload).

Definition Reconcile_L116 (env : Environment) (gpuWorkload : GPUWorkload)
    : M GPUWorkload :=
      (if String.eqb (Phase (Status gpuWorkload)) "" then
         let gw :=
           set_Status gpuWorkload
             (set_LastScheduleTime (set_Phase (Status gpuWorkload) PhasePending)
                (Some (nowL119 env))) in
         u ← client_StatusUpdate env L120 gw;
         match u with
         | inr err => exit emptyResult (Some err)
         | inl gw' => mret gw'
         end
       else mret gpuWorkload).

Definition Reconcile_L127 (env : Environment) (gpuWorkload : GPUWorkload)
    : M (Result * option error) :=
    let maxRetries := maxRetriesOf gpuWorkload in
    if maxRetries <=? RetryCount (Status gpuWorkload) then
      let gw :=
        set_Status gpuWorkload
          (set_Message (set_Phase (Status gpuWorkload) PhaseFailed)
             ("Failed to schedule after " ++ format_d maxRetries ++ " retries")) in
      u ← client_StatusUpdate env L136 gw;
      match u with
      | inr err => exit emptyResult (Some err)
      | inl gw' =>
          _ ← Recorder_Event gw' EventTypeWarning "MaxRetriesExceeded" (Message (Status gw'));
          mret (emptyResult, None)
      end
    else
    l ← client_List env L147;
    match l with
    | inr err =>
        let gw :=
          set_Status gpuWorkload
            (set_Message (set_Phase (Status gpuWorkload) PhasePending)
               ("Error listing nodes: " ++ errMsg err)) in
        gw ← client_StatusUpdate_ env L151 gw;
        mret (requeueWithBackoff env gw)
    | inl items =>
    let gpuNodes := filter (fun node => Is_true (isNodeReady node && hasGPUs node)) items in
    if (length gpuNodes =? 0)%nat then
      let gw :=
        set_Status gpuWorkload
          (set_Message (set_Phase (Status gpuWorkload) PhasePending)
             "No ready GPU nodes available") in
      gw ← client_StatusUpdate_ env L167 gw;
      mret (requeueWithBackoff env gw)
    else
    let strategyName :=
      if String.eqb (SchedulingStrategy (Spec gpuWorkload)) "" then "leastLoaded"
      else SchedulingStrategy (Spec gpuWorkload) in
    let '(strategy, err) := Factory strategyName in
    match err with
    | Some _ =>
        let gw :=
          set_Status gpuWorkload
            (set_Message (set_Phase (Status gpuWorkload) PhasePending)
               ("Invalid scheduling strategy: " ++ strategyName)) in
        _ ← client_StatusUpdate_ env L184 gw;
        mret (emptyResult, None)
    | None =>
    match ChooseNode Sscanf_d strategy (randIntn env) gpuNodes gpuWorkload with
    | Crash => panic
    | Err err =>
        let gw :=
          set_Status gpuWorkload
            (set_RetryCount
               (set_Message (set_Phase (Status gpuWorkload) PhasePending) (errMsg err))
               (wrap32 (RetryCount (Status gpuWorkload) + 1))) in
        gw ← client_StatusUpdate_ env L199 gw;
        mret (requeueWithBackoff env gw)
    | Ok selectedNode =>
    j ← createJobForWorkload env gpuWorkload selectedNode;
    match j with
    | inr err =>
        let gw :=
          set_Status gpuWorkload
            (set_RetryCount
               (set_Message (set_Phase (Status gpuWorkload) PhasePending)
                  ("Failed to create job: " ++ errMsg err))
               (wrap32 (RetryCount (Status gpuWorkload) + 1))) in
        gw ← client_StatusUpdate_ env L216 gw;
        mret (requeueWithBackoff env gw)
    | inl job =>
        let gw :=
          set_Status gpuWorkload
            (set_Message
               (set_JobName
                  (set_LastScheduleTime
                     (set_AssignedNode (set_Phase (Status gpuWorkload) PhaseScheduled)
                        (Name (NodeMeta selectedNode)))
                     (Some (nowL223 env)))
                  (Name (JobMeta job)))
               ("Successfully scheduled on node " ++ Name (NodeMeta selectedNode)
                ++ " using " ++ Strategy_Name strategy ++ " strategy")) in
        u ← client_StatusUpdate env L227 gw;
        match u with
        | inr err => exit emptyResult (Some err)
        | inl gw' =>
            _ ← Recorder_Event gw' EventTypeNormal "Scheduled" (Message (Status gw'));
            mret (emptyResult, None)
        end
    end
    end
    end
    end.

End Reconciler.

(** What the caller of a pass sees. *)
Inductive outcome : Type :=
| Returned (res : Result) (err : option error)
| Panicked.

Definition run (m : M (Result * option error)) (st : State) : outcome * State :=
  match m st with
  | (Continue (res, err), st') => (Returned res err, st')
  | (Return res err, st') => (Returned res err, st')
  | (Panic, st') => (Panicked, st')
  end.

(** ** Definitions used in the statements *)

(** The state after one pass for each environment of [envs], in order. *)
Fixpoint passes (Sscanf_d : string -> Z) (envs : list Environment) (req : NamespacedName)
    (st : State) : State :=
  match envs with
  | [] => st
  | env :: rest => passes Sscanf_d rest req (snd (run (Reconcile Sscanf_d env req) st))
  end.

(** *** Objects of internal/scheduling/strategy_test.go *)

Definition createMockNode (name : string) (gpuCount : Z) : Node :=
  {| NodeMeta :=
       {| Name := name; Namespace := ""; UID := ""; Labels := ∅; Annotations := ∅;
          OwnerReferences := []; Finalizers := []; DeletionTimestamp := None |};
     Allocatable := {[ gpuResource := gpuCount ]};
     Capacity := {[ gpuResource := gpuCount ]};
     Conditions := [ {| condType := NodeReady; condStatus := ConditionTrue |} ] |}.

Definition set_Labels (node : Node) (labels : gmap string string) : Node :=
  {| NodeMeta :=
       {| Name := Name (NodeMeta node); Namespace := Namespace (NodeMeta node);
          UID := UID (NodeMeta node); Labels := labels;
          Annotations := Annotations (NodeMeta node);
          OwnerReferences := OwnerReferences (NodeMeta node);
          Finalizers := Finalizers (NodeMeta node);
          DeletionTimestamp := DeletionTimestamp (NodeMeta node) |};
     Allocatable := Allocatable node;
     Capacity := Capacity node;
     Conditions := Conditions node |}.

Definition createMockGPUWorkload (gpuCount : Z) : GPUWorkload :=
  {| APIVersion := ""; Kind := "";
     Meta :=
       {| Name := "test-workload"; Namespace := "default"; UID := ""; Labels := ∅;
          Annotations := ∅; OwnerReferences := []; Finalizers := [];
          DeletionTimestamp := None |};
     Spec :=
       {| ModelName := "test-model"; GPUCount := gpuCount; Priority := "";
          SchedulingStrategy := ""; RetryPolicy_ := None |};
     Status :=
       {| Phase := ""; AssignedNode := ""; LastScheduleTime := None; RetryCount := 0;
          Message := ""; JobName := "" |} |}.

(** The number of [r.Create] calls in a log. *)
Definition isCreate (c : Site * Call) : bool :=
  match snd c with CreateJob _ => true | _ => false end.

Definition creates (log : list (Site * Call)) : nat :=
  length (filter (fun c => Is_true (isCreate c)) log).

(** The number of [r.Delete] calls in a log. *)
Definition isDelete (c : Site * Call) : bool :=
  match snd c with DeleteJob _ => true | _ => false end.

Definition deletes (log : list (Site * Call)) : nat :=
  length (filter (fun c => Is_true (isDelete c)) log).

(** Objects are stored under their own namespace and name. *)
Definition jobs_keyed (c : Cluster) : Prop :=
  forall k j, jobs c !! k = Some j -> key_of (JobMeta j) = k.

Definition workloads_keyed (c : Cluster) : Prop :=
  forall k gw, workloads c !! k = Some gw -> key_of (Meta gw) = k.

(** *** A request, a node and an environment for the examples *)

Definition sampleWorkload : GPUWorkload :=
  {| APIVersion := "gpu.warp.dev/v1alpha1"; Kind := "GPUWorkload";
     Meta :=
       {| Name := "train"; Namespace := "default";
          UID := "0a1b2c3d-0000-4000-8000-000000000001"; Labels := ∅;
          Annotations := ∅; OwnerReferences := []; Finalizers := [finalizerName];
          DeletionTimestamp := None |};
     Spec :=
       {| ModelName := "llama2"; GPUCount := 2; Priority := "normal";
          SchedulingStrategy := "leastLoaded";
          RetryPolicy_ := Some {| MaxRetries := 3; BackoffSeconds := 30 |} |};
     Status :=
       {| Phase := PhasePending; AssignedNode := ""; LastScheduleTime := Some 100;
          RetryCount := 0; Message := ""; JobName := "" |} |}.

Definition with_status (gw : GPUWorkload) (phase : GPUWorkloadPhase) (retryCount : Z)
    (jobName : string) : GPUWorkload :=
  set_Status gw
    (set_JobName (set_RetryCount (set_Phase (Status gw) phase) retryCount) jobName).

Definition deleted_at (gw : GPUWorkload) (t : Z) : GPUWorkload :=
  {| APIVersion := APIVersion gw; Kind := Kind gw;
     Meta :=
       {| Name := Name (Meta gw); Namespace := Namespace (Meta gw); UID := UID (Meta gw);
          Labels := Labels (Meta gw); Annotations := Annotations (Meta gw);
          OwnerReferences := OwnerReferences (Meta gw);
          Finalizers := Finalizers (Meta gw); DeletionTimestamp := Some t |};
     Spec := Spec gw; Status := Status gw |}.

Definition noFault : Site -> option error := fun _ => None.

#[global] Instance Site_eq_dec : EqDecision Site.
Proof. solve_decision. Defined.

(** The call at site [s] fails with [e]; the others succeed. *)
Definition failing (s : Site) (e : error) : Site -> option error :=
  fun s' => if decide (s' = s) then Some e else None.

Definition sampleEnv (f : Site -> option error) : Environment :=
  {| nowL119 := 1000; nowL223 := 2000; fault := f;
     randFloat64 := Float64 0 0; randIntn := 0 |}.

(** A cluster holding one request, the given Jobs and nodes, before any
    call. *)
Definition clusterOf (gw : GPUWorkload) (js : list Job) (ns : list Node) : State :=
  {| cluster :=
       {| workloads := {[ key_of (Meta gw) := gw ]};
          jobs := list_to_map (map (fun j => (key_of (JobMeta j), j)) js);
          nodes := ns |};
     calls := []; events := [] |}.

Definition sampleKey : NamespacedName := key_of (Meta sampleWorkload).

Definition twoNodes : list Node := [createMockNode "node1" 2; createMockNode "node2" 4].

Definition sampleJob : Job :=
  buildJob sampleWorkload (createMockNode "node1" 2) (jobNameFor sampleWorkload).

(** The request once scheduled, and once its deletion has been asked for. *)
Definition scheduledWorkload : GPUWorkload :=
  with_status sampleWorkload PhaseScheduled 0 (jobNameFor sampleWorkload).

Definition deletedScheduled : GPUWorkload := deleted_at scheduledWorkload 5000.

(** The request after one and after three failed attempts. *)
Definition retriedWorkload : GPUWorkload := with_status sampleWorkload PhasePending 1 "".

Definition exhaustedWorkload : GPUWorkload := with_status sampleWorkload PhasePending 3 "".

Definition boom : error := Errorf "connection refused".

(** [st'] differs from [st] at most in the request stored at [req]. *)
Definition only_workload_changed (req : NamespacedName) (st st' : State) : Prop :=
  jobs (cluster st') = jobs (cluster st) /\
  nodes (cluster st') = nodes (cluster st) /\
  forall k, k <> req -> workloads (cluster st') !! k = workloads (cluster st) !! k.

(** The object in memory is the stored one. *)
Definition synced (gw : GPUWorkload) (st : State) : Prop :=
  workloads (cluster st) !! key_of (Meta gw) = Some gw.

(** [gw1] is [gw] after lines 107-125: the same request, with the finalizer,
    and with the phase initialised if it was empty. *)
Definition prepared (env : Environment) (gw gw1 : GPUWorkload) : Prop :=
  APIVersion gw1 = APIVersion gw /\ Kind gw1 = Kind gw /\ Spec gw1 = Spec gw /\
  Name (Meta gw1) = Name (Meta gw) /\ Namespace (Meta gw1) = Namespace (Meta gw) /\
  UID (Meta gw1) = UID (Meta gw) /\
  DeletionTimestamp (Meta gw1) = DeletionTimestamp (Meta gw) /\
  containsString (Finalizers (Meta gw1)) finalizerName = true /\
  (Status gw1 = Status gw /\ Phase (Status gw) <> "" \/
   Phase (Status gw) = "" /\
   Status gw1 = set_LastScheduleTime (set_Phase (Status gw) PhasePending)
                  (Some (nowL119 env))).

(** The strategy, the candidate nodes and the base delay a pass uses (lines
    174-179, 156-161 and 351-354). *)
Definition strategyOf (gw : GPUWorkload) : Strategy :=
  fst (Factory (if String.eqb (SchedulingStrategy (Spec gw)) "" then "leastLoaded"
                else SchedulingStrategy (Spec gw))).

Definition gpuNodesOf (st : State) : list Node :=
  filter (fun node => Is_true (isNodeReady node && hasGPUs node)) (nodes (cluster st)).

Definition baseDurationOf (gw : GPUWorkload) : Z :=
  match RetryPolicy_ (Spec gw) with
  | Some rp =>
      if 0 <? BackoffSeconds rp then wrap64 (BackoffSeconds rp * Second) else 30 * Second
  | None => 30 * Second
  end.

(** An int32 field holds an int32. *)
Definition int32_range (z : Z) : Prop := - 2 ^ 31 <= z <= 2 ^ 31 - 1.

(** How the four transient paths of [Reconcile] end: the status [status] is
    written at [site] (the write can fail, its error is dropped), nothing
    else changes, and the pass asks to be requeued after the backoff computed
    from the status in memory. *)
Definition transient_outcome (env : Environment) (gw : GPUWorkload) (st : State)
    (site : Site) (status : GPUWorkloadStatus)
    (out : flow (Result * option error)) (st' : State) : Prop :=
  out = Continue (requeueWithBackoff env (set_Status gw status)) /\
  only_workload_changed (key_of (Meta gw)) st st' /\
  events st' = events st /\
  (creates (calls st') <= creates (calls st) + 1)%nat /\
  deletes (calls st') = deletes (calls st) /\
  workloads (cluster st') !! key_of (Meta gw)
  = Some (match fault env site with Some _ => gw | None => set_Status gw status end).

Definition pendingStatus (s : GPUWorkloadStatus) (message : string) : GPUWorkloadStatus :=
  set_Message (set_Phase s PhasePending) message.

Definition retryStatus (s : GPUWorkloadStatus) (message : string) : GPUWorkloadStatus :=
  set_RetryCount (set_Message (set_Phase s PhasePending) message)
    (wrap32 (RetryCount s + 1)).

(** The statuses lines 127-240 can write for the request [gw] read at the
    start of the pass. *)
Definition tail_status (gw : GPUWorkload) (s' : GPUWorkloadStatus) : Prop :=
  (maxRetriesOf gw <= RetryCount (Status gw) /\
   Phase s' = PhaseFailed /\ RetryCount s' = RetryCount (Status gw)) \/
  (RetryCount (Status gw) < maxRetriesOf gw /\ Phase s' = PhasePending /\
   (RetryCount s' = RetryCount (Status gw) \/
    RetryCount s' = wrap32 (RetryCount (Status gw) + 1))) \/
  (RetryCount (Status gw) < maxRetriesOf gw /\ Phase s' = PhaseScheduled /\
   RetryCount s' = RetryCount (Status gw)).

(** What one stage of a pass may do to the state around the request [gw]:
    nodes and the other requests are untouched, no Job is deleted, at most
    one is created, under the derived name, and at most one event is
    recorded. *)
Definition pass_frame (gw : GPUWorkload) (st st' : State) : Prop :=
  nodes (cluster st') = nodes (cluster st) /\
  (forall k, k <> key_of (Meta gw) ->
             workloads (cluster st') !! k = workloads (cluster st) !! k) /\
  (creates (calls st') <= creates (calls st) + 1)%nat /\
  deletes (calls st') = deletes (calls st) /\
  (jobs (cluster st') = jobs (cluster st) \/
   jobs (cluster st) !! (Namespace (Meta gw), jobNameFor gw) = None /\
   exists node, jobs (cluster st')
     = <[(Namespace (Meta gw), jobNameFor gw) := buildJob gw node (jobNameFor gw)]>
         (jobs (cluster st))) /\
  (events st' = events st \/ exists ev, events st' = (events st ++ [ev])%list).

(** The request without the controller's finalizer (line 259). *)
Definition withoutFinalizer (gw : GPUWorkload) : GPUWorkload :=
  set_Meta gw
    (set_Finalizers (Meta gw) (removeString (Finalizers (Meta gw)) finalizerName)).

(** How one pass may change the retry count and the phase of the request
    [gw] it read. *)
Definition status_step (gw : GPUWorkload) (s' : GPUWorkloadStatus) : Prop :=
  (RetryCount s' = RetryCount (Status gw) \/
   RetryCount (Status gw) < maxRetriesOf gw /\
   RetryCount s' = wrap32 (RetryCount (Status gw) + 1) /\ Phase s' = PhasePending) /\
  (Phase s' = Phase (Status gw) \/
   Phase (Status gw) = "" /\ Phase s' = PhasePending \/
   maxRetriesOf gw <= RetryCount (Status gw) /\ Phase s' = PhaseFailed \/
   RetryCount (Status gw) < maxRetriesOf gw /\
   (Phase s' = PhasePending \/ Phase s' = PhaseScheduled)).

(** The answer of a pass that asks to be run again after the backoff for
    [attempt] retries. *)
Definition requeued (env : Environment) (gw : GPUWorkload) (attempt : Z) : outcome :=
  Returned {| Requeue := false;
              RequeueAfter := NextBackoff (baseDurationOf gw) attempt (randFloat64 env) |}
           None.

(** The request stored at [req] is Pending with the given retry count and
    message. *)
Definition stored_pending (st : State) (req : NamespacedName) (retryCount : Z)
    (message : string) : Prop :=
  exists gw', workloads (cluster st) !! req = Some gw' /\
              Phase (Status gw') = PhasePending /\
              RetryCount (Status gw') = retryCount /\ Message (Status gw') = message.

(** [gw2] is the request [gw] up to its finalizers and its status. *)
Definition same_request (gw gw2 : GPUWorkload) : Prop :=
  APIVersion gw2 = APIVersion gw /\ Kind gw2 = Kind gw /\ Spec gw2 = Spec gw /\
  key_of (Meta gw2) = key_of (Meta gw) /\ UID (Meta gw2) = UID (Meta gw) /\
  DeletionTimestamp (Meta gw2) = DeletionTimestamp (Meta gw).

(** The status holds a Job name only in a phase the reconciler skips: what
    holds of a request whose status only this controller has written. *)
Definition job_only_when_scheduled (gw : GPUWorkload) : Prop :=
  JobName (Status gw) <> "" -> skipped (Phase (Status gw)) = true.

(** The state after the pass of [env] over [req]. *)
Definition after (Sscanf_d : string -> Z) (env : Environment) (req : NamespacedName)
    (st : State) : State :=
  snd (run (Reconcile Sscanf_d env req) st).

(** The status lines 221-225 write for the chosen node and the Job. *)
Definition scheduledStatus (env : Environment) (gw : GPUWorkload) (node : Node) (job : Job)
    : GPUWorkloadStatus :=
  set_Message
    (set_JobName
       (set_LastScheduleTime
          (set_AssignedNode (set_Phase (Status gw) PhaseScheduled) (Name (NodeMeta node)))
          (Some (nowL223 env)))
       (Name (JobMeta job)))
    ("Successfully scheduled on node " ++ Name (NodeMeta node)
     ++ " using " ++ Strategy_Name (strategyOf gw) ++ " strategy").

(** Lines 205-239 of [Reconcile], for the node the strategy chose; named
    for the proofs, [Reconcile_L127_chosen] shows it is what [Reconcile]
    runs. *)
Definition Reconcile_L205 (env : Environment) (gw : GPUWorkload) (node : Node)
    : M (Result * option error) :=
  j ← createJobForWorkload env gw node;
  match j with
  | inr err =>
      gw' ← client_StatusUpdate_ env L216
              (set_Status gw
                 (retryStatus (Status gw) ("Failed to create job: " ++ errMsg err)));
      mret (requeueWithBackoff env gw')
  | inl job =>
      u ← client_StatusUpdate env L227 (set_Status gw (scheduledStatus env gw node job));
      match u with
      | inr err => exit emptyResult (Some err)
      | inl gw' =>
          _ ← Recorder_Event gw' EventTypeNormal "Scheduled" (Message (Status gw'));
          mret (emptyResult, None)
      end
  end.

(** The event line 233 records. *)
Definition scheduledEvent (req : NamespacedName) (gw : GPUWorkload) (node : Node) : Event :=
  {| evObject := req; evType := EventTypeNormal; evReason := "Scheduled";
     evMessage := "Successfully scheduled on node " ++ Name (NodeMeta node)
                  ++ " using " ++ Strategy_Name (strategyOf gw) ++ " strategy" |}.

(** A cluster whose only node has one GPU, too few for [sampleWorkload]. *)
Definition smallNodes : list Node := [createMockNode "node1" 1].

(** [sampleWorkload] once its deletion has been asked for; the same with a
    status that names its Job while the phase is still Pending. *)
Definition pendingDeleted : GPUWorkload := deleted_at sampleWorkload 5000.

Definition deletedWithJob : GPUWorkload :=
  deleted_at (with_status sampleWorkload PhasePending 0 (jobNameFor sampleWorkload)) 5000.

(** The request of the strategy tests, which has no UID. *)
Definition mockKey : NamespacedName := key_of (Meta (createMockGPUWorkload 1)).

(** [sampleWorkload] after a pass that found no node with room. *)
Definition noRoomWorkload : GPUWorkload :=
  set_Status sampleWorkload
    (retryStatus (Status sampleWorkload)
       "no node has enough available GPUs for workload requiring 2 GPUs").

(** [exhaustedWorkload] after the pass that gives up. *)
Definition failedWorkload : GPUWorkload :=
  set_Status exhaustedWorkload
    (set_Message (set_Phase (Status exhaustedWorkload) PhaseFailed)
       "Failed to schedule after 3 retries").

(** A label scan that finds no number. *)
Definition no_number : string -> Z := fun _ => 0.


(** The relative error of one rounding to 53 bits, [2 ^ -53]. *)
Definition eps53 : Q := 1 # 9007199254740992.

Definition maxDuration : Z := 5 * Minute.

(** The exponential part of [NextBackoff] after the cap, as an integer: what
    [time.Duration(exponentialDuration)] is at the [return], for a base
    that is not negative. *)
Definition capped (base attempt : Z) : Z :=
  let a := Z.min attempt 10 in
  let e := if 0 <=? a then base * 2 ^ a else base / 2 ^ (- a) in
  Z.min e maxDuration.

(** * Theorems *)

(** ** Machine integers *)

Lemma wrap64_small z : MinInt64 <= z <= MaxInt64 -> wrap64 z = z.
Proof.
  unfold wrap64, wrap, MinInt64, MaxInt64. intros H.
  rewrite Z.mod_small; lia.
Qed.

Lemma wrap32_small z : - 2 ^ 31 <= z <= 2 ^ 31 - 1 -> wrap32 z = z.
Proof.
  unfold wrap32, wrap. intros H.
  rewrite Z.mod_small; lia.
Qed.

(** ** Rounding to 53 bits *)

Lemma rne_bounds m k :
  1 <= k -> m - 2 ^ (k - 1) <= rne m k * 2 ^ k <= m + 2 ^ (k - 1).
Proof.
  intros Hk. unfold rne.
  assert (Hp : 2 ^ k = 2 * 2 ^ (k - 1)).
  { replace k with (Z.succ (k - 1)) at 1 by lia. rewrite Z.pow_succ_r by lia. reflexivity. }
  assert (Hh : 0 < 2 ^ (k - 1)) by (apply Z.pow_pos_nonneg; lia).
  pose proof (Z.div_mod m (2 ^ k) ltac:(lia)) as Hdm.
  pose proof (Z.mod_pos_bound m (2 ^ k) ltac:(lia)) as Hr.
  destruct (Z.ltb_spec (m mod 2 ^ k) (2 ^ (k - 1))); [nia|].
  destruct (Z.ltb_spec (2 ^ (k - 1)) (m mod 2 ^ k)); [nia|].
  destruct (Z.even (m / 2 ^ k)); nia.
Qed.

Lemma rne_nonneg m k : 0 <= k -> 0 <= m -> 0 <= rne m k.
Proof.
  intros Hk Hm. unfold rne.
  assert (0 <= m / 2 ^ k) by (apply Z.div_pos; [lia | apply Z.pow_pos_nonneg; lia]).
  repeat case_match; lia.
Qed.

Lemma round53_nonneg x : 0 <= fmant x -> 0 <= fmant (round53 x).
Proof.
  intros Hm. unfold round53.
  destruct (Z.ltb_spec (Z.abs (fmant x)) (2 ^ 53)) as [|Hbig]; [done|].
  simpl. rewrite Z.abs_eq in * by done.
  apply rne_nonneg; [|done].
  assert (53 <= Z.log2 (fmant x)) by (apply Z.log2_le_pow2; lia). lia.
Qed.


Lemma Qpow2_pos (e : Z) : (0 < 2 ^ e)%Q.
Proof. apply Qpower_0_lt. reflexivity. Qed.

Lemma value_nonneg x : 0 <= fmant x -> (0 <= value x)%Q.
Proof.
  intros Hm. unfold value. apply Qmult_le_0_compat.
  - change 0%Q with (inject_Z 0). rewrite <- Zle_Qle. done.
  - apply Qlt_le_weak, Qpow2_pos.
Qed.

Lemma round53_value_ub x :
  0 <= fmant x -> (value (round53 x) <= value x * (1 + eps53))%Q.
Proof.
  intros Hm. pose proof (value_nonneg x Hm) as Hv. unfold round53.
  destruct (Z.ltb_spec (Z.abs (fmant x)) (2 ^ 53)) as [|Hbig].
  { unfold eps53. nra. }
  rewrite Z.abs_eq in * by done.
  set (L := Z.log2 (fmant x)).
  assert (HL : 53 <= L) by (apply Z.log2_le_pow2; lia).
  destruct (Z.log2_spec (fmant x) ltac:(lia)) as [Hlo _]. fold L in Hlo.
  pose proof (rne_bounds (fmant x) (L - 52) ltac:(lia)) as [_ Hub].
  assert (Hz : rne (fmant x) (L - 52) * 2 ^ (L - 52) * 2 ^ 53 <= fmant x * (2 ^ 53 + 1)).
  { assert (2 ^ (L - 52 - 1) * 2 ^ 53 = 2 ^ L).
    { rewrite <- Z.pow_add_r by lia. f_equal. lia. }
    nia. }
  unfold value; simpl.
  rewrite Qpower_plus by discriminate.
  rewrite <- (Zpower_Qpower 2 (L - 52)) by lia.
  rewrite Zle_Qle in Hz. rewrite !inject_Z_mult, inject_Z_plus in Hz.
  pose proof (Qpow2_pos (fexp x)) as HP.
  set (P := (2 ^ fexp x)%Q) in *.
  set (A := inject_Z (rne (fmant x) (L - 52))) in *.
  set (B := inject_Z (fmant x)) in *.
  set (K := inject_Z (2 ^ (L - 52))) in *.
  assert (HAK : (A * K <= B * (1 + eps53))%Q).
  { unfold eps53. change (inject_Z (2 ^ 53)) with (9007199254740992 # 1)%Q in Hz.
    change (inject_Z 1) with 1%Q in Hz. lra. }
  assert (E1 : (A * (P * K) == (A * K) * P)%Q) by ring.
  assert (E2 : (B * P * (1 + eps53) == (B * (1 + eps53)) * P)%Q) by ring.
  rewrite E1, E2.
  apply Qmult_le_compat_r; [done | lra].
Qed.

Lemma value_mul x y :
  (value (Float64 (fmant x * fmant y) (fexp x + fexp y)) == value x * value y)%Q.
Proof.
  unfold value; simpl. rewrite inject_Z_mult, Qpower_plus by discriminate. ring.
Qed.

Lemma fmul_nonneg x y : 0 <= fmant x -> 0 <= fmant y -> 0 <= fmant (fmul x y).
Proof. intros Hx Hy. unfold fmul. apply round53_nonneg. simpl. nia. Qed.

Lemma fmul_value_ub x y :
  0 <= fmant x -> 0 <= fmant y ->
  (value (fmul x y) <= value x * value y * (1 + eps53))%Q.
Proof.
  intros Hx Hy. unfold fmul. rewrite <- value_mul.
  apply round53_value_ub. simpl. nia.
Qed.

Lemma trunc_nonneg x : 0 <= fmant x -> 0 <= trunc x.
Proof.
  intros Hm. unfold trunc. destruct (Z.leb_spec 0 (fexp x)).
  - assert (0 < 2 ^ fexp x) by (apply Z.pow_pos_nonneg; lia). nia.
  - apply Z.quot_pos; [done|]. apply Z.pow_pos_nonneg; lia.
Qed.

Lemma trunc_le_value x : 0 <= fmant x -> (inject_Z (trunc x) <= value x)%Q.
Proof.
  intros Hm. unfold trunc, value. destruct (Z.leb_spec 0 (fexp x)) as [He|He].
  - rewrite inject_Z_mult, Zpower_Qpower by done. apply Qle_refl.
  - set (n := - fexp x). assert (Hn : 0 < n) by lia.
    assert (Hd : 0 < 2 ^ n) by (apply Z.pow_pos_nonneg; lia).
    rewrite Z.quot_div_nonneg by lia.
    replace (fexp x) with (- n) by lia.
    rewrite Qpower_opp, <- (Zpower_Qpower 2 n) by lia.
    pose proof (Z.mul_div_le (fmant x) (2 ^ n) Hd) as Hq.
    rewrite Zle_Qle, inject_Z_mult in Hq.
    assert (HdQ : (0 < inject_Z (2 ^ n))%Q).
    { change 0%Q with (inject_Z 0). rewrite <- Zlt_Qlt. done. }
    apply Qle_shift_div_l; [exact HdQ | by rewrite Qmult_comm].
Qed.

Lemma unit_float_spec r :
  unit_float r = true -> 0 <= fmant r /\ (value r <= 1 - eps53)%Q.
Proof.
  unfold unit_float. rewrite !andb_true_iff, orb_true_iff, andb_true_iff.
  rewrite Z.leb_le, !Z.ltb_lt, Z.eqb_eq.
  intros [[Hm H53] Hv]. split; [done|].
  destruct Hv as [H0|[He Hlt]].
  { unfold value. rewrite H0. unfold eps53. 
    assert (E : (inject_Z 0 * 2 ^ fexp r == 0)%Q) by ring. rewrite E. lra. }
  set (n := - fexp r) in *. assert (Hn : 0 < n) by lia.
  assert (Hd : 0 < 2 ^ n) by (apply Z.pow_pos_nonneg; lia).
  assert (Hz : fmant r * 2 ^ 53 <= 2 ^ n * (2 ^ 53 - 1)).
  { destruct (Z.le_gt_cases n 53).
    - assert (2 ^ n <= 2 ^ 53) by (apply Z.pow_le_mono_r; lia). nia.
    - assert (2 ^ 54 <= 2 ^ n) by (apply Z.pow_le_mono_r; lia). nia. }
  unfold value. replace (fexp r) with (- n) by lia.
  rewrite Qpower_opp, <- (Zpower_Qpower 2 n) by lia.
  rewrite Zle_Qle, !inject_Z_mult in Hz.
  assert (HdQ : (0 < inject_Z (2 ^ n))%Q).
  { change 0%Q with (inject_Z 0). rewrite <- Zlt_Qlt. done. }
  change (inject_Z (2 ^ 53 - 1)) with (9007199254740991 # 1)%Q in Hz.
  change (inject_Z (2 ^ 53)) with (9007199254740992 # 1)%Q in Hz.
  set (D := inject_Z (2 ^ n)) in *. set (A := inject_Z (fmant r)) in *.
  apply Qle_shift_div_r; [done|]. unfold eps53. nra.
Qed.

Lemma jitter_bounds r E :
  unit_float r = true -> 0 <= fmant E ->
  0 <= trunc (fmul (fmul r E) tenth) /\
  (inject_Z (10 * trunc (fmul (fmul r E) tenth)) <= value E * (1 + 2 * eps53))%Q.
Proof.
  intros Hr HE. destruct (unit_float_spec r Hr) as [Hmr Hvr].
  assert (Ht : 0 <= fmant tenth) by (vm_compute; discriminate).
  pose proof (fmul_nonneg r E Hmr HE) as Hy1.
  pose proof (fmul_nonneg _ tenth Hy1 Ht) as Hy2.
  split; [by apply trunc_nonneg|].
  pose proof (trunc_le_value _ Hy2) as Hj.
  pose proof (fmul_value_ub r E Hmr HE) as H1.
  pose proof (fmul_value_ub _ tenth Hy1 Ht) as H2.
  pose proof (value_nonneg r Hmr) as Hr0.
  pose proof (value_nonneg E HE) as HE0.
  pose proof (value_nonneg _ Hy1) as Hy10.
  rewrite inject_Z_mult.
  assert (Hten : (value tenth == 3602879701896397 # 36028797018963968)%Q) by reflexivity.
  rewrite Hten in H2. clear Hten.
  set (j := inject_Z (trunc (fmul (fmul r E) tenth))) in *.
  set (y2 := value (fmul (fmul r E) tenth)) in *.
  set (y1 := value (fmul r E)) in *.
  set (a := value r) in *. set (V := value E) in *.
  change (inject_Z 10) with 10%Q.
  unfold eps53 in *.
  assert (H3 : (y1 <= V * ((1 - (1 # 9007199254740992)) * (1 + (1 # 9007199254740992))))%Q).
  { assert (a * V <= (1 - (1 # 9007199254740992)) * V)%Q by (apply Qmult_le_compat_r; done).
    lra. }
  lra.
Qed.

Lemma round53_small x : Z.abs (fmant x) < 2 ^ 53 -> round53 x = x.
Proof.
  intros H. unfold round53. destruct (Z.ltb_spec (Z.abs (fmant x)) (2 ^ 53)); [done|lia].
Qed.

Lemma float64_of_int_small z : Z.abs z < 2 ^ 53 -> float64_of_int z = Float64 z 0.
Proof. intros H. unfold float64_of_int. by rewrite round53_small. Qed.

Lemma fmul_Pow2_small z n :
  Z.abs z < 2 ^ 53 -> fmul (float64_of_int z) (Pow2 n) = Float64 z n.
Proof.
  intros H. rewrite float64_of_int_small by done. unfold fmul, Pow2; simpl.
  rewrite Z.mul_1_r. by rewrite round53_small.
Qed.

Lemma value_lt_trunc_succ x :
  0 <= fmant x -> (value x < inject_Z (trunc x) + 1)%Q.
Proof.
  intros Hm. unfold trunc, value. destruct (Z.leb_spec 0 (fexp x)) as [He|He].
  - rewrite inject_Z_mult, (Zpower_Qpower 2) by done.
    change (inject_Z 2) with 2%Q. lra.
  - set (n := - fexp x). assert (Hn : 0 < n) by lia.
    assert (Hd : 0 < 2 ^ n) by (apply Z.pow_pos_nonneg; lia).
    rewrite Z.quot_div_nonneg by lia.
    replace (fexp x) with (- n) by lia.
    rewrite Qpower_opp, <- (Zpower_Qpower 2 n) by lia.
    assert (Hq : fmant x < (fmant x / 2 ^ n + 1) * 2 ^ n).
    { pose proof (Z.div_mod (fmant x) (2 ^ n) ltac:(lia)).
      pose proof (Z.mod_pos_bound (fmant x) (2 ^ n) Hd). nia. }
    rewrite Zlt_Qlt, inject_Z_mult, inject_Z_plus in Hq.
    assert (HdQ : (0 < inject_Z (2 ^ n))%Q).
    { change 0%Q with (inject_Z 0). rewrite <- Zlt_Qlt. done. }
    apply Qlt_shift_div_r; [exact HdQ | exact Hq].
Qed.

Lemma trunc_base_exp base a :
  0 <= base -> trunc (Float64 base a) = if 0 <=? a then base * 2 ^ a else base / 2 ^ (- a).
Proof.
  intros Hb. unfold trunc; simpl. destruct (0 <=? a) eqn:Ha; [done|].
  apply Z.leb_gt in Ha. apply Z.quot_div_nonneg; [done|]. apply Z.pow_pos_nonneg; lia.
Qed.

(** ** NextBackoff *)

Lemma int64_of_float_fits x :
  MinInt64 <= trunc x <= MaxInt64 -> int64_of_float x = trunc x.
Proof.
  intros H. unfold int64_of_float, int64_range.
  destruct (Z.leb_spec MinInt64 (trunc x)), (Z.leb_spec (trunc x) MaxInt64); simpl; lia.
Qed.

Lemma exp_part_range base a :
  0 <= base < 2 ^ 53 -> a <= 10 ->
  0 <= (if 0 <=? a then base * 2 ^ a else base / 2 ^ (- a)) < 2 ^ 63.
Proof.
  intros Hb Ha. destruct (Z.leb_spec 0 a).
  - assert (2 ^ a <= 2 ^ 10) by (apply Z.pow_le_mono_r; lia).
    assert (0 < 2 ^ a) by (apply Z.pow_pos_nonneg; lia).
    change (2 ^ 63) with (2 ^ 53 * 2 ^ 10). change (2 ^ 10) with 1024 in *.
    split; [apply Z.mul_nonneg_nonneg; lia|].
    apply Z.le_lt_trans with (base * 1024); [apply Z.mul_le_mono_nonneg_l; lia | lia].
  - assert (0 < 2 ^ (- a)) by (apply Z.pow_pos_nonneg; lia).
    split; [apply Z.div_pos; lia|].
    apply Z.le_lt_trans with base; [|lia].
    apply Z.div_le_upper_bound; [lia|].
    rewrite <- (Z.mul_1_l base) at 1. apply Z.mul_le_mono_nonneg_r; lia.
Qed.




Lemma maxDuration_eq : maxDuration = 300000000000.
Proof. reflexivity. Qed.

Lemma jitter_of_integral r E d :
  unit_float r = true -> 0 <= fmant E -> 0 <= d <= 300000000000 ->
  trunc E = d ->
  let j := trunc (fmul (fmul r E) tenth) in
  0 <= j /\ 10 * j <= d + 1 /\ ((value E == inject_Z d)%Q -> 10 * j <= d).
Proof.
  intros Hr HEm Hd HD j.
  destruct (jitter_bounds r E Hr HEm) as [Hj0 HjQ]. fold j in Hj0, HjQ.
  pose proof (value_lt_trunc_succ E HEm) as HVlt. rewrite HD in HVlt.
  pose proof (value_nonneg E HEm) as HV0.
  assert (HDQ : (inject_Z d <= 300000000000)%Q).
  { change 300000000000%Q with (inject_Z 300000000000). rewrite <- Zle_Qle. lia. }
  unfold eps53 in HjQ.
  split; [done|]. split.
  - assert (Hlt : (inject_Z (10 * j) < inject_Z (d + 2))%Q).
    { rewrite inject_Z_plus. change (inject_Z 2) with 2%Q. lra. }
    rewrite <- Zlt_Qlt in Hlt. lia.
  - intros HVeq. rewrite HVeq in HjQ.
    assert (Hlt : (inject_Z (10 * j) < inject_Z (d + 1))%Q).
    { rewrite inject_Z_plus. change (inject_Z 1) with 1%Q. lra. }
    rewrite <- Zlt_Qlt in Hlt. lia.
Qed.

Lemma NextBackoff_split base attempt r :
  0 <= base < 2 ^ 53 -> unit_float r = true ->
  exists jitter,
    NextBackoff base attempt r = capped base attempt + jitter /\
    0 <= jitter /\ 10 * jitter <= capped base attempt + 1 /\
    (0 <= attempt -> 10 * jitter <= capped base attempt).
Proof.
  intros Hb Hr. unfold NextBackoff, capped.
  replace (if 10 <? attempt then 10 else attempt) with (Z.min attempt 10)
    by (destruct (Z.ltb_spec 10 attempt); lia).
  set (a := Z.min attempt 10). assert (Ha : a <= 10) by lia.
  rewrite fmul_Pow2_small by lia.
  pose proof (trunc_base_exp base a ltac:(lia)) as HT0.
  pose proof (exp_part_range base a Hb Ha) as HT0r.
  set (T0 := if 0 <=? a then base * 2 ^ a else base / 2 ^ (- a)) in *.
  rewrite (int64_of_float_fits (Float64 base a))
    by (rewrite HT0; unfold MinInt64, MaxInt64; lia).
  rewrite HT0.
  change (5 * Minute) with maxDuration.
  rewrite (float64_of_int_small maxDuration) by (rewrite maxDuration_eq; lia).
  set (E := if maxDuration <? T0 then Float64 maxDuration 0 else Float64 base a).
  set (d := Z.min T0 maxDuration).
  assert (HEm : 0 <= fmant E).
  { subst E. destruct (maxDuration <? T0); simpl; [rewrite maxDuration_eq|]; lia. }
  assert (HD : trunc E = d).
  { subst E d. destruct (Z.ltb_spec maxDuration T0).
    - unfold trunc; simpl. lia.
    - rewrite HT0. lia. }
  assert (Hd : 0 <= d <= 300000000000).
  { subst d. rewrite maxDuration_eq. lia. }
  destruct (jitter_of_integral r E d Hr HEm Hd HD) as (Hj0 & Hj1 & Hj2).
  set (j := trunc (fmul (fmul r E) tenth)) in *.
  rewrite (int64_of_float_fits E) by (rewrite HD; unfold MinInt64, MaxInt64; lia).
  rewrite (int64_of_float_fits (fmul (fmul r E) tenth))
    by (fold j; unfold MinInt64, MaxInt64; lia).
  fold j. rewrite HD.
  rewrite wrap64_small by (unfold MinInt64, MaxInt64; lia).
  exists j. repeat split; try done.
  intros Hat. apply Hj2. rewrite <- HD. subst E. unfold value, trunc.
  destruct (maxDuration <? T0); simpl.
  - rewrite inject_Z_mult. reflexivity.
  - destruct (Z.leb_spec 0 a); [|lia].
    rewrite inject_Z_mult, (Zpower_Qpower 2) by done. reflexivity.
Qed.

Lemma capped_nonneg base attempt : 0 <= base -> 0 <= capped base attempt.
Proof.
  intros Hb. unfold capped. rewrite maxDuration_eq.
  apply Z.min_glb; [|lia].
  destruct (Z.leb_spec 0 (Z.min attempt 10)).
  - apply Z.mul_nonneg_nonneg; [lia|]. apply Z.pow_nonneg; lia.
  - apply Z.div_pos; [lia|]. apply Z.pow_pos_nonneg; lia.
Qed.

Lemma capped_nonneg_attempt base attempt :
  0 <= attempt ->
  capped base attempt = Z.min (base * 2 ^ Z.min attempt 10) (5 * Minute).
Proof.
  intros Ha. unfold capped. destruct (Z.leb_spec 0 (Z.min attempt 10)); [done|lia].
Qed.

Lemma capped_neg_attempt base attempt :
  attempt < 0 ->
  capped base attempt = Z.min (base / 2 ^ (- attempt)) (5 * Minute).
Proof.
  intros Ha. unfold capped. replace (Z.min attempt 10) with attempt by lia.
  destruct (Z.leb_spec 0 attempt); [lia|done].
Qed.

Lemma unit_float_pred_one : unit_float pred_one = true.
Proof. vm_compute. reflexivity. Qed.

Lemma unit_float_zero : unit_float (Float64 0 0) = true.
Proof. vm_compute. reflexivity. Qed.

(** C8, as the code has it: for a base below [2 ^ 53] ns (104 days; the
    float64 of a larger base times [2 ^ 10] need not fit an int64) and an
    attempt that is not negative, [NextBackoff] returns the capped
    exponential [min (base * 2 ^ min (attempt, 10), 5 min)] plus a jitter
    between 0 and a tenth of it, both ends included: [NextBackoff (30s, 0)]
    lies in [[30s, 33s]], [NextBackoff (30s, 1)] in [[60s, 66s]], and
    [NextBackoff (30s, 100)] is at most 5 min plus 30 s. *)
Theorem NextBackoff_capped_exponential_plus_jitter base attempt r :
  0 < base < 2 ^ 53 -> 0 <= attempt -> unit_float r = true ->
  let e := Z.min (base * 2 ^ Z.min attempt 10) (5 * Minute) in
  (e <= NextBackoff base attempt r <= e + e / 10) /\
  (30 * Second <= NextBackoff (30 * Second) 0 r <= 33 * Second) /\
  (60 * Second <= NextBackoff (30 * Second) 1 r <= 66 * Second) /\
  (5 * Minute <= NextBackoff (30 * Second) 100 r <= 5 * Minute + 30 * Second).
Proof.
  intros Hb Ha Hr e.
  assert (Hgen : forall b a, 0 <= b < 2 ^ 53 -> 0 <= a ->
            capped b a <= NextBackoff b a r <= capped b a + capped b a / 10).
  { intros b a Hb' Ha'.
    destruct (NextBackoff_split b a r Hb' Hr) as (j & -> & Hj0 & _ & Hj).
    specialize (Hj Ha').
    assert (j <= capped b a / 10) by (apply Z.div_le_lower_bound; lia). lia. }
  split; [|split; [|split]].
  - subst e. rewrite <- capped_nonneg_attempt by done. apply Hgen; lia.
  - apply (Hgen (30 * Second) 0); [vm_compute; split; [discriminate|reflexivity] | lia].
  - apply (Hgen (30 * Second) 1); [vm_compute; split; [discriminate|reflexivity] | lia].
  - apply (Hgen (30 * Second) 100); [vm_compute; split; [discriminate|reflexivity] | lia].
Qed.

(** C9, as the code has it: a negative attempt is not clamped to 0; the
    exponential part is then [base / 2 ^ |attempt|].  For every base from 0
    to below [2 ^ 53] ns and every attempt the result is at least the capped
    exponential part, hence not negative, and exceeds it by at most a tenth
    of it plus one nanosecond; a zero base gives 0. *)
Theorem NextBackoff_negative_attempt_nonneg_base base attempt r :
  0 <= base < 2 ^ 53 -> unit_float r = true ->
  (attempt < 0 -> capped base attempt = Z.min (base / 2 ^ (- attempt)) (5 * Minute)) /\
  0 <= capped base attempt <= NextBackoff base attempt r /\
  10 * (NextBackoff base attempt r - capped base attempt) <= capped base attempt + 1 /\
  NextBackoff 0 attempt r = 0.
Proof.
  intros Hb Hr. split; [apply capped_neg_attempt|].
  destruct (NextBackoff_split base attempt r Hb Hr) as (j & -> & Hj0 & Hj1 & _).
  pose proof (capped_nonneg base attempt ltac:(lia)).
  split; [lia|]. split; [lia|].
  destruct (NextBackoff_split 0 attempt r ltac:(lia) Hr) as (j0 & -> & Hj00 & Hj01 & _).
  assert (capped 0 attempt = 0).
  { unfold capped. rewrite maxDuration_eq.
    destruct (0 <=? Z.min attempt 10); [rewrite Z.mul_0_l | rewrite Zdiv_0_l]; lia. }
  lia.
Qed.

(** *** The delay over all attempts *)

Lemma fmul_zero x : fmul (Float64 0 0) x = Float64 0 (fexp x).
Proof. reflexivity. Qed.

(** A zero draw adds no jitter. *)
Lemma jitter_zero E : trunc (fmul (fmul (Float64 0 0) E) tenth) = 0.
Proof.
  rewrite fmul_zero. unfold fmul, trunc. simpl fmant. simpl fexp.
  change (round53 (Float64 (0 * fmant tenth) (fexp E + fexp tenth)))
    with (Float64 0 (fexp E + fexp tenth)).
  simpl fmant. simpl fexp. destruct (0 <=? _); reflexivity.
Qed.

Lemma NextBackoff_zero_jitter base attempt :
  0 <= base < 2 ^ 53 -> NextBackoff base attempt (Float64 0 0) = capped base attempt.
Proof.
  intros Hb. unfold NextBackoff, capped.
  replace (if 10 <? attempt then 10 else attempt) with (Z.min attempt 10)
    by (destruct (Z.ltb_spec 10 attempt); lia).
  set (a := Z.min attempt 10). assert (Ha : a <= 10) by lia.
  rewrite fmul_Pow2_small by lia.
  pose proof (trunc_base_exp base a ltac:(lia)) as HT0.
  pose proof (exp_part_range base a Hb Ha) as HT0r.
  set (T0 := if 0 <=? a then base * 2 ^ a else base / 2 ^ (- a)) in *.
  rewrite (int64_of_float_fits (Float64 base a))
    by (rewrite HT0; unfold MinInt64, MaxInt64; lia).
  rewrite HT0.
  change (5 * Minute) with maxDuration.
  rewrite (float64_of_int_small maxDuration) by (rewrite maxDuration_eq; lia).
  set (E := if maxDuration <? T0 then Float64 maxDuration 0 else Float64 base a).
  assert (HD : trunc E = Z.min T0 maxDuration).
  { subst E. destruct (Z.ltb_spec maxDuration T0).
    - unfold trunc; simpl. lia.
    - rewrite HT0. lia. }
  assert (Hd : 0 <= Z.min T0 maxDuration <= 300000000000)
    by (rewrite maxDuration_eq; lia).
  rewrite (int64_of_float_fits E) by (rewrite HD; unfold MinInt64, MaxInt64; lia).
  rewrite (int64_of_float_fits (fmul (fmul (Float64 0 0) E) tenth))
    by (rewrite jitter_zero; unfold MinInt64, MaxInt64; lia).
  rewrite jitter_zero, HD, Z.add_0_r.
  apply wrap64_small. unfold MinInt64, MaxInt64. lia.
Qed.

Lemma capped_le_maxDuration base attempt : capped base attempt <= maxDuration.
Proof. unfold capped. apply Z.le_min_r. Qed.

Lemma capped_mono base a b : 0 <= base -> a <= b -> capped base a <= capped base b.
Proof.
  intros Hb Hab. unfold capped.
  assert (Hm : Z.min a 10 <= Z.min b 10) by lia.
  revert Hm. generalize (Z.min a 10), (Z.min b 10). intros x y Hxy.
  apply Z.min_le_compat_r.
  destruct (Z.leb_spec 0 x), (Z.leb_spec 0 y); try lia.
  - apply Z.mul_le_mono_nonneg_l; [lia|]. apply Z.pow_le_mono_r; lia.
  - assert (0 < 2 ^ (- x)) by (apply Z.pow_pos_nonneg; lia).
    assert (1 <= 2 ^ y) by (apply (Z.pow_le_mono_r 2 0 y); lia).
    apply Z.le_trans with base.
    + apply Z.div_le_upper_bound; [lia|]. nia.
    + nia.
  - assert (0 < 2 ^ (- y)) by (apply Z.pow_pos_nonneg; lia).
    assert (2 ^ (- y) <= 2 ^ (- x)) by (apply Z.pow_le_mono_r; lia).
    apply Z.div_le_compat_l; lia.
Qed.

(** X1: the delay is never negative and never longer than 5 minutes and 30
    seconds, whatever the attempt (negative ones included) and the draw, for
    a base from 0 to below [2 ^ 53] ns: the cap of 5 minutes bounds the
    exponential part only, the jitter comes on top. *)
Theorem CalculateNextRetryTime_within_330s base attempt r :
  0 <= base < 2 ^ 53 -> unit_float r = true ->
  0 <= CalculateNextRetryTime base attempt r <= 5 * Minute + 30 * Second.
Proof.
  intros Hb Hr. unfold CalculateNextRetryTime.
  destruct (NextBackoff_split base attempt r Hb Hr) as (j & -> & Hj0 & Hj1 & _).
  pose proof (capped_nonneg base attempt ltac:(lia)) as H0.
  pose proof (capped_le_maxDuration base attempt) as H1.
  rewrite maxDuration_eq in H1.
  change (5 * Minute + 30 * Second) with 330000000000. lia.
Qed.

(** X2: the delay grows with the attempt: the delay of a later attempt, with
    any jitter, is at least the delay of an earlier attempt without jitter;
    and from attempt 10 on the attempt number no longer matters. *)
Theorem NextBackoff_grows_with_attempt base a b r :
  0 <= base < 2 ^ 53 -> unit_float r = true -> a <= b ->
  NextBackoff base a (Float64 0 0) <= NextBackoff base b r /\
  (10 <= a -> NextBackoff base b r = NextBackoff base a r).
Proof.
  intros Hb Hr Hab. split.
  - rewrite NextBackoff_zero_jitter by done.
    destruct (NextBackoff_split base b r Hb Hr) as (j & -> & Hj0 & _).
    pose proof (capped_mono base a b ltac:(lia) Hab). lia.
  - intros Ha. unfold NextBackoff.
    destruct (Z.ltb_spec 10 a), (Z.ltb_spec 10 b); try lia; try reflexivity.
    + by replace a with 10 by lia.
    + replace b with a by lia. reflexivity.
Qed.

Lemma round53_value_lb x :
  0 <= fmant x -> (value x * (1 - eps53) <= value (round53 x))%Q.
Proof.
  intros Hm. pose proof (value_nonneg x Hm) as Hv. unfold round53.
  destruct (Z.ltb_spec (Z.abs (fmant x)) (2 ^ 53)) as [|Hbig].
  { unfold eps53. nra. }
  rewrite Z.abs_eq in * by done.
  set (L := Z.log2 (fmant x)).
  assert (HL : 53 <= L) by (apply Z.log2_le_pow2; lia).
  destruct (Z.log2_spec (fmant x) ltac:(lia)) as [Hlo _]. fold L in Hlo.
  pose proof (rne_bounds (fmant x) (L - 52) ltac:(lia)) as [Hlb _].
  assert (Hz : fmant x * (2 ^ 53 - 1) <= rne (fmant x) (L - 52) * 2 ^ (L - 52) * 2 ^ 53).
  { assert (2 ^ (L - 52 - 1) * 2 ^ 53 = 2 ^ L).
    { rewrite <- Z.pow_add_r by lia. f_equal. lia. }
    nia. }
  unfold value; simpl.
  rewrite Qpower_plus by discriminate.
  rewrite <- (Zpower_Qpower 2 (L - 52)) by lia.
  rewrite Zle_Qle in Hz. rewrite !inject_Z_mult in Hz.
  pose proof (Qpow2_pos (fexp x)) as HP.
  set (P := (2 ^ fexp x)%Q) in *.
  set (A := inject_Z (rne (fmant x) (L - 52))) in *.
  set (B := inject_Z (fmant x)) in *.
  set (K := inject_Z (2 ^ (L - 52))) in *.
  assert (HAK : (B * (1 - eps53) <= A * K)%Q).
  { unfold eps53. change (inject_Z (2 ^ 53)) with (9007199254740992 # 1)%Q in Hz.
    change (inject_Z (2 ^ 53 - 1)) with (9007199254740991 # 1)%Q in Hz. lra. }
  assert (E1 : (A * (P * K) == (A * K) * P)%Q) by ring.
  assert (E2 : (B * P * (1 - eps53) == (B * (1 - eps53)) * P)%Q) by ring.
  rewrite E1, E2.
  apply Qmult_le_compat_r; [done | lra].
Qed.

Lemma fmul_value_lb x y :
  0 <= fmant x -> 0 <= fmant y ->
  (value x * value y * (1 - eps53) <= value (fmul x y))%Q.
Proof.
  intros Hx Hy. unfold fmul. rewrite <- value_mul.
  apply round53_value_lb. simpl. nia.
Qed.

(** A draw of at least [2 ^ -34] adds at least a nanosecond to an
    exponential part of 5 minutes. *)
Lemma jitter_positive r E :
  unit_float r = true -> 0 <= fmant E -> (300000000000 <= value E)%Q ->
  (1 # 17179869184 <= value r)%Q ->
  1 <= trunc (fmul (fmul r E) tenth).
Proof.
  intros Hr HE HV Hlow. destruct (unit_float_spec r Hr) as [Hmr _].
  assert (Ht : 0 <= fmant tenth) by (vm_compute; discriminate).
  pose proof (fmul_nonneg r E Hmr HE) as Hy1.
  pose proof (fmul_nonneg _ tenth Hy1 Ht) as Hy2.
  pose proof (value_lt_trunc_succ _ Hy2) as Hj.
  pose proof (fmul_value_lb r E Hmr HE) as H1.
  pose proof (fmul_value_lb _ tenth Hy1 Ht) as H2.
  assert (Hten : (value tenth == 3602879701896397 # 36028797018963968)%Q) by reflexivity.
  rewrite Hten in H2. clear Hten.
  assert (Hprod : ((1 # 17179869184) * value E <= value r * value E)%Q)
    by (apply Qmult_le_compat_r; [done | lra]).
  set (j := trunc (fmul (fmul r E) tenth)) in *.
  set (y2 := value (fmul (fmul r E) tenth)) in *.
  set (y1 := value (fmul r E)) in *.
  set (z := (value r * value E)%Q) in *. set (V := value E) in *.
  unfold eps53 in *.
  assert (Hpos : (inject_Z 0 < inject_Z j)%Q).
  { change (inject_Z 0) with 0%Q. lra. }
  rewrite <- Zlt_Qlt in Hpos. lia.
Qed.

Lemma NextBackoff_parts base attempt r :
  0 <= base < 2 ^ 53 -> unit_float r = true ->
  exists E, 0 <= fmant E /\ trunc E = capped base attempt /\
    (0 <= attempt -> (value E == inject_Z (capped base attempt))%Q) /\
    NextBackoff base attempt r = capped base attempt + trunc (fmul (fmul r E) tenth).
Proof.
  intros Hb Hr. unfold NextBackoff, capped.
  replace (if 10 <? attempt then 10 else attempt) with (Z.min attempt 10)
    by (destruct (Z.ltb_spec 10 attempt); lia).
  set (a := Z.min attempt 10). assert (Ha : a <= 10) by lia.
  rewrite fmul_Pow2_small by lia.
  pose proof (trunc_base_exp base a ltac:(lia)) as HT0.
  pose proof (exp_part_range base a Hb Ha) as HT0r.
  set (T0 := if 0 <=? a then base * 2 ^ a else base / 2 ^ (- a)) in *.
  rewrite (int64_of_float_fits (Float64 base a))
    by (rewrite HT0; unfold MinInt64, MaxInt64; lia).
  rewrite HT0.
  change (5 * Minute) with maxDuration.
  rewrite (float64_of_int_small maxDuration) by (rewrite maxDuration_eq; lia).
  set (E := if maxDuration <? T0 then Float64 maxDuration 0 else Float64 base a).
  set (d := Z.min T0 maxDuration).
  assert (HEm : 0 <= fmant E).
  { subst E. destruct (maxDuration <? T0); simpl; [rewrite maxDuration_eq|]; lia. }
  assert (HD : trunc E = d).
  { subst E d. destruct (Z.ltb_spec maxDuration T0).
    - unfold trunc; simpl. lia.
    - rewrite HT0. lia. }
  assert (Hd : 0 <= d <= 300000000000).
  { subst d. rewrite maxDuration_eq. lia. }
  destruct (jitter_of_integral r E d Hr HEm Hd HD) as (Hj0 & Hj1 & _).
  set (j := trunc (fmul (fmul r E) tenth)) in *.
  rewrite (int64_of_float_fits E) by (rewrite HD; unfold MinInt64, MaxInt64; lia).
  rewrite (int64_of_float_fits (fmul (fmul r E) tenth))
    by (fold j; unfold MinInt64, MaxInt64; lia).
  fold j. rewrite HD.
  rewrite wrap64_small by (unfold MinInt64, MaxInt64; lia).
  exists E. split; [done|]. split; [done|]. split; [|done].
  intros Hat. rewrite <- HD. subst E. unfold value, trunc.
  destruct (maxDuration <? T0); simpl.
  - rewrite inject_Z_mult. reflexivity.
  - destruct (Z.leb_spec 0 a); [|lia].
    rewrite inject_Z_mult, (Zpower_Qpower 2) by done. reflexivity.
Qed.

(** X28: the cap of 5 minutes is not a cap on the result: whenever the
    exponential part reaches it, every draw of at least [2 ^ -34] makes
    [NextBackoff] return more than 5 minutes. *)
Theorem NextBackoff_exceeds_5_minutes base attempt r :
  0 <= base < 2 ^ 53 -> 0 <= attempt ->
  5 * Minute <= base * 2 ^ Z.min attempt 10 ->
  unit_float r = true -> (1 # 17179869184 <= value r)%Q ->
  5 * Minute < NextBackoff base attempt r.
Proof.
  intros Hb Ha Hcap Hr Hlow.
  destruct (NextBackoff_parts base attempt r Hb Hr) as (E & HEm & _ & HV & ->).
  specialize (HV Ha).
  assert (Hc : capped base attempt = 300000000000).
  { rewrite capped_nonneg_attempt by done.
    change (5 * Minute) with 300000000000 in *. lia. }
  rewrite Hc in *.
  assert (HV' : (300000000000 <= value E)%Q).
  { rewrite HV. change 300000000000%Q with (inject_Z 300000000000). apply Qle_refl. }
  pose proof (jitter_positive r E Hr HEm HV' Hlow).
  change (5 * Minute) with 300000000000. lia.
Qed.

(** ** Scheduling strategies *)

Section SchedulingFacts.

Variable Sscanf_d : string -> Z.

Local Abbreviation avail := (getAvailableGPUs Sscanf_d).

Lemma LeastLoaded_loop_spec g nodes : forall i best mx best' mx',
  LeastLoaded_loop Sscanf_d g nodes i best mx = (best', mx') ->
  mx <= mx' /\
  (forall j m, nodes !! j = Some m -> g <= avail m -> avail m <= mx') /\
  ((best' = best /\ mx' = mx) \/
   (exists k n, best' = Some (i + k)%nat /\ nodes !! k = Some n /\ mx' = avail n /\
      g <= avail n /\ mx < avail n /\
      forall j m, (j < k)%nat -> nodes !! j = Some m -> g <= avail m -> avail m < avail n)).
Proof.
  induction nodes as [|node rest IH]; intros i best mx best' mx' Hloop; simpl in Hloop.
  - inversion Hloop; subst. split; [lia|]. split; [|by left].
    intros j m Hj. by rewrite lookup_nil in Hj.
  - destruct ((g <=? avail node) && (mx <? avail node)) eqn:Hc.
    + apply andb_true_iff in Hc as [Hg Hm]. apply Z.leb_le in Hg. apply Z.ltb_lt in Hm.
      destruct (IH _ _ _ _ _ Hloop) as (Hmono & Hmax & Hbest).
      split; [lia|]. split.
      * intros [|j] m Hj Hq; simpl in Hj; [inversion Hj; subst; lia | eauto].
      * right. destruct Hbest as [[-> ->] | (k & n & -> & Hk & -> & Hgn & Hlt & Hfirst)].
        -- exists 0%nat, node. rewrite Nat.add_0_r. repeat split; try done. intros; lia.
        -- exists (S k), n. replace (i + S k)%nat with (S i + k)%nat by lia.
           repeat split; try done; [lia|].
           intros [|j] m Hj Hm' Hq; simpl in Hm'; [inversion Hm'; subst; lia|].
           apply (Hfirst j m); [lia|done|done].
    + assert (Hnc : ~ (g <= avail node /\ mx < avail node)).
      { intros [Hg Hm]. apply Z.leb_le in Hg. apply Z.ltb_lt in Hm.
        rewrite Hg, Hm in Hc. discriminate. }
      destruct (IH _ _ _ _ _ Hloop) as (Hmono & Hmax & Hbest).
      split; [lia|]. split.
      * intros [|j] m Hj Hq; simpl in Hj; [inversion Hj; subst; lia | eauto].
      * destruct Hbest as [[-> ->] | (k & n & -> & Hk & -> & Hgn & Hlt & Hfirst)]; [by left|].
        right. exists (S k), n. replace (i + S k)%nat with (S i + k)%nat by lia.
        repeat split; try done.
        intros [|j] m Hj Hm' Hq; simpl in Hm'; [inversion Hm'; subst; lia|].
        apply (Hfirst j m); [lia|done|done].
Qed.

Lemma least_loaded_choice_unique nodes g n n' :
  least_loaded_choice Sscanf_d nodes g n -> least_loaded_choice Sscanf_d nodes g n' -> n = n'.
Proof.
  intros (i & Hi & Hg & Hmax & Hfirst) (i' & Hi' & Hg' & Hmax' & Hfirst').
  destruct (lt_eq_lt_dec i i') as [[Hlt | ->] | Hlt].
  - specialize (Hfirst' i n Hlt Hi Hg). specialize (Hmax i' n' Hi' Hg'). lia.
  - congruence.
  - specialize (Hfirst i' n' Hlt Hi' Hg'). specialize (Hmax' i n Hi Hg). lia.
Qed.

Lemma LeastLoaded_ChooseNode_cases nodes gw :
  0 <= GPUCount (Spec gw) ->
  (exists e, LeastLoaded_ChooseNode Sscanf_d nodes gw = Err e /\
     forall m, m ∈ nodes -> avail m < GPUCount (Spec gw)) \/
  (exists n, LeastLoaded_ChooseNode Sscanf_d nodes gw = Ok n /\
     least_loaded_choice Sscanf_d nodes (GPUCount (Spec gw)) n).
Proof.
  intros Hg. unfold LeastLoaded_ChooseNode.
  destruct nodes as [|node0 rest] eqn:Hnodes.
  { left. eexists. split; [reflexivity|]. intros m Hm. by apply elem_of_nil in Hm. }
  rewrite <- Hnodes. replace (length nodes =? 0)%nat with false
    by (subst nodes; reflexivity).
  destruct (LeastLoaded_loop Sscanf_d (GPUCount (Spec gw)) nodes 0 None (-1))
    as [best' mx'] eqn:Hloop.
  destruct (LeastLoaded_loop_spec _ _ _ _ _ _ _ Hloop) as (_ & Hmax & Hbest).
  destruct Hbest as [[-> ->] | (k & n & -> & Hk & -> & Hgn & _ & Hfirst)].
  - left. eexists. split; [reflexivity|].
    intros m Hm. apply list_elem_of_lookup in Hm as [j Hj].
    destruct (Z.lt_ge_cases (avail m) (GPUCount (Spec gw))) as [|Hq]; [done|].
    specialize (Hmax j m Hj Hq). lia.
  - right. exists n. simpl. rewrite Hk. split; [reflexivity|].
    exists k. repeat split; try done.
Qed.

End SchedulingFacts.

Section StrategyTheorems.

Variable Sscanf_d : string -> Z.

Local Abbreviation avail := (getAvailableGPUs Sscanf_d).

(** C6: for a request of [g >= 0] GPUs, LeastLoaded returns node [n]
    exactly when [n] has the largest [availableGPUs] among the nodes with
    at least [g], the first such node in input order winning ties; it
    returns an error exactly when no node has [g] GPUs (the empty list
    included); and of the nodes with 2, 4 and 1 GPUs it picks the one with
    4 for a 1-GPU request. *)
Theorem LeastLoaded_ChooseNode_correct nodes gw :
  0 <= GPUCount (Spec gw) ->
  (forall n, LeastLoaded_ChooseNode Sscanf_d nodes gw = Ok n <->
             least_loaded_choice Sscanf_d nodes (GPUCount (Spec gw)) n) /\
  ((exists e, LeastLoaded_ChooseNode Sscanf_d nodes gw = Err e) <->
   (forall m, m ∈ nodes -> avail m < GPUCount (Spec gw))) /\
  LeastLoaded_ChooseNode Sscanf_d nodes gw <> Crash /\
  LeastLoaded_ChooseNode Sscanf_d
    [createMockNode "node1" 2; createMockNode "node2" 4; createMockNode "node3" 1]
    (createMockGPUWorkload 1) = Ok (createMockNode "node2" 4).
Proof.
  intros Hg. pose proof (LeastLoaded_ChooseNode_cases Sscanf_d nodes gw Hg) as Hcases.
  split; [|split; [|split]].
  - intros n. split.
    + intros Hn. destruct Hcases as [(e & He & _) | (n' & Hn' & Hc)]; [congruence|].
      rewrite Hn in Hn'. by inversion Hn'; subst.
    + intros Hc. destruct Hcases as [(e & He & Hnone) | (n' & Hn' & Hc')].
      * destruct Hc as (i & Hi & Hq & _).
        assert (Hin : n ∈ nodes) by (apply list_elem_of_lookup; eauto).
        specialize (Hnone n Hin). lia.
      * rewrite Hn'. f_equal. eapply least_loaded_choice_unique; eauto.
  - split.
    + intros [e He]. destruct Hcases as [(e' & _ & Hnone) | (n' & Hn' & _)]; [done|congruence].
    + intros Hnone. destruct Hcases as [(e' & He' & _) | (n' & _ & (i & Hi & Hq & _))]; [eauto|].
      assert (Hin : n' ∈ nodes) by (apply list_elem_of_lookup; eauto).
      specialize (Hnone n' Hin). lia.
  - destruct Hcases as [(e & -> & _) | (n & -> & _)]; discriminate.
  - vm_compute. reflexivity.
Qed.

Lemma loops_agree g (l : list Node) : forall i best mx,
  (forall m, m ∈ l -> g <= avail m) ->
  LeastLoaded_loop Sscanf_d g l i best mx = CostOptimized_loop Sscanf_d l i best mx.
Proof.
  induction l as [|node rest IH]; intros i best mx Hall; simpl; [done|].
  assert (Hq : (g <=? avail node) = true).
  { apply Z.leb_le, Hall. by left. }
  rewrite Hq; simpl.
  destruct (mx <? avail node); apply IH; intros m Hm; apply Hall; by right.
Qed.

Lemma cheapNodes_suitable g (nodes : list Node) m :
  m ∈ filter (fun node => Is_true (isCheapNode Sscanf_d g node)) nodes ->
  m ∈ nodes /\ g <= avail m /\
  Labels (NodeMeta m) !! cheapNodeLabel = Some "true".
Proof.
  intros Hm. apply list_elem_of_filter in Hm as [Hc Hin]. split; [done|].
  unfold isCheapNode in Hc.
  destruct (Labels (NodeMeta m) !! cheapNodeLabel) as [isCheap|]; [|done].
  apply Is_true_true, andb_true_iff in Hc as [Heq Hq].
  apply String.eqb_eq in Heq as ->. apply Z.leb_le in Hq. done.
Qed.

(** C7: for a request of [g >= 0] GPUs, when some node carries the label
    [gpu-orchestrator/cheap-node=true] and has [g] GPUs, CostOptimized
    returns what LeastLoaded returns on those nodes alone, which is one of
    them; when none does, it returns what LeastLoaded returns on the whole
    input, error included.  A labelled node with 4 GPUs is preferred to an
    unlabelled one with 8. *)
Theorem CostOptimized_ChooseNode_correct nodes gw :
  0 <= GPUCount (Spec gw) ->
  let cheapNodes :=
    filter (fun node => Is_true (isCheapNode Sscanf_d (GPUCount (Spec gw)) node)) nodes in
  (cheapNodes <> [] ->
     CostOptimized_ChooseNode Sscanf_d nodes gw
       = LeastLoaded_ChooseNode Sscanf_d cheapNodes gw /\
     exists n, CostOptimized_ChooseNode Sscanf_d nodes gw = Ok n /\ n ∈ cheapNodes) /\
  (cheapNodes = [] ->
     CostOptimized_ChooseNode Sscanf_d nodes gw = LeastLoaded_ChooseNode Sscanf_d nodes gw) /\
  CostOptimized_ChooseNode Sscanf_d
    [set_Labels (createMockNode "expensive-node" 8) {[ cheapNodeLabel := "false" ]};
     set_Labels (createMockNode "cheap-node" 4) {[ cheapNodeLabel := "true" ]}]
    (createMockGPUWorkload 2)
  = Ok (set_Labels (createMockNode "cheap-node" 4) {[ cheapNodeLabel := "true" ]}).
Proof.
  intros Hg cheapNodes. split; [|split].
  - intros Hne.
    assert (Heq : CostOptimized_ChooseNode Sscanf_d nodes gw
                  = LeastLoaded_ChooseNode Sscanf_d cheapNodes gw).
    { unfold CostOptimized_ChooseNode, LeastLoaded_ChooseNode. fold cheapNodes.
      destruct nodes as [|node0 rest]; [done|].
      destruct cheapNodes as [|c0 crest] eqn:Hcheap; [done|]. rewrite <- Hcheap.
      replace (length (node0 :: rest) =? 0)%nat with false by reflexivity.
      replace (0 <? length cheapNodes)%nat with true by (rewrite Hcheap; reflexivity).
      replace (length cheapNodes =? 0)%nat with false by (rewrite Hcheap; reflexivity).
      rewrite <- (loops_agree (GPUCount (Spec gw)))
        by (intros m Hm; by apply cheapNodes_suitable in Hm as (_ & ? & _)).
      destruct (LeastLoaded_loop Sscanf_d (GPUCount (Spec gw)) cheapNodes 0 None (-1))
        as [best' mx'] eqn:Hloop.
      destruct (LeastLoaded_loop_spec _ _ _ _ _ _ _ _ Hloop) as (_ & Hmax & Hbest).
      destruct Hbest as [[-> ->] | (k & n & -> & Hk & _)]; [|done].
      exfalso. assert (Hc0 : c0 ∈ cheapNodes) by (rewrite Hcheap; by left).
      pose proof (cheapNodes_suitable _ _ _ Hc0) as (_ & Hq & _).
      assert (Hl : cheapNodes !! 0%nat = Some c0) by (rewrite Hcheap; reflexivity).
      specialize (Hmax _ _ Hl Hq). lia. }
    split; [done|]. rewrite Heq.
    destruct (LeastLoaded_ChooseNode_cases Sscanf_d cheapNodes gw Hg)
      as [(e & _ & Hnone) | (n & Hn & (i & Hi & _))].
    + exfalso. destruct cheapNodes as [|c0 crest] eqn:Hcheap; [done|].
      assert (Hc0 : c0 ∈ cheapNodes) by (rewrite Hcheap; by left).
      pose proof (cheapNodes_suitable _ _ _ Hc0) as (_ & Hq & _).
      rewrite <- Hcheap in Hnone. specialize (Hnone c0 Hc0). lia.
    + exists n. split; [done|]. apply list_elem_of_lookup. eauto.
  - intros Hnil. unfold CostOptimized_ChooseNode. fold cheapNodes. rewrite Hnil.
    destruct nodes; reflexivity.
  - vm_compute. reflexivity.
Qed.

End StrategyTheorems.

(** *** The three strategies together *)

Section StrategyProperties.

Variable Sscanf_d : string -> Z.

Local Abbreviation avail := (getAvailableGPUs Sscanf_d).

Lemma ChooseNode_nil s rnd gw :
  ChooseNode Sscanf_d s rnd [] gw
  = Err (Errorf "no suitable nodes available for GPU workload").
Proof. by destruct s. Qed.

Lemma LeastLoaded_loop_none g (l : list Node) : forall i best mx,
  (forall m, m ∈ l -> avail m < g) ->
  LeastLoaded_loop Sscanf_d g l i best mx = (best, mx).
Proof.
  induction l as [|node rest IH]; intros i best mx Hall; [done|]. simpl.
  assert (Hn : avail node < g) by (apply Hall; by left).
  replace (g <=? avail node) with false by (symmetry; apply Z.leb_gt; lia).
  simpl. apply IH. intros m Hm. apply Hall. by right.
Qed.

Lemma LeastLoaded_ChooseNode_none (nodes : list Node) gw :
  nodes <> [] -> (forall m, m ∈ nodes -> avail m < GPUCount (Spec gw)) ->
  LeastLoaded_ChooseNode Sscanf_d nodes gw
  = Err (Errorf ("no node has enough available GPUs for workload requiring "
                 ++ format_d (GPUCount (Spec gw)) ++ " GPUs")).
Proof.
  intros Hne Hall. unfold LeastLoaded_ChooseNode.
  replace (length nodes =? 0)%nat with false by (by destruct nodes).
  by rewrite LeastLoaded_loop_none.
Qed.

Lemma LeastLoaded_ChooseNode_sound (nodes : list Node) gw :
  0 <= GPUCount (Spec gw) ->
  LeastLoaded_ChooseNode Sscanf_d nodes gw <> Crash /\
  (forall n, LeastLoaded_ChooseNode Sscanf_d nodes gw = Ok n ->
             n ∈ nodes /\ GPUCount (Spec gw) <= avail n) /\
  (forall e, LeastLoaded_ChooseNode Sscanf_d nodes gw = Err e ->
             forall m, m ∈ nodes -> avail m < GPUCount (Spec gw)).
Proof.
  intros Hg.
  destruct (LeastLoaded_ChooseNode_cases Sscanf_d nodes gw Hg)
    as [(e & -> & Hall) | (n & -> & (i & Hi & Hq & _))].
  - split; [done|]. split; [intros n [=] | intros _ _; exact Hall].
  - split; [done|]. split; [|intros e [=]].
    intros n' [= <-]. split; [|done]. apply list_elem_of_lookup. eauto.
Qed.

Lemma CostOptimized_among_cheap nodes gw :
  0 <= GPUCount (Spec gw) ->
  let cheapNodes :=
    filter (fun node => Is_true (isCheapNode Sscanf_d (GPUCount (Spec gw)) node)) nodes in
  cheapNodes <> [] ->
  CostOptimized_ChooseNode Sscanf_d nodes gw = LeastLoaded_ChooseNode Sscanf_d cheapNodes gw.
Proof.
  intros Hg cheapNodes Hne.
  unfold CostOptimized_ChooseNode, LeastLoaded_ChooseNode. fold cheapNodes.
  destruct nodes as [|node0 rest]; [done|].
  destruct cheapNodes as [|c0 crest] eqn:Hcheap; [done|]. rewrite <- Hcheap.
  replace (length (node0 :: rest) =? 0)%nat with false by reflexivity.
  replace (0 <? length cheapNodes)%nat with true by (rewrite Hcheap; reflexivity).
  replace (length cheapNodes =? 0)%nat with false by (rewrite Hcheap; reflexivity).
  rewrite <- (loops_agree Sscanf_d (GPUCount (Spec gw)))
    by (intros m Hm; by apply cheapNodes_suitable in Hm as (_ & ? & _)).
  destruct (LeastLoaded_loop Sscanf_d (GPUCount (Spec gw)) cheapNodes 0 None (-1))
    as [best' mx'] eqn:Hloop.
  destruct (LeastLoaded_loop_spec _ _ _ _ _ _ _ _ Hloop) as (_ & Hmax & Hbest).
  destruct Hbest as [[-> ->] | (k & n & -> & Hk & _)]; [|done].
  exfalso. assert (Hc0 : c0 ∈ cheapNodes) by (rewrite Hcheap; by left).
  pose proof (cheapNodes_suitable _ _ _ _ Hc0) as (_ & Hq & _).
  assert (Hl : cheapNodes !! 0%nat = Some c0) by (rewrite Hcheap; reflexivity).
  specialize (Hmax _ _ Hl Hq). lia.
Qed.

Lemma CostOptimized_without_cheap nodes gw :
  filter (fun node => Is_true (isCheapNode Sscanf_d (GPUCount (Spec gw)) node)) nodes = [] ->
  CostOptimized_ChooseNode Sscanf_d nodes gw = LeastLoaded_ChooseNode Sscanf_d nodes gw.
Proof.
  intros Hnil. unfold CostOptimized_ChooseNode. rewrite Hnil. by destruct nodes.
Qed.

Lemma Random_ChooseNode_cases rnd (nodes : list Node) gw :
  let suitableNodes :=
    filter (fun node => Is_true (suitable Sscanf_d (GPUCount (Spec gw)) node)) nodes in
  (suitableNodes = [] /\
   Random_ChooseNode Sscanf_d rnd nodes gw
   = Err (Errorf (if decide (nodes = [])
                  then "no suitable nodes available for GPU workload"
                  else "no node has enough available GPUs for workload requiring "
                       ++ format_d (GPUCount (Spec gw)) ++ " GPUs"))) \/
  (exists n, suitableNodes !! (rnd mod length suitableNodes)%nat = Some n /\
             Random_ChooseNode Sscanf_d rnd nodes gw = Ok n).
Proof.
  intros suitableNodes. unfold Random_ChooseNode. fold suitableNodes.
  destruct nodes as [|node0 rest]; [left; split; reflexivity|].
  replace (length (node0 :: rest) =? 0)%nat with false by reflexivity. cbv iota.
  destruct suitableNodes as [|c0 crest] eqn:Hs.
  { left. split; [done|]. by rewrite decide_False. }
  right. rewrite <- Hs.
  replace (length suitableNodes =? 0)%nat with false by (rewrite Hs; reflexivity).
  destruct (lookup_lt_is_Some_2 suitableNodes (rnd mod length suitableNodes)) as [n Hn].
  { apply Nat.mod_upper_bound. by rewrite Hs. }
  exists n. by rewrite Hn.
Qed.

Lemma suitable_spec g node : Is_true (suitable Sscanf_d g node) <-> g <= avail node.
Proof. unfold suitable. rewrite Is_true_true. apply Z.leb_le. Qed.

Lemma ChooseNode_Ok_inv s rnd (nodes : list Node) gw :
  0 <= GPUCount (Spec gw) ->
  ChooseNode Sscanf_d s rnd nodes gw <> Crash /\
  forall n, ChooseNode Sscanf_d s rnd nodes gw = Ok n ->
            n ∈ nodes /\ GPUCount (Spec gw) <= avail n.
Proof.
  intros Hg. destruct s; simpl.
  - destruct (LeastLoaded_ChooseNode_sound nodes gw Hg) as (H1 & H2 & _). done.
  - destruct (Random_ChooseNode_cases rnd nodes gw) as [[_ ->] | (n & Hn & ->)].
    + split; [done | intros n [=]].
    + split; [done|]. intros n' [= <-].
      apply list_elem_of_lookup_2, list_elem_of_filter in Hn as [Hs Hin].
      split; [done | by apply suitable_spec].
  - set (cheapNodes := filter (fun node =>
        Is_true (isCheapNode Sscanf_d (GPUCount (Spec gw)) node)) nodes).
    destruct (decide (cheapNodes = [])) as [Hnil|Hne].
    + rewrite (CostOptimized_without_cheap nodes gw Hnil).
      destruct (LeastLoaded_ChooseNode_sound nodes gw Hg) as (H1 & H2 & _). done.
    + rewrite (CostOptimized_among_cheap nodes gw Hg Hne).
      destruct (LeastLoaded_ChooseNode_sound cheapNodes gw Hg) as (H1 & H2 & _).
      split; [done|]. intros n Hn. apply H2 in Hn as [Hin Hq].
      apply cheapNodes_suitable in Hin as (Hin & _). done.
Qed.

Lemma ChooseNode_none s rnd (nodes : list Node) gw :
  (forall m, m ∈ nodes -> avail m < GPUCount (Spec gw)) ->
  ChooseNode Sscanf_d s rnd nodes gw
  = Err (Errorf (if decide (nodes = [])
                 then "no suitable nodes available for GPU workload"
                 else "no node has enough available GPUs for workload requiring "
                      ++ format_d (GPUCount (Spec gw)) ++ " GPUs")).
Proof.
  intros Hall. destruct (decide (nodes = [])) as [->|Hne]; [apply ChooseNode_nil|].
  assert (Hcheap : filter (fun node =>
            Is_true (isCheapNode Sscanf_d (GPUCount (Spec gw)) node)) nodes = []).
  { destruct (filter _ nodes) as [|c0 crest] eqn:Hc; [done|]. exfalso.
    assert (Hin : c0 ∈ filter (fun node =>
              Is_true (isCheapNode Sscanf_d (GPUCount (Spec gw)) node)) nodes)
      by (rewrite Hc; by left).
    apply cheapNodes_suitable in Hin as (Hin & Hq & _).
    specialize (Hall c0 Hin). lia. }
  destruct s; simpl.
  - by apply LeastLoaded_ChooseNode_none.
  - destruct (Random_ChooseNode_cases rnd nodes gw) as [[_ ->] | (n & Hn & _)].
    + by rewrite decide_False.
    + exfalso.
      apply list_elem_of_lookup_2, list_elem_of_filter in Hn as [Hs Hin].
      apply suitable_spec in Hs. specialize (Hall n Hin). lia.
  - rewrite (CostOptimized_without_cheap nodes gw Hcheap).
    by apply LeastLoaded_ChooseNode_none.
Qed.

Lemma ChooseNode_Err_inv s rnd (nodes : list Node) gw e :
  0 <= GPUCount (Spec gw) -> ChooseNode Sscanf_d s rnd nodes gw = Err e ->
  forall m, m ∈ nodes -> avail m < GPUCount (Spec gw).
Proof.
  intros Hg He. destruct s; simpl in He.
  - destruct (LeastLoaded_ChooseNode_sound nodes gw Hg) as (_ & _ & H3). eauto.
  - destruct (Random_ChooseNode_cases rnd nodes gw) as [[Hnil _] | (n & _ & Hn)].
    + intros m Hm. destruct (Z.lt_ge_cases (avail m) (GPUCount (Spec gw))); [done|].
      exfalso. apply (filter_nil_not_elem_of _ _ m Hnil); [|done].
      apply suitable_spec. lia.
    + congruence.
  - set (cheapNodes := filter (fun node =>
        Is_true (isCheapNode Sscanf_d (GPUCount (Spec gw)) node)) nodes) in *.
    destruct (decide (cheapNodes = [])) as [Hnil|Hne].
    + rewrite (CostOptimized_without_cheap nodes gw Hnil) in He.
      destruct (LeastLoaded_ChooseNode_sound nodes gw Hg) as (_ & _ & H3). eauto.
    + exfalso. rewrite (CostOptimized_among_cheap nodes gw Hg Hne) in He.
      destruct (LeastLoaded_ChooseNode_sound cheapNodes gw Hg) as (_ & _ & H3).
      specialize (H3 e He).
      destruct cheapNodes as [|c0 crest] eqn:Hc; [done|].
      assert (Hin : c0 ∈ c0 :: crest) by (by left).
      specialize (H3 c0 Hin). rewrite <- Hc in Hin.
      apply cheapNodes_suitable in Hin as (_ & Hq & _). lia.
Qed.

(** X3: whatever the strategy and the random draw, a request for [g >= 0] GPUs
    is never answered with a panic, and a node that is returned is one of
    the nodes passed in and has at least [g] GPUs available. *)
Theorem ChooseNode_sound s rnd (nodes : list Node) gw :
  0 <= GPUCount (Spec gw) ->
  ChooseNode Sscanf_d s rnd nodes gw <> Crash /\
  forall n, ChooseNode Sscanf_d s rnd nodes gw = Ok n ->
            n ∈ nodes /\ GPUCount (Spec gw) <= avail n.
Proof. apply ChooseNode_Ok_inv. Qed.

(** X4: for a request for [g >= 0] GPUs every strategy fails exactly when no
    node has [g] GPUs available, and then with "no suitable nodes available
    for GPU workload" for an empty list and "no node has enough available
    GPUs for workload requiring g GPUs" otherwise. *)
Theorem ChooseNode_no_capacity s rnd (nodes : list Node) gw :
  0 <= GPUCount (Spec gw) ->
  ((exists e, ChooseNode Sscanf_d s rnd nodes gw = Err e) <->
   (forall m, m ∈ nodes -> avail m < GPUCount (Spec gw))) /\
  ((forall m, m ∈ nodes -> avail m < GPUCount (Spec gw)) ->
   ChooseNode Sscanf_d s rnd nodes gw
   = Err (Errorf (if decide (nodes = [])
                  then "no suitable nodes available for GPU workload"
                  else "no node has enough available GPUs for workload requiring "
                       ++ format_d (GPUCount (Spec gw)) ++ " GPUs"))).
Proof.
  intros Hg. split; [|apply ChooseNode_none]. split.
  - intros [e He]. by apply (ChooseNode_Err_inv s rnd nodes gw e).
  - intros Hall. rewrite (ChooseNode_none s rnd nodes gw Hall). eauto.
Qed.

(** X5: the random strategy can return every node that has enough GPUs: for
    each such node some draw of [rand.Intn] selects it. *)
Theorem Random_ChooseNode_reaches (nodes : list Node) gw n :
  n ∈ nodes -> GPUCount (Spec gw) <= avail n ->
  exists rnd, Random_ChooseNode Sscanf_d rnd nodes gw = Ok n.
Proof.
  intros Hin Hq.
  assert (Hs : n ∈ filter (fun node =>
            Is_true (suitable Sscanf_d (GPUCount (Spec gw)) node)) nodes).
  { apply list_elem_of_filter. split; [by apply suitable_spec | done]. }
  apply list_elem_of_lookup in Hs as [i Hi].
  assert (Hlt : (i < length (filter (fun node =>
            Is_true (suitable Sscanf_d (GPUCount (Spec gw)) node)) nodes))%nat)
    by (apply lookup_lt_is_Some; eauto).
  exists i.
  destruct (Random_ChooseNode_cases i nodes gw) as [[Hnil _] | (n' & Hn' & ->)].
  - rewrite Hnil in Hlt. simpl in Hlt. lia.
  - rewrite Nat.mod_small in Hn' by done. congruence.
Qed.

Lemma getAvailableGPUs_positive node : 0 < avail node -> hasGPUs node = true.
Proof.
  unfold getAvailableGPUs, hasGPUs.
  destruct (Allocatable node !! gpuResource) as [q|].
  { intros Hq. by replace (0 <? q) with true by (symmetry; by apply Z.ltb_lt). }
  destruct (Capacity node !! gpuResource) as [q|].
  { intros Hq. by replace (0 <? q) with true by (symmetry; by apply Z.ltb_lt). }
  destruct (Labels (NodeMeta node) !! gpuResource); [done | lia].
Qed.

(** X6: the GPU test of line 158 never costs a request for [g > 0] GPUs a
    candidate: among the Ready nodes, those with at least [g] GPUs
    available are the same with and without the [hasGPUs] filter. *)
Theorem hasGPUs_keeps_candidates (items : list Node) g :
  0 < g ->
  filter (fun node => Is_true (suitable Sscanf_d g node))
    (filter (fun node => Is_true (isNodeReady node && hasGPUs node)) items)
  = filter (fun node => Is_true (suitable Sscanf_d g node))
      (filter (fun node => Is_true (isNodeReady node)) items).
Proof.
  intros Hg. rewrite !list_filter_filter. apply list_filter_iff. intros node.
  rewrite andb_True, suitable_spec. split; [tauto|]. intros [Hq Hr].
  split; [done|]. split; [done|].
  rewrite (getAvailableGPUs_positive node) by lia. done.
Qed.

End StrategyProperties.

(** ** Formatting *)

Lemma format_digits_length fuel : forall n acc,
  (1 <= fuel)%nat -> 0 <= n < 10 ^ Z.of_nat fuel ->
  exists d, 1 <= d /\
    String.length (format_digits fuel n acc) = (String.length acc + Z.to_nat d)%nat /\
    (n = 0 -> d = 1) /\ (0 < n -> 10 ^ (d - 1) <= n < 10 ^ d).
Proof.
  induction fuel as [|fuel IH]; intros n acc Hf Hn; [lia|].
  simpl. destruct (Z.eqb_spec (n / 10) 0) as [Hq|Hq].
  - exists 1. simpl. split; [lia|]. split; [lia|]. split; [done|].
    intros Hpos. change (10 ^ (1 - 1)) with 1. change (10 ^ 1) with 10.
    pose proof (Z.div_mod n 10 ltac:(lia)). pose proof (Z.mod_pos_bound n 10 ltac:(lia)). lia.
  - assert (Hdiv : 1 <= n / 10 < 10 ^ Z.of_nat fuel).
    { split.
      - assert (0 <= n / 10) by (apply Z.div_pos; lia). lia.
      - apply Z.div_lt_upper_bound; [lia|].
        rewrite Nat2Z.inj_succ, Z.pow_succ_r in Hn by lia. lia. }
    assert (Hfuel : (1 <= fuel)%nat).
    { destruct fuel; [|lia]. simpl in Hdiv. lia. }
    destruct (IH (n / 10) (String (digit_char (n mod 10)) acc) Hfuel ltac:(lia))
      as (d & Hd1 & Hlen & _ & Hpow).
    destruct (Hpow ltac:(lia)) as [Hlo Hhi].
    exists (d + 1). split; [lia|]. split.
    + rewrite Hlen. simpl. rewrite Z2Nat.inj_add by lia. simpl. lia.
    + split; [intros ->; change (0 / 10) with 0 in Hdiv; lia|]. intros _.
      replace (d + 1 - 1) with d by lia.
      assert (Hp : 10 ^ d = 10 * 10 ^ (d - 1)).
      { replace d with (Z.succ (d - 1)) at 1 by lia. apply Z.pow_succ_r. lia. }
      assert (Hp' : 10 ^ (d + 1) = 10 * 10 ^ d) by (apply Z.pow_succ_r; lia).
      pose proof (Z.div_mod n 10 ltac:(lia)). pose proof (Z.mod_pos_bound n 10 ltac:(lia)).
      lia.
Qed.

Lemma format_d_length n :
  0 <= n < 2 ^ 63 ->
  exists d, 1 <= d /\ Z.of_nat (String.length (format_d n)) = d /\
    (n = 0 -> d = 1) /\ (0 < n -> 10 ^ (d - 1) <= n < 10 ^ d).
Proof.
  intros Hn. unfold format_d. destruct (Z.ltb_spec n 0); [lia|].
  destruct (format_digits_length 20 n "" ltac:(lia)) as (d & Hd & Hlen & H0 & Hpos).
  { split; [lia|]. eapply Z.lt_le_trans; [apply Hn|]. vm_compute. discriminate. }
  exists d. rewrite Hlen. simpl. split; [done|]. split; [lia|]. done.
Qed.

Lemma format_d_one_digit n : 0 <= n <= 9 -> String.length (format_d n) = 1%nat.
Proof.
  intros Hn. unfold format_d. destruct (Z.ltb_spec n 0); [lia|].
  change (format_digits 20 n "") with
    (let acc' := String (digit_char (n mod 10)) "" in
     if n / 10 =? 0 then acc' else format_digits 19 (n / 10) acc').
  cbv zeta. rewrite Z.div_small by lia. reflexivity.
Qed.

(** ** [Factory] and the utility functions *)

(** X7: [Factory] and the [Name] methods are inverse on the three strategies;
    [Factory] never returns an error, and a name other than "random" and
    "costOptimized" (the empty and the misspelt ones included) gives
    LeastLoaded. *)
Theorem Factory_Name_round_trip :
  (forall s, Factory (Strategy_Name s) = (s, None)) /\
  (forall name, snd (Factory name) = None) /\
  (forall name, name <> "random" -> name <> "costOptimized" ->
                fst (Factory name) = LeastLoadedStrategy).
Proof.
  split; [by intros []|]. split.
  - intros name. unfold Factory. repeat case_match; reflexivity.
  - intros name Hr Hc. unfold Factory.
    destruct (String.eqb_spec name "leastLoaded"); [done|].
    destruct (String.eqb_spec name "random"); [done|].
    destruct (String.eqb_spec name "costOptimized"); done.
Qed.

Lemma containsString_elem_of l s : containsString l s = true <-> s ∈ l.
Proof.
  induction l as [|v rest IH]; simpl.
  - split; [done | by intros ?%elem_of_nil].
  - rewrite elem_of_cons. destruct (String.eqb_spec v s) as [->|Hne].
    + split; [by left | done].
    + rewrite IH. split; [by right|]. by intros [->|?].
Qed.

Lemma removeString_filter l s : removeString l s = filter (fun v => v <> s) l.
Proof.
  induction l as [|v rest IH]; [done|]. simpl. rewrite filter_cons.
  destruct (String.eqb_spec v s) as [->|Hne]; simpl.
  - by rewrite decide_False by (intros H; by apply H).
  - rewrite decide_True by done. by rewrite IH.
Qed.

Lemma removeString_absent l s : containsString l s = false -> removeString l s = l.
Proof.
  induction l as [|v rest IH]; [done|]. simpl.
  destruct (String.eqb_spec v s); [done|]. simpl. by intros ->%IH.
Qed.

(** X8: [removeString (l, s)] keeps the strings other than [s], in their order,
    and drops every [s]; it returns [l] itself when [s] is not in it.
    Appending [s] to a list without it, as line 109 does with the finalizer,
    and removing it again, as line 259 does, gives the list back. *)
Theorem removeString_spec l s :
  removeString l s = filter (fun v => v <> s) l /\
  containsString (removeString l s) s = false /\
  (forall t, t <> s -> containsString (removeString l s) t = containsString l t) /\
  (containsString l s = false ->
   removeString l s = l /\ containsString (l ++ [s]) s = true /\
   removeString (l ++ [s]) s = l).
Proof.
  split; [apply removeString_filter|]. split; [|split].
  - apply not_true_is_false. rewrite containsString_elem_of, removeString_filter.
    rewrite list_elem_of_filter. by intros [H _].
  - intros t Ht. apply eq_true_iff_eq.
    rewrite !containsString_elem_of, removeString_filter, list_elem_of_filter.
    split; [by intros [_ ?] | done].
  - intros Habs. split; [by apply removeString_absent|]. split.
    + apply containsString_elem_of, elem_of_app. right. by left.
    + rewrite removeString_filter, filter_app, <- removeString_filter.
      rewrite removeString_absent by done.
      rewrite filter_cons, decide_False by (intros H; by apply H).
      by rewrite filter_nil, app_nil_r.
Qed.

(** X9: [isNodeReady] looks at the first condition of type Ready only: the node
    is ready exactly when that condition exists and has status True, so a
    later Ready condition is never consulted. *)
Theorem isNodeReady_first_Ready_condition node :
  isNodeReady node = true <->
  exists pre c post,
    Conditions node = (pre ++ c :: post)%list /\
    (forall d, d ∈ pre -> condType d <> NodeReady) /\
    condType c = NodeReady /\ condStatus c = ConditionTrue.
Proof.
  unfold isNodeReady. induction (Conditions node) as [|c0 rest IH]; simpl.
  - split; [done|]. intros (pre & c & post & H & _). by destruct pre.
  - destruct (String.eqb_spec (condType c0) NodeReady) as [Hty|Hty].
    + split.
      * intros Hst%String.eqb_eq. exists [], c0, rest.
        split; [done|]. split; [by intros d ?%elem_of_nil | done].
      * intros (pre & c & post & Heq & Hpre & Hc & Hs).
        destruct pre as [|d pre]; simpl in Heq; inversion Heq; subst.
        -- by apply String.eqb_eq.
        -- exfalso. apply (Hpre d); [by left | done].
    + rewrite IH. split.
      * intros (pre & c & post & -> & Hpre & Hc & Hs). exists (c0 :: pre), c, post.
        split; [done|]. split; [|done].
        intros d [->|Hd]%elem_of_cons; [done | by apply Hpre].
      * intros (pre & c & post & Heq & Hpre & Hc & Hs).
        destruct pre as [|d pre]; simpl in Heq; inversion Heq; subst; [done|].
        exists pre, c, post. split; [done|]. split; [|done].
        intros d' Hd'. apply Hpre. by right.
Qed.

(** ** The client *)

#[local] Arguments logged : simpl never.
#[local] Arguments with_cluster : simpl never.
#[local] Arguments buildJob : simpl never.
#[local] Arguments jobNameFor : simpl never.
#[local] Arguments requeueWithBackoff : simpl never.
#[local] Arguments format_d : simpl never.
#[local] Arguments NewNotFound : simpl never.
#[local] Arguments NewAlreadyExists : simpl never.
#[local] Arguments wrap32 : simpl never.

Lemma bind_eq {A B : Type} (m : M A) (k : A -> M B) st :
  (m ≫= k) st =
  match m st with
  | (Continue a, st') => k a st'
  | (Return res err, st') => (Return res err, st')
  | (Panic, st') => (Panic, st')
  end.
Proof. reflexivity. Qed.

Lemma ret_eq {A : Type} (a : A) st : mret (M := M) a st = (Continue a, st).
Proof. reflexivity. Qed.

Lemma client_Get_eq env s key st :
  client_Get env s key st =
  (Continue
     match fault env s with
     | Some err => inr err
     | None =>
         match workloads (cluster st) !! key with
         | Some gw => inl gw
         | None => inr (NewNotFound "gpuworkloads.gpu.warp.dev" (snd key))
         end
     end,
   logged s (GetWorkload key) st).
Proof.
  unfold client_Get. destruct (fault env s); [done|].
  change (cluster (logged s (GetWorkload key) st)) with (cluster st).
  by destruct (workloads (cluster st) !! key).
Qed.

Lemma client_List_eq env s st :
  client_List env s st =
  (Continue match fault env s with
            | Some err => inr err
            | None => inl (nodes (cluster st))
            end,
   logged s ListNodes st).
Proof. unfold client_List. by destruct (fault env s). Qed.

Lemma client_GetJob_eq env s key st :
  client_GetJob env s key st =
  (Continue
     match fault env s with
     | Some err => inr err
     | None =>
         match jobs (cluster st) !! key with
         | Some job => inl job
         | None => inr (NewNotFound "jobs.batch" (snd key))
         end
     end,
   logged s (GetJob key) st).
Proof.
  unfold client_GetJob. destruct (fault env s); [done|].
  change (cluster (logged s (GetJob key) st)) with (cluster st).
  by destruct (jobs (cluster st) !! key).
Qed.

Lemma client_Create_ok env s job st :
  fault env s = None -> jobs (cluster st) !! key_of (JobMeta job) = None ->
  client_Create env s job st =
  (Continue None,
   with_cluster (logged s (CreateJob job) st)
     (set_jobs (cluster st) (<[key_of (JobMeta job) := job]> (jobs (cluster st))))).
Proof.
  intros Hf Hn. unfold client_Create. rewrite Hf.
  change (cluster (logged s (CreateJob job) st)) with (cluster st). by rewrite Hn.
Qed.

Lemma client_Create_fails env s job st :
  fault env s <> None \/ jobs (cluster st) !! key_of (JobMeta job) <> None ->
  exists err, client_Create env s job st = (Continue (Some err), logged s (CreateJob job) st).
Proof.
  intros H. unfold client_Create. destruct (fault env s) as [err|]; [eauto|].
  change (cluster (logged s (CreateJob job) st)) with (cluster st).
  destruct (jobs (cluster st) !! key_of (JobMeta job)); [eauto|].
  destruct H; done.
Qed.

Lemma client_StatusUpdate_ok env s gw stored st :
  fault env s = None -> workloads (cluster st) !! key_of (Meta gw) = Some stored ->
  client_StatusUpdate env s gw st =
  (Continue (inl (set_Status stored (Status gw))),
   with_cluster (logged s (UpdateStatus gw) st)
     (set_workloads (cluster st)
        (<[key_of (Meta gw) := set_Status stored (Status gw)]> (workloads (cluster st))))).
Proof.
  intros Hf Hs. unfold client_StatusUpdate. rewrite Hf.
  change (cluster (logged s (UpdateStatus gw) st)) with (cluster st). by rewrite Hs.
Qed.

Lemma client_StatusUpdate_fails env s gw st :
  fault env s <> None \/ workloads (cluster st) !! key_of (Meta gw) = None ->
  exists err, client_StatusUpdate env s gw st
              = (Continue (inr err), logged s (UpdateStatus gw) st).
Proof.
  intros H. unfold client_StatusUpdate. destruct (fault env s) as [err|]; [eauto|].
  change (cluster (logged s (UpdateStatus gw) st)) with (cluster st).
  destruct H as [H|H]; [done|]. rewrite H. eauto.
Qed.

Lemma client_Update_ok env s gw stored st :
  fault env s = None -> workloads (cluster st) !! key_of (Meta gw) = Some stored ->
  client_Update env s gw st =
  (Continue (inl (set_Status gw (Status stored))),
   with_cluster (logged s (UpdateWorkload gw) st)
     (set_workloads (cluster st)
        (if negb (IsZero (DeletionTimestamp (Meta gw)))
            && (length (Finalizers (Meta gw)) =? 0)%nat
         then delete (key_of (Meta gw)) (workloads (cluster st))
         else <[key_of (Meta gw) := set_Status gw (Status stored)]> (workloads (cluster st))))).
Proof.
  intros Hf Hs. unfold client_Update. rewrite Hf.
  change (cluster (logged s (UpdateWorkload gw) st)) with (cluster st). by rewrite Hs.
Qed.

Lemma client_Update_fails env s gw st :
  fault env s <> None \/ workloads (cluster st) !! key_of (Meta gw) = None ->
  exists err, client_Update env s gw st
              = (Continue (inr err), logged s (UpdateWorkload gw) st).
Proof.
  intros H. unfold client_Update. destruct (fault env s) as [err|]; [eauto|].
  change (cluster (logged s (UpdateWorkload gw) st)) with (cluster st).
  destruct H as [H|H]; [done|]. rewrite H. eauto.
Qed.

(** ** createJobForWorkload *)

(** C10: the Job [createJobForWorkload] creates has one container, whose
    request and whose limit of [nvidia.com/gpu] are both set, to as many as
    the decimal text of [gpuCount] has characters: the number of digits [d]
    of a positive [gpuCount] ([10 ^ (d - 1) <= gpuCount < 10 ^ d]), hence
    exactly 1 for every [gpuCount] from 1 to 8, whatever its value. *)
Theorem createJobForWorkload_gpu_quantity env gw node st :
  (8 <= String.length (UID (Meta gw)))%nat ->
  jobs (cluster st) !! (Namespace (Meta gw), jobNameFor gw) = None ->
  fault env L342 = None ->
  0 < GPUCount (Spec gw) < 2 ^ 31 ->
  exists job st' d,
    createJobForWorkload env gw node st = (Continue (inl job), st') /\
    jobs (cluster st') !! (Namespace (Meta gw), jobNameFor gw) = Some job /\
    (exists c, Containers job = [c] /\
       Requests c !! "nvidia.com/gpu" = Some d /\
       Limits c !! "nvidia.com/gpu" = Some d /\
       Requests c = {[ "nvidia.com/gpu" := d ]} /\
       Limits c = {[ "nvidia.com/gpu" := d ]}) /\
    d = Z.of_nat (String.length (format_d (GPUCount (Spec gw)))) /\
    10 ^ (d - 1) <= GPUCount (Spec gw) < 10 ^ d /\
    (GPUCount (Spec gw) <= 8 -> d = 1).
Proof.
  intros Huid Hnone Hcreate Hg.
  destruct (format_d_length (GPUCount (Spec gw)) ltac:(lia)) as (d & Hd1 & Hlen & _ & Hpow).
  exists (buildJob gw node (jobNameFor gw)). eexists. exists d.
  split.
  { unfold createJobForWorkload.
    replace (String.length (UID (Meta gw)) <? 8)%nat with false
      by (symmetry; apply Nat.ltb_ge; lia).
    cbv zeta. rewrite bind_eq, client_GetJob_eq, Hnone.
    assert (Hget : exists e, match fault env L274 with
                             | Some err => inr err
                             | None => inr (NewNotFound "jobs.batch"
                                             (snd (Namespace (Meta gw), jobNameFor gw)))
                             end = (inr e : Job + error))
      by (destruct (fault env L274); eauto).
    destruct Hget as [e ->].
    rewrite bind_eq, client_Create_ok by done. reflexivity. }
  split; [apply lookup_insert_eq|].
  split.
  { eexists. split; [reflexivity|]. cbn [Requests Limits].
    unfold parseQuantity, gpuResource. rewrite Hlen.
    split; [apply lookup_singleton_eq|]. split; [apply lookup_singleton_eq|]. done. }
  split; [done|]. split; [apply Hpow; lia|].
  intros H8. rewrite <- Hlen. rewrite format_d_one_digit by lia. reflexivity.
Qed.

Lemma calls_logged s c st : calls (logged s c st) = (calls st ++ [(s, c)])%list.
Proof. reflexivity. Qed.

Lemma creates_app l1 l2 : creates (l1 ++ l2) = (creates l1 + creates l2)%nat.
Proof. unfold creates. by rewrite filter_app, length_app. Qed.

Lemma deletes_app l1 l2 : deletes (l1 ++ l2) = (deletes l1 + deletes l2)%nat.
Proof. unfold deletes. by rewrite filter_app, length_app. Qed.

Lemma deletes_single s c : deletes [(s, c)] = if isDelete (s, c) then 1%nat else 0%nat.
Proof. destruct c; reflexivity. Qed.

Lemma creates_single s c : creates [(s, c)] = if isCreate (s, c) then 1%nat else 0%nat.
Proof. destruct c; reflexivity. Qed.

Lemma createJobForWorkload_inl env gw node st job st' :
  createJobForWorkload env gw node st = (Continue (inl job), st') ->
  let key := (Namespace (Meta gw), jobNameFor gw) in
  (8 <= String.length (UID (Meta gw)))%nat /\
  jobs (cluster st') !! key = Some job /\
  ((jobs (cluster st) !! key = Some job /\ st' = logged L274 (GetJob key) st) \/
   (job = buildJob gw node (jobNameFor gw) /\
    st' = with_cluster (logged L342 (CreateJob job) (logged L274 (GetJob key) st))
            (set_jobs (cluster st) (<[key := job]> (jobs (cluster st)))))).
Proof.
  intros H key. unfold createJobForWorkload in H.
  destruct (Nat.ltb_spec (String.length (UID (Meta gw))) 8) as [|Huid]; [discriminate|].
  split; [done|]. cbv zeta in H. fold key in H.
  rewrite bind_eq, client_GetJob_eq in H.
  destruct (fault env L274) as [e|] eqn:Hf.
  - rewrite bind_eq in H. unfold client_Create in H. cbv zeta in H.
    destruct (fault env L342); [discriminate|].
    change (key_of (JobMeta (buildJob gw node (jobNameFor gw)))) with key in H.
    change (cluster (logged L342 (CreateJob (buildJob gw node (jobNameFor gw)))
                       (logged L274 (GetJob key) st))) with (cluster st) in H.
    destruct (jobs (cluster st) !! key); [discriminate|].
    inversion H; subst. split; [apply lookup_insert_eq|]. by right.
  - destruct (jobs (cluster st) !! key) as [j|] eqn:Hj.
    + inversion H; subst. split; [done|]. by left.
    + rewrite bind_eq in H. unfold client_Create in H. cbv zeta in H.
      destruct (fault env L342); [discriminate|].
      change (key_of (JobMeta (buildJob gw node (jobNameFor gw)))) with key in H.
      change (cluster (logged L342 (CreateJob (buildJob gw node (jobNameFor gw)))
                         (logged L274 (GetJob key) st))) with (cluster st) in H.
      rewrite Hj in H. inversion H; subst. split; [apply lookup_insert_eq|]. by right.
Qed.

Lemma substring_prefix (n : nat) (s : string) :
  (n <= String.length s)%nat ->
  String.length (String.substring 0 n s) = n /\
  String.prefix (String.substring 0 n s) s = true.
Proof.
  revert s. induction n as [|n IH]; intros s Hn.
  - by destruct s.
  - destruct s as [|c s]; simpl in Hn; [lia|].
    destruct (IH s ltac:(lia)) as [Hlen Hpre]. simpl. rewrite Hlen. split; [done|].
    by destruct (Ascii.ascii_dec c c).
Qed.

(** C5: the Job name is the request's name, [-job-] and the first 8 bytes of
    its UID.  Once the placement step has returned a Job, a second run for a
    request of the same identity, whose look-up of the Job succeeds, returns
    that same Job, hence the same name for [JobName], and calls nothing but
    the look-up: over both runs [r.Create] is called at most once.  When
    Jobs are stored under their own name that name is the derived one. *)
Theorem createJobForWorkload_idempotent env1 env2 gw gw' node1 node2 st job1 st1 :
  createJobForWorkload env1 gw node1 st = (Continue (inl job1), st1) ->
  Name (Meta gw') = Name (Meta gw) -> Namespace (Meta gw') = Namespace (Meta gw) ->
  UID (Meta gw') = UID (Meta gw) ->
  fault env2 L274 = None ->
  let key := (Namespace (Meta gw), jobNameFor gw) in
  (exists prefix,
     String.length prefix = 8%nat /\ String.prefix prefix (UID (Meta gw)) = true /\
     jobNameFor gw = Name (Meta gw) ++ "-job-" ++ prefix /\
     jobNameFor gw' = Name (Meta gw) ++ "-job-" ++ prefix) /\
  createJobForWorkload env2 gw' node2 st1
    = (Continue (inl job1), logged L274 (GetJob key) st1) /\
  (creates (calls (logged L274 (GetJob key) st1)) <= creates (calls st) + 1)%nat /\
  (jobs_keyed (cluster st) -> Name (JobMeta job1) = jobNameFor gw).
Proof.
  intros Hrun1 Hname Hns Huid Hf key.
  assert (Hjn : jobNameFor gw' = jobNameFor gw).
  { unfold jobNameFor. by rewrite Hname, Huid. }
  destruct (createJobForWorkload_inl _ _ _ _ _ _ Hrun1) as (Hlen & Hstored & Hhow).
  fold key in Hstored, Hhow.
  split.
  { exists (String.substring 0 8 (UID (Meta gw))).
    destruct (substring_prefix 8 (UID (Meta gw)) Hlen) as [H8 Hpre].
    split; [done|]. split; [done|]. by rewrite Hjn. }
  split; [|split].
  - unfold createJobForWorkload. rewrite Huid.
    replace (String.length (UID (Meta gw)) <? 8)%nat with false
      by (symmetry; apply Nat.ltb_ge; lia).
    cbv zeta. rewrite Hjn, Hns. fold key.
    rewrite bind_eq, client_GetJob_eq, Hf, Hstored. reflexivity.
  - rewrite calls_logged, creates_app, creates_single.
    destruct Hhow as [[_ ->] | [_ ->]].
    + rewrite calls_logged, creates_app, !creates_single. simpl. lia.
    + change (calls (with_cluster ?s _)) with (calls s).
      rewrite !calls_logged, !creates_app, !creates_single. simpl. lia.
  - intros Hkeyed. destruct Hhow as [[Hj _] | [-> _]].
    + apply Hkeyed in Hj. unfold key_of, key in Hj. by inversion Hj.
    + reflexivity.
Qed.

(** ** Reconcile *)

Ltac finish := repeat split; first [done | lia | by left | by right].

Ltac count_calls :=
  repeat first [rewrite calls_logged | rewrite creates_app | rewrite deletes_app
               | rewrite creates_single | rewrite deletes_single];
  simpl; lia.

Lemma cluster_logged s c st : cluster (logged s c st) = cluster st.
Proof. reflexivity. Qed.

Lemma events_logged s c st : events (logged s c st) = events st.
Proof. reflexivity. Qed.

Lemma skipped_iff phase :
  skipped phase = true <->
  phase = PhaseScheduled \/ phase = PhaseRunning \/ phase = PhaseSucceeded.
Proof.
  unfold skipped. rewrite !orb_true_iff, !String.eqb_eq. tauto.
Qed.

Section ReconcileFacts.

Variable Sscanf_d : string -> Z.

Lemma Reconcile_stages env req :
  Reconcile Sscanf_d env req =
  (got ← client_Get env L77 req;
   match got with
   | inr err => exit emptyResult (IgnoreNotFound (Some err))
   | inl gpuWorkload =>
       if skipped (Phase (Status gpuWorkload)) then exit emptyResult None
       else if negb (IsZero (DeletionTimestamp (Meta gpuWorkload)))
       then handleDeletion env gpuWorkload
       else
         gpuWorkload ← Reconcile_L107 env gpuWorkload;
         gpuWorkload ← Reconcile_L116 env gpuWorkload;
         Reconcile_L127 Sscanf_d env gpuWorkload
   end).
Proof. reflexivity. Qed.

(** The pass stops at line 79 when the request cannot be read. *)
Lemma Reconcile_get_fault env req st err :
  fault env L77 = Some err ->
  Reconcile Sscanf_d env req st
  = (Return emptyResult (IgnoreNotFound (Some err)), logged L77 (GetWorkload req) st).
Proof.
  intros Hf. unfold Reconcile. rewrite bind_eq, client_Get_eq, Hf. reflexivity.
Qed.

(** The pass stops at line 99 for a request in a skipped phase. *)
Lemma Reconcile_skipped_run env req st gw :
  fault env L77 = None -> workloads (cluster st) !! req = Some gw ->
  skipped (Phase (Status gw)) = true ->
  Reconcile Sscanf_d env req st
  = (Return emptyResult None, logged L77 (GetWorkload req) st).
Proof.
  intros Hf Hgw Hs. unfold Reconcile. rewrite bind_eq, client_Get_eq, Hf, Hgw.
  cbv beta iota. rewrite Hs. reflexivity.
Qed.

(** C1: a pass over a request whose phase is Scheduled, Running or
    Succeeded only reads the request: the cluster (status, Jobs) and the
    recorded events are as before, the one client call is the read, and
    when the read succeeds the pass returns an empty result and no
    error. *)
Theorem Reconcile_skips_scheduled env req st gw :
  workloads (cluster st) !! req = Some gw ->
  Phase (Status gw) = PhaseScheduled \/ Phase (Status gw) = PhaseRunning
    \/ Phase (Status gw) = PhaseSucceeded ->
  exists res err st',
    run (Reconcile Sscanf_d env req) st = (Returned res err, st') /\
    cluster st' = cluster st /\ events st' = events st /\
    calls st' = (calls st ++ [(L77, GetWorkload req)])%list /\
    creates (calls st') = creates (calls st) /\
    (fault env L77 = None -> res = emptyResult /\ err = None).
Proof.
  intros Hgw Hphase. apply skipped_iff in Hphase. unfold run.
  destruct (fault env L77) as [e|] eqn:Hf.
  - rewrite (Reconcile_get_fault _ _ _ _ Hf).
    eexists _, _, _. split; [reflexivity|].
    rewrite calls_logged, creates_app, creates_single. simpl.
    repeat split; try done; lia.
  - rewrite (Reconcile_skipped_run _ _ _ _ Hf Hgw Hphase).
    eexists _, _, _. split; [reflexivity|].
    rewrite calls_logged, creates_app, creates_single. simpl.
    repeat split; try done; lia.
Qed.

(** C2, what the code does: the skip of line 97 comes before the deletion
    test of line 103.  A pass over a Scheduled request that carries a
    deletion timestamp returns at once: no Job is deleted, and the request
    keeps its finalizer. *)
Theorem Reconcile_skips_deleted_scheduled env req st gw t :
  fault env L77 = None ->
  workloads (cluster st) !! req = Some gw ->
  Phase (Status gw) = PhaseScheduled ->
  DeletionTimestamp (Meta gw) = Some t ->
  exists st',
    run (Reconcile Sscanf_d env req) st = (Returned emptyResult None, st') /\
    jobs (cluster st') = jobs (cluster st) /\
    workloads (cluster st') !! req = Some gw /\
    deletes (calls st') = deletes (calls st).
Proof.
  intros Hf Hgw Hphase _. unfold run.
  rewrite (Reconcile_skipped_run _ _ _ _ Hf Hgw) by (apply skipped_iff; auto).
  eexists. split; [reflexivity|].
  rewrite calls_logged, deletes_app, deletes_single. simpl.
  repeat split; try done; lia.
Qed.

Lemma only_workload_changed_refl req st : only_workload_changed req st st.
Proof. by repeat split. Qed.

Lemma only_workload_changed_trans req st1 st2 st3 :
  only_workload_changed req st1 st2 -> only_workload_changed req st2 st3 ->
  only_workload_changed req st1 st3.
Proof.
  intros (Hj & Hn & Hw) (Hj' & Hn' & Hw'). repeat split; try congruence.
  intros k Hk. rewrite Hw', Hw; done.
Qed.

Lemma containsString_app l s : containsString (l ++ [s]) s = true.
Proof.
  induction l as [|v l IH]; simpl; [by rewrite String.eqb_refl|].
  by destruct (String.eqb v s).
Qed.

(** Lines 107-114. *)
Lemma Reconcile_L107_cases env gw st :
  synced gw st -> DeletionTimestamp (Meta gw) = None ->
  (exists err st',
     fault env L110 = Some err /\
     containsString (Finalizers (Meta gw)) finalizerName = false /\
     Reconcile_L107 env gw st = (Return emptyResult (Some err), st') /\
     cluster st' = cluster st /\ events st' = events st /\
     creates (calls st') = creates (calls st) /\
     deletes (calls st') = deletes (calls st)) \/
  (exists gw1 st1,
     Reconcile_L107 env gw st = (Continue gw1, st1) /\
     synced gw1 st1 /\ key_of (Meta gw1) = key_of (Meta gw) /\
     only_workload_changed (key_of (Meta gw)) st st1 /\
     events st1 = events st /\ creates (calls st1) = creates (calls st) /\
     deletes (calls st1) = deletes (calls st) /\
     APIVersion gw1 = APIVersion gw /\ Kind gw1 = Kind gw /\ Spec gw1 = Spec gw /\
     UID (Meta gw1) = UID (Meta gw) /\
     DeletionTimestamp (Meta gw1) = None /\
     containsString (Finalizers (Meta gw1)) finalizerName = true /\
     Status gw1 = Status gw).
Proof.
  intros Hs Hdel. unfold Reconcile_L107.
  destruct (containsString (Finalizers (Meta gw)) finalizerName) eqn:Hc.
  { right. exists gw, st. split; [reflexivity|]. repeat split; try done. }
  change (negb false) with true. cbv iota zeta. rewrite bind_eq.
  set (gwF := set_Meta gw (set_Finalizers (Meta gw) (Finalizers (Meta gw) ++ [finalizerName]))).
  destruct (fault env L110) as [err|] eqn:Hf.
  - left. destruct (client_Update_fails env L110 gwF st) as [err' Hu];
      [left; congruence|].
    unfold client_Update in Hu |- *. rewrite Hf in Hu |- *.
    exists err. eexists. split; [done|]. split; [done|]. split; [reflexivity|].
    repeat split; try done; count_calls.
  - right. rewrite (client_Update_ok env L110 gwF gw st Hf Hs).
    replace (DeletionTimestamp (Meta gwF)) with (@None Z) by (symmetry; exact Hdel).
    simpl negb. simpl andb. cbv iota.
    eexists _, _. split; [reflexivity|].
    split; [apply lookup_insert_eq|]. split; [reflexivity|].
    split.
    { repeat split; try done. intros k Hk. simpl. by rewrite lookup_insert_ne. }
    split; [done|].
    split; [change (calls (with_cluster ?x _)) with (calls x); count_calls|].
    split; [change (calls (with_cluster ?x _)) with (calls x); count_calls|].
    repeat split; try done. simpl. apply containsString_app.
Qed.

(** Lines 116-125. *)
Lemma Reconcile_L116_cases env gw st :
  synced gw st ->
  (exists err st',
     Phase (Status gw) = "" /\ fault env L120 = Some err /\
     Reconcile_L116 env gw st = (Return emptyResult (Some err), st') /\
     cluster st' = cluster st /\ events st' = events st /\
     creates (calls st') = creates (calls st) /\
     deletes (calls st') = deletes (calls st)) \/
  (exists gw1 st1,
     Reconcile_L116 env gw st = (Continue gw1, st1) /\
     synced gw1 st1 /\ key_of (Meta gw1) = key_of (Meta gw) /\
     only_workload_changed (key_of (Meta gw)) st st1 /\
     events st1 = events st /\ creates (calls st1) = creates (calls st) /\
     deletes (calls st1) = deletes (calls st) /\
     APIVersion gw1 = APIVersion gw /\ Kind gw1 = Kind gw /\ Spec gw1 = Spec gw /\
     Meta gw1 = Meta gw /\
     (Status gw1 = Status gw /\ Phase (Status gw) <> "" \/
      Phase (Status gw) = "" /\
      Status gw1 = set_LastScheduleTime (set_Phase (Status gw) PhasePending)
                     (Some (nowL119 env)))).
Proof.
  intros Hs. unfold Reconcile_L116.
  destruct (String.eqb_spec (Phase (Status gw)) "") as [Hp|Hp].
  2:{ right. exists gw, st. split; [reflexivity|]. repeat split; try done. by left. }
  cbv zeta. rewrite bind_eq.
  set (gwI := set_Status gw (set_LastScheduleTime (set_Phase (Status gw) PhasePending)
                               (Some (nowL119 env)))).
  destruct (fault env L120) as [err|] eqn:Hf.
  - left. unfold client_StatusUpdate. rewrite Hf.
    exists err. eexists. split; [done|]. split; [done|]. split; [reflexivity|].
    repeat split; try done; count_calls.
  - right. rewrite (client_StatusUpdate_ok env L120 gwI gw st Hf Hs).
    eexists _, _. split; [reflexivity|].
    split; [apply lookup_insert_eq|]. split; [reflexivity|].
    split.
    { repeat split; try done. intros k Hk. simpl. by rewrite lookup_insert_ne. }
    split; [done|].
    split; [change (calls (with_cluster ?x _)) with (calls x); count_calls|].
    split; [change (calls (with_cluster ?x _)) with (calls x); count_calls|].
    repeat split; try done. by right.
Qed.

(** A status write whose error is dropped (lines 151, 167, 199, 216). *)
Lemma client_StatusUpdate__synced env site gw status st :
  synced gw st ->
  exists st',
    client_StatusUpdate_ env site (set_Status gw status) st
    = (Continue (set_Status gw status), st') /\
    only_workload_changed (key_of (Meta gw)) st st' /\
    events st' = events st /\
    calls st' = (calls st ++ [(site, UpdateStatus (set_Status gw status))])%list /\
    workloads (cluster st') !! key_of (Meta gw)
    = Some (match fault env site with Some _ => gw | None => set_Status gw status end).
Proof.
  intros Hs. unfold client_StatusUpdate_. rewrite bind_eq.
  destruct (fault env site) as [err|] eqn:Hf.
  - unfold client_StatusUpdate. rewrite Hf. eexists. split; [reflexivity|].
    repeat split; done.
  - rewrite (client_StatusUpdate_ok env site (set_Status gw status) gw st Hf Hs).
    eexists. split; [reflexivity|]. split.
    { repeat split; try done. intros k Hk. simpl. by rewrite lookup_insert_ne. }
    split; [done|]. split; [done|]. apply lookup_insert_eq.
Qed.

(** A status write whose error ends the pass (lines 136, 227). *)
Lemma client_StatusUpdate_synced env site gw status st :
  synced gw st ->
  exists st',
    client_StatusUpdate env site (set_Status gw status) st
    = (Continue match fault env site with
                | Some err => inr err
                | None => inl (set_Status gw status)
                end, st') /\
    only_workload_changed (key_of (Meta gw)) st st' /\
    events st' = events st /\
    calls st' = (calls st ++ [(site, UpdateStatus (set_Status gw status))])%list /\
    workloads (cluster st') !! key_of (Meta gw)
    = Some (match fault env site with Some _ => gw | None => set_Status gw status end).
Proof.
  intros Hs. destruct (fault env site) as [err|] eqn:Hf.
  - unfold client_StatusUpdate. rewrite Hf. eexists. split; [reflexivity|].
    repeat split; done.
  - rewrite (client_StatusUpdate_ok env site (set_Status gw status) gw st Hf Hs).
    eexists. split; [reflexivity|]. split.
    { repeat split; try done. intros k Hk. simpl. by rewrite lookup_insert_ne. }
    split; [done|]. split; [done|]. apply lookup_insert_eq.
Qed.

Lemma Factory_eq name : Factory name = (fst (Factory name), None).
Proof. unfold Factory. repeat case_match; reflexivity. Qed.

Lemma requeueWithBackoff_eq env gw :
  requeueWithBackoff env gw
  = ({| Requeue := false;
        RequeueAfter := NextBackoff (baseDurationOf gw) (RetryCount (Status gw))
                          (randFloat64 env) |}, None).
Proof. reflexivity. Qed.

(** Lines 133-143: the retries are used up. *)
Lemma Reconcile_L127_failed env gw st :
  synced gw st -> maxRetriesOf gw <= RetryCount (Status gw) ->
  let message :=
    "Failed to schedule after " ++ format_d (maxRetriesOf gw) ++ " retries" in
  let gwF := set_Status gw (set_Message (set_Phase (Status gw) PhaseFailed) message) in
  exists out st',
    Reconcile_L127 Sscanf_d env gw st = (out, st') /\
    only_workload_changed (key_of (Meta gw)) st st' /\
    creates (calls st') = creates (calls st) /\
    deletes (calls st') = deletes (calls st) /\
    match fault env L136 with
    | Some err =>
        out = Return emptyResult (Some err) /\ events st' = events st /\
        workloads (cluster st') !! key_of (Meta gw) = Some gw
    | None =>
        out = Continue (emptyResult, None) /\
        events st' = (events st ++
          [{| evObject := key_of (Meta gw); evType := EventTypeWarning;
              evReason := "MaxRetriesExceeded"; evMessage := message |}])%list /\
        workloads (cluster st') !! key_of (Meta gw) = Some gwF
    end.
Proof.
  intros Hs Hmax message gwF. subst gwF message. unfold Reconcile_L127. cbv zeta.
  replace (maxRetriesOf gw <=? RetryCount (Status gw)) with true
    by (symmetry; by apply Z.leb_le).
  rewrite bind_eq.
  destruct (client_StatusUpdate_synced env L136 gw
              (set_Message (set_Phase (Status gw) PhaseFailed)
                 ("Failed to schedule after " ++ format_d (maxRetriesOf gw) ++ " retries"))
              st Hs)
    as (st1 & -> & Hchg & Hev & Hcalls & Hstored).
  destruct (fault env L136) as [err|].
  - eexists _, _. split; [reflexivity|]. split; [done|].
    split; [rewrite Hcalls; count_calls|]. split; [rewrite Hcalls; count_calls|]. done.
  - eexists _, _. split; [reflexivity|]. split; [done|].
    split; [simpl; rewrite Hcalls; count_calls|].
    split; [simpl; rewrite Hcalls; count_calls|].
    split; [done|]. split; [|done]. simpl. by rewrite Hev.
Qed.

Lemma createJobForWorkload_frame env gw node st r st' :
  createJobForWorkload env gw node st = (r, st') ->
  workloads (cluster st') = workloads (cluster st) /\
  nodes (cluster st') = nodes (cluster st) /\ events st' = events st /\
  (forall res err, r <> Return res err) /\
  (creates (calls st') <= creates (calls st) + 1)%nat /\
  deletes (calls st') = deletes (calls st) /\
  (jobs (cluster st') = jobs (cluster st) \/
   jobs (cluster st) !! (Namespace (Meta gw), jobNameFor gw) = None /\
   jobs (cluster st')
   = <[(Namespace (Meta gw), jobNameFor gw) := buildJob gw node (jobNameFor gw)]>
       (jobs (cluster st))).
Proof.
  unfold createJobForWorkload. intros H.
  destruct (String.length (UID (Meta gw)) <? 8)%nat.
  { inversion H; subst. finish. }
  cbv zeta in H. rewrite bind_eq, client_GetJob_eq in H.
  set (key := (Namespace (Meta gw), jobNameFor gw)) in *.
  assert (Hcreate : forall stg,
            cluster stg = cluster st -> events stg = events st ->
            creates (calls stg) = creates (calls st) ->
            deletes (calls stg) = deletes (calls st) ->
            (client_Create env L342 (buildJob gw node (jobNameFor gw))
             ≫= (fun c : option error =>
                   match c with
                   | Some err => mret (inr err)
                   | None => mret (inl (buildJob gw node (jobNameFor gw)))
                   end)) stg = (r, st') ->
            workloads (cluster st') = workloads (cluster st) /\
            nodes (cluster st') = nodes (cluster st) /\ events st' = events st /\
            (forall res err, r <> Return res err) /\
            (creates (calls st') <= creates (calls st) + 1)%nat /\
            deletes (calls st') = deletes (calls st) /\
            (jobs (cluster st') = jobs (cluster st) \/
             jobs (cluster st) !! key = None /\
             jobs (cluster st') = <[key := buildJob gw node (jobNameFor gw)]>
                                    (jobs (cluster st)))).
  { intros stg Hc He Hcr Hdl Hrun. rewrite bind_eq in Hrun. unfold client_Create in Hrun.
    cbv zeta in Hrun.
    change (key_of (JobMeta (buildJob gw node (jobNameFor gw)))) with key in Hrun.
    rewrite cluster_logged, Hc in Hrun.
    destruct (fault env L342).
    - inversion Hrun; subst. rewrite cluster_logged, events_logged, calls_logged,
        creates_app, deletes_app, creates_single, deletes_single, Hc, He, Hcr, Hdl.
      simpl. finish.
    - destruct (jobs (cluster st) !! key) eqn:Hj.
      + inversion Hrun; subst. rewrite cluster_logged, events_logged, calls_logged,
          creates_app, deletes_app, creates_single, deletes_single, Hc, He, Hcr, Hdl.
        simpl. finish.
      + inversion Hrun; subst.
        change (calls (with_cluster ?x _)) with (calls x).
        change (events (with_cluster ?x _)) with (events x).
        rewrite events_logged, calls_logged, creates_app, deletes_app,
          creates_single, deletes_single, He, Hcr, Hdl.
        simpl. finish. }
  assert (Hlog : creates (calls (logged L274 (GetJob key) st)) = creates (calls st) /\
                 deletes (calls (logged L274 (GetJob key) st)) = deletes (calls st)).
  { rewrite calls_logged, creates_app, deletes_app, creates_single, deletes_single.
    simpl. lia. }
  destruct Hlog as [Hlc Hld].
  destruct (fault env L274).
  { by apply (Hcreate (logged L274 (GetJob key) st) eq_refl eq_refl Hlc Hld). }
  destruct (jobs (cluster st) !! key).
  - inversion H; subst. rewrite Hlc, Hld. finish.
  - by apply (Hcreate (logged L274 (GetJob key) st) eq_refl eq_refl Hlc Hld).
Qed.

Lemma createJobForWorkload_create_fails env gw node st err :
  (8 <= String.length (UID (Meta gw)))%nat ->
  jobs (cluster st) !! (Namespace (Meta gw), jobNameFor gw) = None ->
  fault env L342 = Some err ->
  createJobForWorkload env gw node st
  = (Continue (inr err),
     logged L342 (CreateJob (buildJob gw node (jobNameFor gw)))
       (logged L274 (GetJob (Namespace (Meta gw), jobNameFor gw)) st)).
Proof.
  intros Huid Hnone Hf. unfold createJobForWorkload.
  replace (String.length (UID (Meta gw)) <? 8)%nat with false
    by (symmetry; apply Nat.ltb_ge; lia).
  cbv zeta. rewrite bind_eq, client_GetJob_eq, Hnone.
  assert (Hget : exists e, match fault env L274 with
                           | Some err => inr err
                           | None => inr (NewNotFound "jobs.batch"
                                           (snd (Namespace (Meta gw), jobNameFor gw)))
                           end = (inr e : Job + error))
    by (destruct (fault env L274); eauto).
  destruct Hget as [e ->]. rewrite bind_eq. unfold client_Create. rewrite Hf. reflexivity.
Qed.

Lemma creates_logged_status site gw st :
  creates (calls st ++ [(site, UpdateStatus gw)]) = creates (calls st).
Proof. rewrite creates_app, creates_single. simpl. lia. Qed.

Lemma creates_logged_list st :
  creates (calls (logged L147 ListNodes st)) = creates (calls st).
Proof. rewrite calls_logged, creates_app, creates_single. simpl. lia. Qed.

(** Lines 147-153: the node list cannot be read. *)
Lemma Reconcile_L127_list_fails env gw st err :
  synced gw st -> RetryCount (Status gw) < maxRetriesOf gw ->
  fault env L147 = Some err ->
  exists out st',
    Reconcile_L127 Sscanf_d env gw st = (out, st') /\
    transient_outcome env gw st L151
      (pendingStatus (Status gw) ("Error listing nodes: " ++ errMsg err)) out st'.
Proof.
  intros Hs Hrc Hf. unfold Reconcile_L127. cbv zeta.
  replace (maxRetriesOf gw <=? RetryCount (Status gw)) with false
    by (symmetry; apply Z.leb_gt; lia).
  rewrite bind_eq, client_List_eq, Hf. cbv iota beta. rewrite bind_eq.
  assert (Hs' : synced gw (logged L147 ListNodes st)) by exact Hs.
  destruct (client_StatusUpdate__synced env L151 gw
              (pendingStatus (Status gw) ("Error listing nodes: " ++ errMsg err))
              _ Hs') as (st1 & Hrun & Hchg & Hev & Hcalls & Hstored).
  unfold pendingStatus in *. rewrite Hrun.
  eexists _, _. split; [reflexivity|].
  split; [done|]. split; [exact Hchg|]. split; [exact Hev|].
  split; [rewrite Hcalls; count_calls|]. split; [rewrite Hcalls; count_calls|].
  exact Hstored.
Qed.

(** Lines 163-169: no node is Ready with GPUs. *)
Lemma Reconcile_L127_no_ready_nodes env gw st :
  synced gw st -> RetryCount (Status gw) < maxRetriesOf gw ->
  fault env L147 = None -> gpuNodesOf st = [] ->
  exists out st',
    Reconcile_L127 Sscanf_d env gw st = (out, st') /\
    transient_outcome env gw st L167
      (pendingStatus (Status gw) "No ready GPU nodes available") out st'.
Proof.
  intros Hs Hrc Hf Hnodes. unfold Reconcile_L127. cbv zeta.
  replace (maxRetriesOf gw <=? RetryCount (Status gw)) with false
    by (symmetry; apply Z.leb_gt; lia).
  rewrite bind_eq, client_List_eq, Hf. cbv iota beta.
  unfold gpuNodesOf in Hnodes. rewrite Hnodes.
  change (length (@nil Node) =? 0)%nat with true. cbv iota. rewrite bind_eq.
  assert (Hs' : synced gw (logged L147 ListNodes st)) by exact Hs.
  destruct (client_StatusUpdate__synced env L167 gw
              (pendingStatus (Status gw) "No ready GPU nodes available")
              _ Hs') as (st1 & Hrun & Hchg & Hev & Hcalls & Hstored).
  unfold pendingStatus in *. rewrite Hrun.
  eexists _, _. split; [reflexivity|].
  split; [done|]. split; [exact Hchg|]. split; [exact Hev|].
  split; [rewrite Hcalls; count_calls|]. split; [rewrite Hcalls; count_calls|].
  exact Hstored.
Qed.

(** Lines 189-201: the strategy finds no node. *)
Lemma Reconcile_L127_no_node env gw st err :
  synced gw st -> RetryCount (Status gw) < maxRetriesOf gw ->
  fault env L147 = None -> gpuNodesOf st <> [] ->
  ChooseNode Sscanf_d (strategyOf gw) (randIntn env) (gpuNodesOf st) gw = Err err ->
  exists out st',
    Reconcile_L127 Sscanf_d env gw st = (out, st') /\
    transient_outcome env gw st L199 (retryStatus (Status gw) (errMsg err)) out st'.
Proof.
  intros Hs Hrc Hf Hnodes Hchoose. unfold Reconcile_L127. cbv zeta.
  replace (maxRetriesOf gw <=? RetryCount (Status gw)) with false
    by (symmetry; apply Z.leb_gt; lia).
  rewrite bind_eq, client_List_eq, Hf. cbv iota beta.
  fold (gpuNodesOf st).
  replace (length (gpuNodesOf st) =? 0)%nat with false
    by (destruct (gpuNodesOf st); [done | reflexivity]).
  cbv iota. rewrite Factory_eq. cbv iota beta. fold (strategyOf gw). rewrite Hchoose.
  rewrite bind_eq.
  assert (Hs' : synced gw (logged L147 ListNodes st)) by exact Hs.
  destruct (client_StatusUpdate__synced env L199 gw
              (retryStatus (Status gw) (errMsg err))
              _ Hs') as (st1 & Hrun & Hchg & Hev & Hcalls & Hstored).
  unfold retryStatus in *. rewrite Hrun.
  eexists _, _. split; [reflexivity|].
  split; [done|]. split; [exact Hchg|]. split; [exact Hev|].
  split; [rewrite Hcalls; count_calls|]. split; [rewrite Hcalls; count_calls|].
  exact Hstored.
Qed.

(** Lines 206-218: the Job cannot be created. *)
Lemma Reconcile_L127_create_fails env gw st node err :
  synced gw st -> RetryCount (Status gw) < maxRetriesOf gw ->
  fault env L147 = None -> gpuNodesOf st <> [] ->
  ChooseNode Sscanf_d (strategyOf gw) (randIntn env) (gpuNodesOf st) gw = Ok node ->
  (8 <= String.length (UID (Meta gw)))%nat ->
  jobs (cluster st) !! (Namespace (Meta gw), jobNameFor gw) = None ->
  fault env L342 = Some err ->
  exists out st',
    Reconcile_L127 Sscanf_d env gw st = (out, st') /\
    transient_outcome env gw st L216
      (retryStatus (Status gw) ("Failed to create job: " ++ errMsg err)) out st'.
Proof.
  intros Hs Hrc Hf Hnodes Hchoose Huid Hjob Hcreate. unfold Reconcile_L127. cbv zeta.
  replace (maxRetriesOf gw <=? RetryCount (Status gw)) with false
    by (symmetry; apply Z.leb_gt; lia).
  rewrite bind_eq, client_List_eq, Hf. cbv iota beta.
  fold (gpuNodesOf st).
  replace (length (gpuNodesOf st) =? 0)%nat with false
    by (destruct (gpuNodesOf st); [done | reflexivity]).
  cbv iota. rewrite Factory_eq. cbv iota beta. fold (strategyOf gw). rewrite Hchoose.
  rewrite bind_eq.
  rewrite (createJobForWorkload_create_fails env gw node (logged L147 ListNodes st) err
             Huid Hjob Hcreate).
  rewrite bind_eq.
  assert (Hs' : synced gw (logged L342 (CreateJob (buildJob gw node (jobNameFor gw)))
                             (logged L274 (GetJob (Namespace (Meta gw), jobNameFor gw))
                                (logged L147 ListNodes st)))) by exact Hs.
  destruct (client_StatusUpdate__synced env L216 gw
              (retryStatus (Status gw) ("Failed to create job: " ++ errMsg err))
              _ Hs') as (st1 & Hrun & Hchg & Hev & Hcalls & Hstored).
  unfold retryStatus in *. rewrite Hrun.
  eexists _, _. split; [reflexivity|].
  split; [done|]. split; [exact Hchg|]. split; [exact Hev|].
  split; [rewrite Hcalls; count_calls|]. split; [rewrite Hcalls; count_calls|].
  exact Hstored.
Qed.

Lemma deletes_logged_status site gw st :
  deletes (calls st ++ [(site, UpdateStatus gw)]) = deletes (calls st).
Proof. rewrite deletes_app, deletes_single. simpl. lia. Qed.

Lemma deletes_logged_list st :
  deletes (calls (logged L147 ListNodes st)) = deletes (calls st).
Proof. rewrite calls_logged, deletes_app, deletes_single. simpl. lia. Qed.

(** From line 206 on, once the strategy has chosen [node]. *)
Lemma Reconcile_L127_chosen env gw st node :
  RetryCount (Status gw) < maxRetriesOf gw ->
  fault env L147 = None -> gpuNodesOf st <> [] ->
  ChooseNode Sscanf_d (strategyOf gw) (randIntn env) (gpuNodesOf st) gw = Ok node ->
  Reconcile_L127 Sscanf_d env gw st =
  (j ← createJobForWorkload env gw node;
   match j with
   | inr err =>
       gw' ← client_StatusUpdate_ env L216
               (set_Status gw
                  (retryStatus (Status gw) ("Failed to create job: " ++ errMsg err)));
       mret (requeueWithBackoff env gw')
   | inl job =>
       u ← client_StatusUpdate env L227
             (set_Status gw
                (set_Message
                   (set_JobName
                      (set_LastScheduleTime
                         (set_AssignedNode (set_Phase (Status gw) PhaseScheduled)
                            (Name (NodeMeta node)))
                         (Some (nowL223 env)))
                      (Name (JobMeta job)))
                   ("Successfully scheduled on node " ++ Name (NodeMeta node)
                    ++ " using " ++ Strategy_Name (strategyOf gw) ++ " strategy")));
       match u with
       | inr err => exit emptyResult (Some err)
       | inl gw' =>
           _ ← Recorder_Event gw' EventTypeNormal "Scheduled" (Message (Status gw'));
           mret (emptyResult, None)
       end
   end) (logged L147 ListNodes st).
Proof.
  intros Hrc Hf Hnodes Hchoose. unfold Reconcile_L127. cbv zeta.
  replace (maxRetriesOf gw <=? RetryCount (Status gw)) with false
    by (symmetry; apply Z.leb_gt; lia).
  rewrite bind_eq, client_List_eq, Hf. cbv iota beta.
  fold (gpuNodesOf st).
  replace (length (gpuNodesOf st) =? 0)%nat with false
    by (destruct (gpuNodesOf st); [done | reflexivity]).
  cbv iota. rewrite Factory_eq. cbv iota beta. fold (strategyOf gw). rewrite Hchoose.
  reflexivity.
Qed.

Lemma Reconcile_L127_crash env gw st :
  RetryCount (Status gw) < maxRetriesOf gw ->
  fault env L147 = None -> gpuNodesOf st <> [] ->
  ChooseNode Sscanf_d (strategyOf gw) (randIntn env) (gpuNodesOf st) gw = Crash ->
  Reconcile_L127 Sscanf_d env gw st = (Panic, logged L147 ListNodes st).
Proof.
  intros Hrc Hf Hnodes Hchoose. unfold Reconcile_L127. cbv zeta.
  replace (maxRetriesOf gw <=? RetryCount (Status gw)) with false
    by (symmetry; apply Z.leb_gt; lia).
  rewrite bind_eq, client_List_eq, Hf. cbv iota beta.
  fold (gpuNodesOf st).
  replace (length (gpuNodesOf st) =? 0)%nat with false
    by (destruct (gpuNodesOf st); [done | reflexivity]).
  cbv iota. rewrite Factory_eq. cbv iota beta. fold (strategyOf gw). rewrite Hchoose.
  reflexivity.
Qed.

Lemma transient_outcome_cases env gw st site status out st' :
  transient_outcome env gw st site status out st' ->
  tail_status gw status ->
  pass_frame gw st st' /\
  (workloads (cluster st') !! key_of (Meta gw) = Some gw \/
   exists s', workloads (cluster st') !! key_of (Meta gw) = Some (set_Status gw s') /\
              tail_status gw s').
Proof.
  intros (_ & (Hj & Hn & Hw) & Hev & Hcr & Hdl & Hstored) Hts. split.
  - split; [done|]. split; [done|]. split; [lia|]. split; [done|]. split; by left.
  - destruct (fault env site); [by left | right; eauto].
Qed.

(** Lines 127-240, every path. *)
Lemma Reconcile_L127_cases env gw st out st' :
  synced gw st -> Reconcile_L127 Sscanf_d env gw st = (out, st') ->
  pass_frame gw st st' /\
  (workloads (cluster st') !! key_of (Meta gw) = Some gw \/
   exists s', workloads (cluster st') !! key_of (Meta gw) = Some (set_Status gw s') /\
              tail_status gw s').
Proof.
  intros Hs Hrun.
  destruct (Z.le_gt_cases (maxRetriesOf gw) (RetryCount (Status gw))) as [Hmax|Hrc].
  { destruct (Reconcile_L127_failed env gw st Hs Hmax)
      as (out' & st'' & Heq & (Hj & Hn & Hw) & Hcr & Hdl & Hcase).
    rewrite Heq in Hrun. inversion Hrun; subst out' st''.
    destruct (fault env L136).
    - destruct Hcase as (_ & Hev & Hstored). split; [|by left].
      split; [done|]. split; [done|]. split; [lia|]. split; [done|]. split; by left.
    - destruct Hcase as (_ & Hev & Hstored). split.
      + split; [done|]. split; [done|]. split; [lia|]. split; [done|].
        split; [by left | right; eauto].
      + right. eexists. split; [exact Hstored|]. left. done. }
  assert (Hpend : forall m, tail_status gw (pendingStatus (Status gw) m)).
  { intros m. right. left. split; [lia|]. split; [done|]. by left. }
  assert (Hretry : forall m, tail_status gw (retryStatus (Status gw) m)).
  { intros m. right. left. split; [lia|]. split; [done|]. by right. }
  destruct (fault env L147) as [err|] eqn:Hf.
  { destruct (Reconcile_L127_list_fails env gw st err Hs Hrc Hf) as (out' & st'' & Heq & Ht).
    rewrite Heq in Hrun. inversion Hrun; subst out' st''.
    eapply transient_outcome_cases; eauto. }
  destruct (decide (gpuNodesOf st = [])) as [Hnil|Hnodes].
  { destruct (Reconcile_L127_no_ready_nodes env gw st Hs Hrc Hf Hnil)
      as (out' & st'' & Heq & Ht).
    rewrite Heq in Hrun. inversion Hrun; subst out' st''.
    eapply transient_outcome_cases; eauto. }
  destruct (ChooseNode Sscanf_d (strategyOf gw) (randIntn env) (gpuNodesOf st) gw)
    as [node|err|] eqn:Hchoose.
  2:{ destruct (Reconcile_L127_no_node env gw st err Hs Hrc Hf Hnodes Hchoose)
        as (out' & st'' & Heq & Ht).
      rewrite Heq in Hrun. inversion Hrun; subst out' st''.
      eapply transient_outcome_cases; eauto. }
  2:{ rewrite (Reconcile_L127_crash env gw st Hrc Hf Hnodes Hchoose) in Hrun.
      inversion Hrun; subst. split; [|by left].
      split; [done|]. split; [done|]. split; [count_calls|]. split; [count_calls|].
      split; by left. }
  rewrite (Reconcile_L127_chosen env gw st node Hrc Hf Hnodes Hchoose) in Hrun.
  rewrite bind_eq in Hrun.
  destruct (createJobForWorkload env gw node (logged L147 ListNodes st)) as [r st1] eqn:Hcj.
  destruct (createJobForWorkload_frame _ _ _ _ _ _ Hcj)
    as (Hw1 & Hn1 & He1 & Hnoret & Hcr1 & Hdl1 & Hj1).
  rewrite cluster_logged in Hw1, Hn1, Hj1. rewrite events_logged in He1.
  rewrite creates_logged_list in Hcr1. rewrite deletes_logged_list in Hdl1.
  assert (Hs1 : synced gw st1) by (unfold synced; by rewrite Hw1).
  assert (Hjobs : forall st2, jobs (cluster st2) = jobs (cluster st1) ->
            jobs (cluster st2) = jobs (cluster st) \/
            jobs (cluster st) !! (Namespace (Meta gw), jobNameFor gw) = None /\
            exists node0, jobs (cluster st2)
              = <[(Namespace (Meta gw), jobNameFor gw)
                  := buildJob gw node0 (jobNameFor gw)]> (jobs (cluster st))).
  { intros st2 ->. destruct Hj1 as [->|[Hnone ->]]; [by left | right; eauto]. }
  destruct r as [[job|err]|res err|].
  - rewrite bind_eq in Hrun.
    destruct (client_StatusUpdate_synced env L227 gw
                (set_Message
                   (set_JobName
                      (set_LastScheduleTime
                         (set_AssignedNode (set_Phase (Status gw) PhaseScheduled)
                            (Name (NodeMeta node)))
                         (Some (nowL223 env)))
                      (Name (JobMeta job)))
                   ("Successfully scheduled on node " ++ Name (NodeMeta node)
                    ++ " using " ++ Strategy_Name (strategyOf gw) ++ " strategy"))
                st1 Hs1) as (st2 & Hu & (Hj2 & Hn2 & Hw2) & Hev2 & Hcalls2 & Hstored2).
    rewrite Hu in Hrun.
    assert (Hc2 : creates (calls st2) = creates (calls st1) /\
                  deletes (calls st2) = deletes (calls st1))
      by (rewrite Hcalls2; split; count_calls).
    destruct Hc2 as [Hcr2 Hdl2].
    destruct (fault env L227).
    + inversion Hrun; subst. split; [|by left].
      split; [congruence|]. split; [intros k Hk; rewrite Hw2, Hw1; done|].
      split; [lia|]. split; [lia|]. split; [by apply Hjobs|]. left. congruence.
    + inversion Hrun; subst. split.
      * split; [simpl; congruence|].
        split; [intros k Hk; simpl; rewrite Hw2, Hw1; done|].
        split; [simpl; lia|]. split; [simpl; lia|].
        split; [by apply Hjobs|]. right. simpl. rewrite Hev2, He1. eauto.
      * right. eexists. split; [exact Hstored2|]. right. right. done.
  - rewrite bind_eq in Hrun.
    destruct (client_StatusUpdate__synced env L216 gw
                (retryStatus (Status gw) ("Failed to create job: " ++ errMsg err))
                st1 Hs1) as (st2 & Hu & (Hj2 & Hn2 & Hw2) & Hev2 & Hcalls2 & Hstored2).
    rewrite Hu in Hrun. inversion Hrun; subst.
    assert (Hc2 : creates (calls st') = creates (calls st1) /\
                  deletes (calls st') = deletes (calls st1))
      by (rewrite Hcalls2; split; count_calls).
    destruct Hc2 as [Hcr2 Hdl2]. split.
    + split; [congruence|]. split; [intros k Hk; rewrite Hw2, Hw1; done|].
      split; [lia|]. split; [lia|]. split; [by apply Hjobs|]. left. congruence.
    + destruct (fault env L216); [by left|]. right. eexists. split; [exact Hstored2|].
      apply Hretry.
  - by destruct (Hnoret res err).
  - inversion Hrun; subst. split; [|by left].
    split; [done|]. split; [intros k Hk; by rewrite Hw1|].
    split; [lia|]. split; [lia|]. split; [by apply Hjobs|]. by left.
Qed.

(** Lines 246-256 of [handleDeletion]: the release of the Job. *)
Lemma handleDeletion_release env gw st r st1 :
  (if negb (String.eqb (JobName (Status gw)) "") then
     g ← client_GetJob env L249 (Namespace (Meta gw), JobName (Status gw));
     match g with
     | inl job =>
         d ← client_Delete env L251 job;
         match IgnoreNotFound d with
         | Some err => exit emptyResult (Some err)
         | None => mret tt
         end
     | inr _ => mret tt
     end
   else mret tt) st = (r, st1) ->
  workloads (cluster st1) = workloads (cluster st) /\
  nodes (cluster st1) = nodes (cluster st) /\ events st1 = events st /\
  creates (calls st1) = creates (calls st) /\
  (deletes (calls st1) <= deletes (calls st) + 1)%nat /\
  (jobs (cluster st1) = jobs (cluster st) \/
   exists job, jobs (cluster st) !! (Namespace (Meta gw), JobName (Status gw)) = Some job /\
               fault env L251 = None /\
               jobs (cluster st1) = delete (key_of (JobMeta job)) (jobs (cluster st))) /\
  (r = Continue tt \/
   exists job err,
     r = Return emptyResult (Some err) /\
     jobs (cluster st) !! (Namespace (Meta gw), JobName (Status gw)) = Some job /\
     fault env L249 = None /\ fault env L251 = Some err /\ IsNotFound err = false /\
     jobs (cluster st1) = jobs (cluster st)).
Proof.
  destruct (String.eqb (JobName (Status gw)) "").
  { change (negb true) with false. cbv iota. intros H. inversion H; subst. finish. }
  change (negb false) with true. cbv iota.
  rewrite bind_eq, client_GetJob_eq.
  set (key := (Namespace (Meta gw), JobName (Status gw))).
  assert (Hlog : creates (calls (logged L249 (GetJob key) st)) = creates (calls st) /\
                 deletes (calls (logged L249 (GetJob key) st)) = deletes (calls st))
    by (split; count_calls).
  destruct Hlog as [Hlc Hld].
  destruct (fault env L249) eqn:Hf249.
  { intros H. inversion H; subst. rewrite Hlc, Hld. finish. }
  destruct (jobs (cluster st) !! key) as [job|] eqn:Hjob.
  2:{ intros H. inversion H; subst. rewrite Hlc, Hld. finish. }
  rewrite bind_eq. unfold client_Delete. cbv zeta. rewrite !cluster_logged.
  destruct (fault env L251) as [err|] eqn:Hf251.
  - unfold IgnoreNotFound. destruct (IsNotFound err) eqn:Hnf.
    + intros H. inversion H; subst.
      split; [done|]. split; [done|]. split; [done|].
      split; [count_calls|]. split; [count_calls|]. split; by left.
    + intros H. inversion H; subst.
      split; [done|]. split; [done|]. split; [done|].
      split; [count_calls|]. split; [count_calls|]. split; [by left|].
      right. exists job, err. done.
  - destruct (jobs (cluster st) !! key_of (JobMeta job)) eqn:Hj2.
    + intros H. inversion H; subst.
      split; [done|]. split; [done|]. split; [done|].
      change (calls (with_cluster ?x _)) with (calls x).
      split; [count_calls|]. split; [count_calls|]. split; [|by left].
      right. exists job. done.
    + intros H. inversion H; subst.
      split; [done|]. split; [done|]. split; [done|].
      split; [count_calls|]. split; [count_calls|]. split; by left.
Qed.

(** [handleDeletion], every path. *)
Lemma handleDeletion_cases env gw st out st' :
  synced gw st -> DeletionTimestamp (Meta gw) <> None ->
  handleDeletion env gw st = (out, st') ->
  nodes (cluster st') = nodes (cluster st) /\
  (forall k, k <> key_of (Meta gw) ->
             workloads (cluster st') !! k = workloads (cluster st) !! k) /\
  events st' = events st /\
  creates (calls st') = creates (calls st) /\
  (deletes (calls st') <= deletes (calls st) + 1)%nat /\
  (jobs (cluster st') = jobs (cluster st) \/
   exists job, jobs (cluster st) !! (Namespace (Meta gw), JobName (Status gw)) = Some job /\
               fault env L251 = None /\
               jobs (cluster st') = delete (key_of (JobMeta job)) (jobs (cluster st))) /\
  (workloads (cluster st') !! key_of (Meta gw) = Some gw \/
   containsString (Finalizers (Meta gw)) finalizerName = true /\
   fault env L260 = None /\ out = Continue (emptyResult, None) /\
   workloads (cluster st') !! key_of (Meta gw)
   = if (length (Finalizers (Meta (withoutFinalizer gw))) =? 0)%nat then None
     else Some (withoutFinalizer gw)) /\
  (forall job err,
     containsString (Finalizers (Meta gw)) finalizerName = true ->
     jobs (cluster st) !! (Namespace (Meta gw), JobName (Status gw)) = Some job ->
     JobName (Status gw) <> "" ->
     fault env L249 = None -> fault env L251 = Some err -> IsNotFound err = false ->
     out = Return emptyResult (Some err) /\
     workloads (cluster st') !! key_of (Meta gw) = Some gw /\
     jobs (cluster st') = jobs (cluster st)).
Proof.
  intros Hs Hdel. unfold handleDeletion.
  destruct (containsString (Finalizers (Meta gw)) finalizerName) eqn:Hc.
  2:{ intros H. inversion H; subst. repeat split; try done; try lia; by left. }
  rewrite bind_eq.
  match goal with |- context [match ?blk st with _ => _ end] =>
    destruct (blk st) as [r st1] eqn:Hrel end.
  destruct (handleDeletion_release env gw st r st1 Hrel)
    as (Hw1 & Hn1 & He1 & Hcr1 & Hdl1 & Hj1 & Hr).
  assert (Hs1 : synced gw st1) by (unfold synced; by rewrite Hw1).
  destruct Hr as [-> | (job & err & -> & Hjob & Hf249 & Hf251 & Hnf & Hjsame)].
  2:{ intros H. inversion H; subst.
      split; [done|]. split; [intros; by rewrite Hw1|]. split; [done|].
      split; [done|]. split; [done|]. split; [by left|].
      split; [left; exact Hs1|].
      intros job' err' _ Hjob' _ _ Hf' _. rewrite Hf251 in Hf'. inversion Hf'; subst.
      split; [done|]. split; [exact Hs1 | done]. }
  fold (withoutFinalizer gw). rewrite bind_eq.
  assert (Hnorel : forall job err,
            jobs (cluster st) !! (Namespace (Meta gw), JobName (Status gw)) = Some job ->
            JobName (Status gw) <> "" ->
            fault env L249 = None -> fault env L251 = Some err ->
            IsNotFound err = false -> False).
  { intros job err Hjob Hne Hf249 Hf251 Hnf. revert Hrel.
    replace (String.eqb (JobName (Status gw)) "") with false
      by (symmetry; by apply String.eqb_neq).
    change (negb false) with true. cbv iota.
    rewrite bind_eq, client_GetJob_eq, Hf249, Hjob, bind_eq.
    unfold client_Delete. rewrite Hf251. unfold IgnoreNotFound. rewrite Hnf.
    discriminate. }
  destruct (fault env L260) as [err|] eqn:Hf260.
  - unfold client_Update. rewrite Hf260. intros H. inversion H; subst.
    split; [done|]. split; [intros; by rewrite cluster_logged, Hw1|]. split; [done|].
    split; [rewrite <- Hcr1; count_calls|]. split; [rewrite calls_logged, deletes_app, deletes_single; simpl; lia|].
    split; [done|]. split; [left; exact Hs1|].
    intros job err' _ Hjob Hne Hf249 Hf251 Hnf. by destruct (Hnorel job err').
  - assert (Hs1' : workloads (cluster st1) !! key_of (Meta (withoutFinalizer gw)) = Some gw)
      by exact Hs1.
    rewrite (client_Update_ok env L260 (withoutFinalizer gw) gw st1 Hf260 Hs1').
    replace (negb (IsZero (DeletionTimestamp (Meta (withoutFinalizer gw))))) with true
      by (simpl; destruct (DeletionTimestamp (Meta gw)); done).
    intros H. inversion H; subst. clear H.
    split; [done|]. split.
    { intros k Hk. simpl. destruct (_ =? _)%nat.
      - rewrite lookup_delete_ne by done. by rewrite Hw1.
      - rewrite lookup_insert_ne by done. by rewrite Hw1. }
    split; [done|].
    change (calls (with_cluster ?x _)) with (calls x).
    split; [rewrite <- Hcr1; count_calls|].
    split; [rewrite calls_logged, deletes_app, deletes_single; simpl; lia|].
    split; [done|]. split.
    + right. split; [done|]. split; [done|]. split; [done|]. simpl.
      destruct (_ =? _)%nat; [apply lookup_delete_eq | apply lookup_insert_eq].
    + intros job err' _ Hjob Hne Hf249 Hf251 Hnf. by destruct (Hnorel job err').
Qed.

Lemma status_step_refl gw : status_step gw (Status gw).
Proof. split; by left. Qed.

Lemma tail_status_step gw gw2 s' :
  Spec gw2 = Spec gw ->
  (Status gw2 = Status gw \/
   Phase (Status gw) = "" /\
   exists t, Status gw2 = set_LastScheduleTime (set_Phase (Status gw) PhasePending) t) ->
  tail_status gw2 s' -> status_step gw s'.
Proof.
  intros Hspec Hst Hts.
  assert (Hmax : maxRetriesOf gw2 = maxRetriesOf gw) by (unfold maxRetriesOf; by rewrite Hspec).
  assert (Hrc : RetryCount (Status gw2) = RetryCount (Status gw))
    by (destruct Hst as [->|[_ [t ->]]]; reflexivity).
  unfold tail_status in Hts. rewrite Hmax, Hrc in Hts.
  destruct Hts as [(H1 & H2 & H3) | [(H1 & H2 & H3) | (H1 & H2 & H3)]].
  - split; [by left|]. right. right. left. done.
  - split; [destruct H3; [by left | right; done]|]. right. right. right. split; [done|by left].
  - split; [by left|]. right. right. right. split; [done|by right].
Qed.

(** A whole pass, every path. *)
Lemma Reconcile_cases env req st gw out st' :
  workloads (cluster st) !! req = Some gw -> key_of (Meta gw) = req ->
  Reconcile Sscanf_d env req st = (out, st') ->
  nodes (cluster st') = nodes (cluster st) /\
  (forall k, k <> req -> workloads (cluster st') !! k = workloads (cluster st) !! k) /\
  (creates (calls st') <= creates (calls st) + 1)%nat /\
  (deletes (calls st') <= deletes (calls st) + 1)%nat /\
  (events st' = events st \/ exists ev, events st' = (events st ++ [ev])%list) /\
  (forall gw', workloads (cluster st') !! req = Some gw' ->
     Spec gw' = Spec gw /\ key_of (Meta gw') = req /\ UID (Meta gw') = UID (Meta gw) /\
     DeletionTimestamp (Meta gw') = DeletionTimestamp (Meta gw) /\
     status_step gw (Status gw')) /\
  (workloads (cluster st') !! req = None -> DeletionTimestamp (Meta gw) <> None).
Proof.
  intros Hgw Hkey. rewrite Reconcile_stages, bind_eq, client_Get_eq, Hgw.
  assert (Hl : creates (calls (logged L77 (GetWorkload req) st)) = creates (calls st) /\
               deletes (calls (logged L77 (GetWorkload req) st)) = deletes (calls st))
    by (split; count_calls).
  destruct Hl as [Hlc Hld].
  assert (Hsame : forall st0, cluster st0 = cluster st ->
            (forall gw', workloads (cluster st0) !! req = Some gw' ->
               Spec gw' = Spec gw /\ key_of (Meta gw') = req /\
               UID (Meta gw') = UID (Meta gw) /\
               DeletionTimestamp (Meta gw') = DeletionTimestamp (Meta gw) /\
               status_step gw (Status gw')) /\
            (workloads (cluster st0) !! req = None -> DeletionTimestamp (Meta gw) <> None)).
  { intros st0 ->. rewrite Hgw. split; [|discriminate].
    intros gw' [= <-]. repeat split; try done; by left. }
  destruct (fault env L77).
  { intros H. inversion H; subst out st'. rewrite Hlc, Hld.
    split; [done|]. split; [done|]. split; [lia|]. split; [lia|]. split; [by left|].
    by apply Hsame. }
  destruct (skipped (Phase (Status gw))).
  { intros H. inversion H; subst out st'. rewrite Hlc, Hld.
    split; [done|]. split; [done|]. split; [lia|]. split; [lia|]. split; [by left|].
    by apply Hsame. }
  assert (Hs0 : synced gw (logged L77 (GetWorkload req) st))
    by (unfold synced; by rewrite Hkey).
  destruct (DeletionTimestamp (Meta gw)) as [t|] eqn:Hdel.
  { change (negb (IsZero (Some t))) with true. cbv iota. intros H.
    destruct (handleDeletion_cases env gw _ out st' Hs0 ltac:(by rewrite Hdel) H)
      as (Hn & Hw & Hev & Hcr & Hdl & _ & Hstored & _).
    rewrite Hkey in Hw, Hstored. rewrite Hlc in Hcr. rewrite Hld in Hdl.
    split; [done|]. split; [done|]. split; [lia|]. split; [lia|]. split; [by left|].
    destruct Hstored as [Hst | (_ & _ & _ & Hst)].
    - rewrite Hst. split; [|discriminate]. intros gw' [= <-].
      repeat split; try done; by left.
    - rewrite Hst. destruct (_ =? _)%nat; [split; [discriminate|done]|].
      split; [|discriminate]. intros gw' [= <-].
      repeat split; try done; by left. }
  change (negb (IsZero None)) with false. cbv iota. rewrite bind_eq.
  destruct (Reconcile_L107_cases env gw _ Hs0 Hdel)
    as [(err & st1 & _ & _ & -> & Hc1 & He1 & Hcr1 & Hdl1)
       | (gw1 & st1 & -> & Hs1 & Hk1 & (Hj1 & Hn1 & Hw1) & He1 & Hcr1 & Hdl1
          & _ & _ & Hspec1 & Huid1 & Hdel1 & _ & Hst1)].
  { intros H. inversion H; subst out st'. rewrite Hcr1, Hdl1, Hlc, Hld, He1.
    split; [by rewrite Hc1|]. split; [intros; by rewrite Hc1|].
    split; [lia|]. split; [lia|]. split; [by left|]. by apply Hsame. }
  rewrite Hkey in Hw1. rewrite cluster_logged in Hn1, Hj1, Hw1.
  rewrite events_logged in He1. rewrite Hlc in Hcr1. rewrite Hld in Hdl1.
  assert (Hstep1 : forall g, Spec g = Spec gw1 -> key_of (Meta g) = key_of (Meta gw1) ->
            UID (Meta g) = UID (Meta gw1) ->
            DeletionTimestamp (Meta g) = DeletionTimestamp (Meta gw1) ->
            status_step gw (Status g) ->
            Spec g = Spec gw /\ key_of (Meta g) = req /\ UID (Meta g) = UID (Meta gw) /\
            DeletionTimestamp (Meta g) = None /\ status_step gw (Status g)).
  { intros g -> -> -> -> Hss. rewrite Hk1, Hkey, Hdel1. done. }
  rewrite bind_eq.
  destruct (Reconcile_L116_cases env gw1 st1 Hs1)
    as [(err & st2 & _ & _ & -> & Hc2 & He2 & Hcr2 & Hdl2)
       | (gw2 & st2 & -> & Hs2 & Hk2 & (Hj2 & Hn2 & Hw2) & He2 & Hcr2 & Hdl2
          & _ & _ & Hspec2 & Hmeta2 & Hst2)].
  { intros H. inversion H; subst out st'. rewrite Hcr2, Hdl2, He2, Hc2.
    split; [done|]. split; [done|]. split; [lia|]. split; [lia|]. split; [by left|].
    unfold synced in Hs1. rewrite Hk1, Hkey in Hs1. rewrite Hs1.
    split; [|discriminate]. intros gw' [= <-].
    apply Hstep1; try done. rewrite Hst1. apply status_step_refl. }
  rewrite Hk1, Hkey in Hw2.
  assert (Hst2' : Status gw2 = Status gw \/
                  Phase (Status gw) = "" /\
                  exists t, Status gw2
                    = set_LastScheduleTime (set_Phase (Status gw) PhasePending) t).
  { rewrite Hst1 in Hst2. destruct Hst2 as [[? _]|[? ?]]; [by left | right; eauto]. }
  intros H.
  destruct (Reconcile_L127_cases env gw2 st2 out st' Hs2 H)
    as ((Hn3 & Hw3 & Hcr3 & Hdl3 & _ & Hev3) & Hstored).
  rewrite Hk2, Hk1, Hkey in Hw3, Hstored.
  split; [congruence|].
  split; [intros k Hk; rewrite Hw3, Hw2, Hw1; done|].
  split; [lia|]. split; [lia|].
  split; [rewrite <- He1, <- He2; exact Hev3|].
  assert (Hstep2 : forall s, status_step gw s ->
            Spec (set_Status gw2 s) = Spec gw /\ key_of (Meta (set_Status gw2 s)) = req /\
            UID (Meta (set_Status gw2 s)) = UID (Meta gw) /\
            DeletionTimestamp (Meta (set_Status gw2 s)) = None /\
            status_step gw (Status (set_Status gw2 s))).
  { intros s Hss. apply Hstep1; simpl; try done; by rewrite Hmeta2. }
  destruct Hstored as [Hst | (s' & Hst & Hts)]; rewrite Hst; (split; [|discriminate]);
    intros gw' [= <-].
  - apply Hstep1; try done; try (by rewrite Hmeta2).
    destruct Hst2' as [->|[Hp [t ->]]]; [apply status_step_refl|].
    split; [by left|]. right. left. done.
  - apply Hstep2. apply (tail_status_step gw gw2 s'); [congruence | exact Hst2' | exact Hts].
Qed.

Lemma run_snd m st : snd (run m st) = snd (m st).
Proof. unfold run. by destruct (m st) as [[[res err]|res err|] st']. Qed.

(** A pass over a request that is not stored changes nothing. *)
Lemma Reconcile_absent env req st :
  workloads (cluster st) !! req = None ->
  exists out, Reconcile Sscanf_d env req st = (out, logged L77 (GetWorkload req) st).
Proof.
  intros Hnone. unfold Reconcile. rewrite bind_eq, client_Get_eq, Hnone.
  destruct (fault env L77); eauto.
Qed.

(** A property of the stored request that every pass keeps holds after any
    number of passes. *)
Lemma passes_invariant (I : GPUWorkload -> Prop) req :
  (forall env st gw out st',
     workloads (cluster st) !! req = Some gw -> I gw ->
     Reconcile Sscanf_d env req st = (out, st') ->
     forall gw', workloads (cluster st') !! req = Some gw' -> I gw') ->
  forall envs st,
    (forall gw, workloads (cluster st) !! req = Some gw -> I gw) ->
    forall gw', workloads (cluster (passes Sscanf_d envs req st)) !! req = Some gw' -> I gw'.
Proof.
  intros Hstep envs. induction envs as [|env envs IH]; intros st HI gw' Hgw'; simpl in Hgw'.
  { by apply HI. }
  revert gw' Hgw'. apply IH. clear IH.
  rewrite run_snd. intros gw1 Hgw1.
  destruct (Reconcile Sscanf_d env req st) as [out st1] eqn:Hrun. simpl in Hgw1.
  destruct (workloads (cluster st) !! req) as [gw|] eqn:Hgw.
  - exact (Hstep env st gw out st1 Hgw (HI gw eq_refl) Hrun gw1 Hgw1).
  - destruct (Reconcile_absent env req st Hgw) as [out' Heq].
    rewrite Heq in Hrun. inversion Hrun; subst.
    rewrite cluster_logged, Hgw in Hgw1. discriminate.
Qed.

(** Lines 77-125 when nothing fails: the pass reaches line 127 with the
    request in memory and stored, carrying the finalizer and a phase. *)
Lemma Reconcile_prefix env req st gw :
  workloads (cluster st) !! req = Some gw -> key_of (Meta gw) = req ->
  fault env L77 = None -> skipped (Phase (Status gw)) = false ->
  DeletionTimestamp (Meta gw) = None ->
  fault env L110 = None -> fault env L120 = None ->
  exists gw2 st2,
    Reconcile Sscanf_d env req st = Reconcile_L127 Sscanf_d env gw2 st2 /\
    synced gw2 st2 /\ key_of (Meta gw2) = req /\
    only_workload_changed req st st2 /\ events st2 = events st /\
    creates (calls st2) = creates (calls st) /\
    deletes (calls st2) = deletes (calls st) /\
    prepared env gw gw2.
Proof.
  intros Hgw Hkey Hf77 Hskip Hdel Hf110 Hf120.
  rewrite Reconcile_stages, bind_eq, client_Get_eq, Hf77, Hgw. cbv iota beta.
  rewrite Hskip, Hdel. change (negb (IsZero None)) with false. cbv iota.
  assert (Hs0 : synced gw (logged L77 (GetWorkload req) st))
    by (unfold synced; by rewrite Hkey).
  rewrite bind_eq.
  destruct (Reconcile_L107_cases env gw _ Hs0 Hdel)
    as [(err & st1 & Hf & _) | (gw1 & st1 & -> & Hs1 & Hk1 & (Hj1 & Hn1 & Hw1) & He1
                                  & Hcr1 & Hdl1 & Hapi1 & Hkind1 & Hspec1 & Huid1
                                  & Hdel1 & Hfin1 & Hst1)]; [congruence|].
  rewrite bind_eq.
  destruct (Reconcile_L116_cases env gw1 st1 Hs1)
    as [(err & st2 & _ & Hf & _) | (gw2 & st2 & -> & Hs2 & Hk2 & (Hj2 & Hn2 & Hw2) & He2
                                      & Hcr2 & Hdl2 & Hapi2 & Hkind2 & Hspec2 & Hmeta2
                                      & Hst2)]; [congruence|].
  exists gw2, st2. split; [reflexivity|]. split; [done|].
  split; [congruence|].
  rewrite Hkey in Hw1. rewrite Hk1, Hkey in Hw2.
  rewrite cluster_logged in Hj1, Hn1, Hw1. rewrite events_logged in He1.
  split.
  { split; [congruence|]. split; [congruence|]. intros k Hk. rewrite Hw2, Hw1; done. }
  split; [congruence|].
  split; [rewrite Hcr2, Hcr1; count_calls|]. split; [rewrite Hdl2, Hdl1; count_calls|].
  unfold prepared. rewrite Hmeta2.
  assert (Hn : Name (Meta gw1) = Name (Meta gw) /\ Namespace (Meta gw1) = Namespace (Meta gw)).
  { unfold key_of in Hk1. inversion Hk1. done. }
  destruct Hn as [Hname Hns].
  split; [congruence|]. split; [congruence|]. split; [congruence|].
  split; [done|]. split; [done|]. split; [done|]. split; [congruence|]. split; [done|].
  rewrite Hst1 in Hst2. exact Hst2.
Qed.

Lemma prepared_facts env gw gw2 :
  prepared env gw gw2 ->
  maxRetriesOf gw2 = maxRetriesOf gw /\
  RetryCount (Status gw2) = RetryCount (Status gw) /\
  baseDurationOf gw2 = baseDurationOf gw /\
  strategyOf gw2 = strategyOf gw /\
  jobNameFor gw2 = jobNameFor gw /\
  JobName (Status gw2) = JobName (Status gw) /\
  AssignedNode (Status gw2) = AssignedNode (Status gw).
Proof.
  intros (_ & _ & Hspec & Hname & _ & Huid & _ & _ & Hst).
  unfold maxRetriesOf, baseDurationOf, strategyOf, jobNameFor.
  rewrite Hspec, Hname, Huid.
  destruct Hst as [[-> _] | [_ ->]]; done.
Qed.

(** C3, as the code has it.  (a) A retry count that does not exceed
    [maxRetries] (the policy's value when positive, 3 otherwise) never
    exceeds it after any number of passes, whatever fails in them.  (b) Once
    the count has reached [maxRetries], a pass over a request that is
    neither skipped nor being deleted, and whose writes succeed, stores
    phase Failed with the message "Failed to schedule after N retries",
    records a MaxRetriesExceeded warning, creates no Job and returns an
    empty result: no requeue.  (c) From then on the stored phase is Failed
    and the count is unchanged after any number of passes. *)
Theorem Reconcile_retry_ceiling env req st gw :
  workloads (cluster st) !! req = Some gw -> key_of (Meta gw) = req ->
  int32_range (RetryCount (Status gw)) -> maxRetriesOf gw <= 2 ^ 31 - 1 ->
  (RetryCount (Status gw) <= maxRetriesOf gw ->
   forall envs gw',
     workloads (cluster (passes Sscanf_d envs req st)) !! req = Some gw' ->
     RetryCount (Status gw') <= maxRetriesOf gw') /\
  (maxRetriesOf gw <= RetryCount (Status gw) ->
   skipped (Phase (Status gw)) = false -> DeletionTimestamp (Meta gw) = None ->
   fault env L77 = None -> fault env L110 = None -> fault env L120 = None ->
   fault env L136 = None ->
   let message :=
     "Failed to schedule after " ++ format_d (maxRetriesOf gw) ++ " retries" in
   exists st' gw',
     run (Reconcile Sscanf_d env req) st = (Returned emptyResult None, st') /\
     workloads (cluster st') !! req = Some gw' /\
     Phase (Status gw') = PhaseFailed /\ Message (Status gw') = message /\
     RetryCount (Status gw') = RetryCount (Status gw) /\
     events st' = (events st ++
       [{| evObject := req; evType := EventTypeWarning;
           evReason := "MaxRetriesExceeded"; evMessage := message |}])%list /\
     jobs (cluster st') = jobs (cluster st) /\
     creates (calls st') = creates (calls st)) /\
  (Phase (Status gw) = PhaseFailed -> maxRetriesOf gw <= RetryCount (Status gw) ->
   forall envs gw',
     workloads (cluster (passes Sscanf_d envs req st)) !! req = Some gw' ->
     Phase (Status gw') = PhaseFailed /\
     RetryCount (Status gw') = RetryCount (Status gw)).
Proof.
  intros Hgw Hkey Hrange Hmaxr. split; [|split].
  - intros Hle envs gw' Hgw'.
    assert (HI : key_of (Meta gw') = req /\ Spec gw' = Spec gw /\
                 int32_range (RetryCount (Status gw')) /\
                 RetryCount (Status gw') <= maxRetriesOf gw).
    { revert gw' Hgw'. apply passes_invariant.
      - intros env0 st0 g out st1 Hg (Hk & Hsp & Hr & Hb) Hrun g' Hg'.
        destruct (Reconcile_cases env0 req st0 g out st1 Hg Hk Hrun)
          as (_ & _ & _ & _ & _ & Hstep & _).
        destruct (Hstep g' Hg') as (Hsp' & Hk' & _ & _ & (Hrc & _)).
        assert (Hm : maxRetriesOf g = maxRetriesOf gw)
          by (unfold maxRetriesOf; by rewrite Hsp).
        rewrite Hm in Hrc. split; [done|]. split; [congruence|].
        destruct Hrc as [-> | (Hlt & -> & _)]; [done|].
        unfold int32_range in *. rewrite wrap32_small by lia. lia.
      - intros g Hg. rewrite Hgw in Hg. inversion Hg; subst g. done. }
    destruct HI as (_ & Hsp & _ & Hb). unfold maxRetriesOf in *. by rewrite Hsp.
  - intros Hmax Hskip Hdel Hf77 Hf110 Hf120 Hf136 message.
    destruct (Reconcile_prefix env req st gw Hgw Hkey Hf77 Hskip Hdel Hf110 Hf120)
      as (gw2 & st2 & Heq & Hs2 & Hk2 & (Hj2 & _ & _) & He2 & Hcr2 & _ & Hprep).
    destruct (prepared_facts _ _ _ Hprep) as (Hm2 & Hrc2 & _).
    destruct (Reconcile_L127_failed env gw2 st2 Hs2 ltac:(lia))
      as (out & st' & Hrun & (Hj3 & _ & _) & Hcr3 & _ & Hcase).
    rewrite Hf136, Hk2, Hm2 in Hcase. destruct Hcase as (-> & Hev & Hstored).
    exists st'. eexists. unfold run. rewrite Heq, Hrun.
    split; [reflexivity|]. split; [exact Hstored|].
    split; [reflexivity|]. split; [reflexivity|]. split; [exact Hrc2|].
    split; [by rewrite Hev, He2|]. split; congruence.
  - intros Hfailed Hmax envs gw' Hgw'.
    assert (HI : key_of (Meta gw') = req /\ Spec gw' = Spec gw /\
                 Phase (Status gw') = PhaseFailed /\
                 RetryCount (Status gw') = RetryCount (Status gw)).
    { revert gw' Hgw'. apply passes_invariant.
      - intros env0 st0 g out st1 Hg (Hk & Hsp & Hp & Hr) Hrun g' Hg'.
        destruct (Reconcile_cases env0 req st0 g out st1 Hg Hk Hrun)
          as (_ & _ & _ & _ & _ & Hstep & _).
        destruct (Hstep g' Hg') as (Hsp' & Hk' & _ & _ & (Hrc & Hph)).
        assert (Hm : maxRetriesOf g = maxRetriesOf gw)
          by (unfold maxRetriesOf; by rewrite Hsp).
        rewrite Hm, Hr in Hrc, Hph. rewrite Hp in Hph.
        split; [done|]. split; [congruence|]. split.
        + destruct Hph as [-> | [[Habs _] | [[_ ->] | [Hlt _]]]]; try done. lia.
        + destruct Hrc as [-> | (Hlt & _)]; [done | lia].
      - intros g Hg. rewrite Hgw in Hg. inversion Hg; subst g. done. }
    destruct HI as (_ & _ & Hp & Hr). done.
Qed.

Lemma ChooseNode_Spec s rnd nodes gw gw' :
  Spec gw' = Spec gw ->
  ChooseNode Sscanf_d s rnd nodes gw' = ChooseNode Sscanf_d s rnd nodes gw.
Proof.
  intros Hspec. destruct s; simpl;
    unfold LeastLoaded_ChooseNode, Random_ChooseNode, CostOptimized_ChooseNode,
      LeastLoaded_ChooseNode; by rewrite Hspec.
Qed.

Lemma gpuNodesOf_nodes st st' :
  nodes (cluster st') = nodes (cluster st) -> gpuNodesOf st' = gpuNodesOf st.
Proof. unfold gpuNodesOf. by intros ->. Qed.

(** C4, as the code has it.  In a pass that reaches line 127 with retries
    left, each transient failure leaves the stored phase Pending (when the
    status write succeeds) and returns a requeue after the backoff, but
    only two of them count: a failed node list and the absence of Ready GPU
    nodes leave [retryCount] as it is, while a strategy that finds no node
    and a Job that cannot be created increment it.  The delay is positive
    for an admissible base and draw. *)
Theorem Reconcile_transient_failures env req st gw :
  workloads (cluster st) !! req = Some gw -> key_of (Meta gw) = req ->
  fault env L77 = None -> skipped (Phase (Status gw)) = false ->
  DeletionTimestamp (Meta gw) = None ->
  fault env L110 = None -> fault env L120 = None ->
  0 <= RetryCount (Status gw) < maxRetriesOf gw -> maxRetriesOf gw <= 2 ^ 31 - 1 ->
  let rc := RetryCount (Status gw) in
  (forall err, fault env L147 = Some err ->
     exists st',
       run (Reconcile Sscanf_d env req) st = (requeued env gw rc, st') /\
       jobs (cluster st') = jobs (cluster st) /\
       (fault env L151 = None ->
        stored_pending st' req rc ("Error listing nodes: " ++ errMsg err))) /\
  (fault env L147 = None -> gpuNodesOf st = [] ->
     exists st',
       run (Reconcile Sscanf_d env req) st = (requeued env gw rc, st') /\
       jobs (cluster st') = jobs (cluster st) /\
       (fault env L167 = None ->
        stored_pending st' req rc "No ready GPU nodes available")) /\
  (forall err, fault env L147 = None -> gpuNodesOf st <> [] ->
     ChooseNode Sscanf_d (strategyOf gw) (randIntn env) (gpuNodesOf st) gw = Err err ->
     exists st',
       run (Reconcile Sscanf_d env req) st = (requeued env gw (rc + 1), st') /\
       jobs (cluster st') = jobs (cluster st) /\
       (fault env L199 = None -> stored_pending st' req (rc + 1) (errMsg err))) /\
  (forall node err, fault env L147 = None -> gpuNodesOf st <> [] ->
     ChooseNode Sscanf_d (strategyOf gw) (randIntn env) (gpuNodesOf st) gw = Ok node ->
     (8 <= String.length (UID (Meta gw)))%nat ->
     jobs (cluster st) !! (Namespace (Meta gw), jobNameFor gw) = None ->
     fault env L342 = Some err ->
     exists st',
       run (Reconcile Sscanf_d env req) st = (requeued env gw (rc + 1), st') /\
       jobs (cluster st') = jobs (cluster st) /\
       (fault env L216 = None ->
        stored_pending st' req (rc + 1) ("Failed to create job: " ++ errMsg err))) /\
  (0 < baseDurationOf gw < 2 ^ 53 -> unit_float (randFloat64 env) = true ->
   forall attempt, 0 <= attempt ->
     0 < NextBackoff (baseDurationOf gw) attempt (randFloat64 env)).
Proof.
  intros Hgw Hkey Hf77 Hskip Hdel Hf110 Hf120 Hrc Hmaxr rc.
  destruct (Reconcile_prefix env req st gw Hgw Hkey Hf77 Hskip Hdel Hf110 Hf120)
    as (gw2 & st2 & Heq & Hs2 & Hk2 & (Hj2 & Hn2 & _) & He2 & _ & _ & Hprep).
  destruct (prepared_facts _ _ _ Hprep) as (Hm2 & Hrc2 & Hbase2 & Hstrat2 & Hjn2 & _).
  assert (Hspec2 : Spec gw2 = Spec gw) by apply Hprep.
  assert (Hns2 : Namespace (Meta gw2) = Namespace (Meta gw)) by apply Hprep.
  assert (Huid2 : UID (Meta gw2) = UID (Meta gw)) by apply Hprep.
  assert (Hfin : forall site status out st' n msg,
            Reconcile_L127 Sscanf_d env gw2 st2 = (out, st') ->
            transient_outcome env gw2 st2 site status out st' ->
            Phase status = PhasePending -> RetryCount status = n ->
            Message status = msg ->
            exists st',
              run (Reconcile Sscanf_d env req) st = (requeued env gw n, st') /\
              jobs (cluster st') = jobs (cluster st) /\
              (fault env site = None -> stored_pending st' req n msg)).
  { intros site status out st' n msg Hrun (-> & (Hj3 & _ & _) & _ & _ & _ & Hstored)
      Hp Hn Hmsg.
    exists st'. unfold run. rewrite Heq, Hrun, requeueWithBackoff_eq.
    unfold requeued.
    change (baseDurationOf (set_Status gw2 status)) with (baseDurationOf gw2).
    change (RetryCount (Status (set_Status gw2 status))) with (RetryCount status).
    rewrite Hn, Hbase2.
    split; [reflexivity|]. split; [congruence|].
    intros Hf. rewrite Hf, Hk2 in Hstored. eexists. split; [exact Hstored|]. done. }
  assert (Hgn : gpuNodesOf st2 = gpuNodesOf st) by (by apply gpuNodesOf_nodes).
  assert (Hwrap : wrap32 (RetryCount (Status gw2) + 1) = rc + 1).
  { rewrite Hrc2. apply wrap32_small. subst rc. lia. }
  split; [|split; [|split; [|split]]].
  - intros err Hf.
    destruct (Reconcile_L127_list_fails env gw2 st2 err Hs2 ltac:(lia) Hf)
      as (out & st' & Hrun & Hout).
    eapply Hfin; eauto.
  - intros Hf Hnil.
    destruct (Reconcile_L127_no_ready_nodes env gw2 st2 Hs2 ltac:(lia) Hf
                ltac:(by rewrite Hgn)) as (out & st' & Hrun & Hout).
    eapply Hfin; eauto.
  - intros err Hf Hnodes Hchoose.
    destruct (Reconcile_L127_no_node env gw2 st2 err Hs2 ltac:(lia) Hf
                ltac:(by rewrite Hgn)
                ltac:(by rewrite Hgn, Hstrat2, (ChooseNode_Spec _ _ _ gw gw2 Hspec2)))
      as (out & st' & Hrun & Hout).
    eapply Hfin; eauto.
  - intros node err Hf Hnodes Hchoose Huid Hjob Hcreate.
    destruct (Reconcile_L127_create_fails env gw2 st2 node err Hs2 ltac:(lia) Hf
                ltac:(by rewrite Hgn)
                ltac:(by rewrite Hgn, Hstrat2, (ChooseNode_Spec _ _ _ gw gw2 Hspec2))
                ltac:(by rewrite Huid2)
                ltac:(by rewrite Hns2, Hjn2, Hj2)
                Hcreate)
      as (out & st' & Hrun & Hout).
    eapply Hfin; eauto.
  - intros Hbase Hr attempt Hat.
    destruct (NextBackoff_split (baseDurationOf gw) attempt (randFloat64 env)
                ltac:(lia) Hr) as (j & -> & Hj0 & _).
    assert (0 < capped (baseDurationOf gw) attempt); [|lia].
    rewrite capped_nonneg_attempt by done.
    assert (0 < 2 ^ Z.min attempt 10) by (apply Z.pow_pos_nonneg; lia).
    apply Z.min_glb_lt; [nia | reflexivity].
Qed.

(** *** Every path of a pass *)

Lemma run_inv m st out st' : run m st = (out, st') -> exists o, m st = (o, st').
Proof.
  unfold run. destruct (m st) as [[[res err]|res err|] s]; intros H; inversion H; eauto.
Qed.

Lemma after_eq env req st o st' :
  Reconcile Sscanf_d env req st = (o, st') -> after Sscanf_d env req st = st'.
Proof. unfold after. rewrite run_snd. by intros ->. Qed.

Lemma same_request_refl gw : same_request gw gw.
Proof. by repeat split. Qed.

(** How a pass over a stored request runs: it ends after line 77 or 99;
    or it is [handleDeletion]; or it reaches line 127, or returns the error
    of line 110 or 120 on the way, with the request [gw2] in memory and
    stored. *)
Lemma Reconcile_paths env req st gw out st' :
  workloads (cluster st) !! req = Some gw -> key_of (Meta gw) = req ->
  Reconcile Sscanf_d env req st = (out, st') ->
  (st' = logged L77 (GetWorkload req) st /\
   (fault env L77 <> None \/ skipped (Phase (Status gw)) = true)) \/
  (fault env L77 = None /\ skipped (Phase (Status gw)) = false /\
   DeletionTimestamp (Meta gw) <> None /\
   handleDeletion env gw (logged L77 (GetWorkload req) st) = (out, st')) \/
  (fault env L77 = None /\ skipped (Phase (Status gw)) = false /\
   DeletionTimestamp (Meta gw) = None /\
   exists gw2 st2,
     synced gw2 st2 /\ same_request gw gw2 /\
     only_workload_changed req st st2 /\ events st2 = events st /\
     creates (calls st2) = creates (calls st) /\
     deletes (calls st2) = deletes (calls st) /\
     (Status gw2 = Status gw \/
      Phase (Status gw) = "" /\
      exists t, Status gw2 = set_LastScheduleTime (set_Phase (Status gw) PhasePending) t) /\
     ((exists err, out = Return emptyResult (Some err) /\ st' = st2) \/
      containsString (Finalizers (Meta gw2)) finalizerName = true /\
      Reconcile_L127 Sscanf_d env gw2 st2 = (out, st'))).
Proof.
  intros Hgw Hkey. rewrite Reconcile_stages, bind_eq, client_Get_eq, Hgw.
  assert (Hl : creates (calls (logged L77 (GetWorkload req) st)) = creates (calls st) /\
               deletes (calls (logged L77 (GetWorkload req) st)) = deletes (calls st))
    by (split; count_calls).
  destruct Hl as [Hlc Hld].
  destruct (fault env L77) eqn:Hf77.
  { intros H. inversion H; subst out st'. left. split; [done|]. by left. }
  destruct (skipped (Phase (Status gw))) eqn:Hskip.
  { intros H. inversion H; subst out st'. left. split; [done|]. by right. }
  assert (Hs0 : synced gw (logged L77 (GetWorkload req) st))
    by (unfold synced; by rewrite Hkey).
  destruct (DeletionTimestamp (Meta gw)) as [t|] eqn:Hdel.
  { change (negb (IsZero (Some t))) with true. cbv iota. intros H.
    right. left. done. }
  change (negb (IsZero None)) with false. cbv iota. rewrite bind_eq.
  destruct (Reconcile_L107_cases env gw _ Hs0 Hdel)
    as [(err & st1 & _ & _ & -> & Hc1 & He1 & Hcr1 & Hdl1)
       | (gw1 & st1 & -> & Hs1 & Hk1 & (Hj1 & Hn1 & Hw1) & He1 & Hcr1 & Hdl1
          & Hapi1 & Hkind1 & Hspec1 & Huid1 & Hdel1 & Hfin1 & Hst1)].
  { intros H. inversion H; subst out st'. right. right.
    split; [done|]. split; [done|]. split; [done|]. exists gw, st1.
    split; [unfold synced; rewrite Hc1, Hkey; exact Hgw|].
    split; [apply same_request_refl|].
    split; [unfold only_workload_changed; rewrite Hc1; done|].
    split; [by rewrite He1|]. split; [by rewrite Hcr1|]. split; [by rewrite Hdl1|].
    split; [by left|]. left. eauto. }
  rewrite Hkey in Hw1. rewrite cluster_logged in Hn1, Hj1, Hw1.
  rewrite events_logged in He1. rewrite Hlc in Hcr1. rewrite Hld in Hdl1.
  assert (Hsame1 : same_request gw gw1).
  { split; [done|]. split; [done|]. split; [done|]. split; [done|]. split; [done|].
    by rewrite Hdel1, Hdel. }
  rewrite bind_eq.
  destruct (Reconcile_L116_cases env gw1 st1 Hs1)
    as [(err & st2 & _ & _ & -> & Hc2 & He2 & Hcr2 & Hdl2)
       | (gw2 & st2 & -> & Hs2 & Hk2 & (Hj2 & Hn2 & Hw2) & He2 & Hcr2 & Hdl2
          & Hapi2 & Hkind2 & Hspec2 & Hmeta2 & Hst2)].
  { intros H. inversion H; subst out st'. right. right.
    split; [done|]. split; [done|]. split; [done|]. exists gw1, st2.
    split; [unfold synced; rewrite Hc2; exact Hs1|].
    split; [done|].
    split; [unfold only_workload_changed; rewrite Hc2; done|].
    split; [by rewrite He2|]. split; [by rewrite Hcr2|]. split; [by rewrite Hdl2|].
    split; [by left|]. left. eauto. }
  rewrite Hk1, Hkey in Hw2.
  intros H. right. right.
  split; [done|]. split; [done|]. split; [done|]. exists gw2, st2.
  split; [done|].
  split.
  { destruct Hsame1 as (? & ? & ? & ? & ? & ?).
    unfold same_request. rewrite Hmeta2. repeat split; congruence. }
  split.
  { split; [congruence|]. split; [congruence|]. intros k Hk. rewrite Hw2, Hw1; done. }
  split; [congruence|]. split; [congruence|]. split; [congruence|].
  split.
  { rewrite Hst1 in Hst2. destruct Hst2 as [[? _]|[? ?]]; [by left | right; eauto]. }
  right. split; [by rewrite Hmeta2 | done].
Qed.

Lemma client_Update_frame env s gw st r st1 :
  client_Update env s gw st = (r, st1) ->
  jobs (cluster st1) = jobs (cluster st) /\ nodes (cluster st1) = nodes (cluster st) /\
  events st1 = events st /\ calls st1 = (calls st ++ [(s, UpdateWorkload gw)])%list.
Proof.
  unfold client_Update. destruct (fault env s).
  { intros H. inversion H; subst. done. }
  destruct (workloads _ !! _); intros H; inversion H; subst; done.
Qed.

(** [handleDeletion] for a request whose status names no Job: no Job is
    looked up or deleted. *)
Lemma handleDeletion_no_job env gw st out st' :
  JobName (Status gw) = "" -> handleDeletion env gw st = (out, st') ->
  jobs (cluster st') = jobs (cluster st) /\ nodes (cluster st') = nodes (cluster st) /\
  events st' = events st /\
  creates (calls st') = creates (calls st) /\ deletes (calls st') = deletes (calls st).
Proof.
  intros Hjn. unfold handleDeletion.
  destruct (containsString (Finalizers (Meta gw)) finalizerName).
  2:{ intros H. inversion H; subst. done. }
  rewrite Hjn. change (negb (String.eqb "" "")) with false. cbv iota.
  rewrite bind_eq, ret_eq, bind_eq. fold (withoutFinalizer gw).
  destruct (client_Update env L260 (withoutFinalizer gw) st) as [r st1] eqn:Hu.
  destruct (client_Update_frame _ _ _ _ _ _ Hu) as (Hj & Hn & He & Hc).
  assert (Hcount : creates (calls st1) = creates (calls st) /\
                   deletes (calls st1) = deletes (calls st))
    by (rewrite Hc; split; count_calls).
  destruct r as [[u|err]|res err|]; intros H; inversion H; subst; by destruct Hcount.
Qed.

(** Lines 127-240, every path: what is stored afterwards is the request
    with the same metadata, and either the Job name and the assigned node
    of its status are untouched, or its phase is Scheduled. *)
Lemma Reconcile_L127_stored env gw st out st' :
  synced gw st -> Reconcile_L127 Sscanf_d env gw st = (out, st') ->
  exists gw', workloads (cluster st') !! key_of (Meta gw) = Some gw' /\
    Meta gw' = Meta gw /\
    (JobName (Status gw') = JobName (Status gw) /\
     AssignedNode (Status gw') = AssignedNode (Status gw) \/
     Phase (Status gw') = PhaseScheduled).
Proof.
  intros Hs Hrun.
  assert (Htr : forall site status o s,
            transient_outcome env gw st site status o s ->
            JobName status = JobName (Status gw) ->
            AssignedNode status = AssignedNode (Status gw) ->
            exists gw', workloads (cluster s) !! key_of (Meta gw) = Some gw' /\
              Meta gw' = Meta gw /\
              (JobName (Status gw') = JobName (Status gw) /\
               AssignedNode (Status gw') = AssignedNode (Status gw) \/
               Phase (Status gw') = PhaseScheduled)).
  { intros site status o s (_ & _ & _ & _ & _ & Hst) Hj Ha. rewrite Hst.
    destruct (fault env site); eexists; (split; [reflexivity|]); split; try done;
      left; done. }
  destruct (Z.le_gt_cases (maxRetriesOf gw) (RetryCount (Status gw))) as [Hmax|Hrc].
  { destruct (Reconcile_L127_failed env gw st Hs Hmax)
      as (out' & st'' & Heq & _ & _ & _ & Hcase).
    rewrite Heq in Hrun. inversion Hrun; subst out' st''.
    destruct (fault env L136); destruct Hcase as (_ & _ & Hstored); rewrite Hstored;
      eexists; (split; [reflexivity|]); split; try done; left; done. }
  destruct (fault env L147) as [err|] eqn:Hf.
  { destruct (Reconcile_L127_list_fails env gw st err Hs Hrc Hf) as (out' & st'' & Heq & Ht).
    rewrite Heq in Hrun. inversion Hrun; subst out' st''. by apply (Htr _ _ _ _ Ht). }
  destruct (decide (gpuNodesOf st = [])) as [Hnil|Hnodes].
  { destruct (Reconcile_L127_no_ready_nodes env gw st Hs Hrc Hf Hnil)
      as (out' & st'' & Heq & Ht).
    rewrite Heq in Hrun. inversion Hrun; subst out' st''. by apply (Htr _ _ _ _ Ht). }
  destruct (ChooseNode Sscanf_d (strategyOf gw) (randIntn env) (gpuNodesOf st) gw)
    as [node|err|] eqn:Hchoose.
  2:{ destruct (Reconcile_L127_no_node env gw st err Hs Hrc Hf Hnodes Hchoose)
        as (out' & st'' & Heq & Ht).
      rewrite Heq in Hrun. inversion Hrun; subst out' st''. by apply (Htr _ _ _ _ Ht). }
  2:{ rewrite (Reconcile_L127_crash env gw st Hrc Hf Hnodes Hchoose) in Hrun.
      inversion Hrun; subst. exists gw. split; [exact Hs|]. split; [done|]. by left. }
  rewrite (Reconcile_L127_chosen env gw st node Hrc Hf Hnodes Hchoose) in Hrun.
  rewrite bind_eq in Hrun.
  destruct (createJobForWorkload env gw node (logged L147 ListNodes st)) as [r st1] eqn:Hcj.
  destruct (createJobForWorkload_frame _ _ _ _ _ _ Hcj) as (Hw1 & _ & _ & Hnoret & _).
  rewrite cluster_logged in Hw1.
  assert (Hs1 : synced gw st1) by (unfold synced; by rewrite Hw1).
  destruct r as [[job|err]|res err|].
  - rewrite bind_eq in Hrun.
    destruct (client_StatusUpdate_synced env L227 gw
                (set_Message
                   (set_JobName
                      (set_LastScheduleTime
                         (set_AssignedNode (set_Phase (Status gw) PhaseScheduled)
                            (Name (NodeMeta node)))
                         (Some (nowL223 env)))
                      (Name (JobMeta job)))
                   ("Successfully scheduled on node " ++ Name (NodeMeta node)
                    ++ " using " ++ Strategy_Name (strategyOf gw) ++ " strategy"))
                st1 Hs1) as (st2 & Hu & _ & _ & _ & Hstored2).
    rewrite Hu in Hrun.
    destruct (fault env L227); inversion Hrun; subst; simpl; rewrite Hstored2;
      eexists; (split; [reflexivity|]); split; try done; [by left | by right].
  - rewrite bind_eq in Hrun.
    destruct (client_StatusUpdate__synced env L216 gw
                (retryStatus (Status gw) ("Failed to create job: " ++ errMsg err))
                st1 Hs1) as (st2 & Hu & _ & _ & _ & Hstored2).
    rewrite Hu in Hrun. inversion Hrun; subst. rewrite Hstored2.
    destruct (fault env L216); eexists; (split; [reflexivity|]); split; try done;
      left; done.
  - by destruct (Hnoret res err).
  - inversion Hrun; subst. exists gw. split; [exact Hs1|]. split; [done|]. by left.
Qed.

(** *** What a pass leaves alone *)

(** X10: lines 77-80: a pass for a request that is not stored any more reads it
    once, changes nothing and returns an empty result without error; a
    failure of the read other than NotFound is returned as the error. *)
Theorem Reconcile_missing_request env req st :
  workloads (cluster st) !! req = None ->
  exists err,
    run (Reconcile Sscanf_d env req) st
    = (Returned emptyResult err, logged L77 (GetWorkload req) st) /\
    (fault env L77 = None -> err = None) /\
    (forall e, fault env L77 = Some e -> err = if IsNotFound e then None else Some e).
Proof.
  intros Hnone. unfold run. rewrite Reconcile_stages, bind_eq, client_Get_eq, Hnone.
  destruct (fault env L77) as [e|]; cbv iota beta; unfold exit.
  - exists (IgnoreNotFound (Some e)). split; [reflexivity|]. split; [done|].
    by intros e' [= <-].
  - exists None. split; [reflexivity|]. split; [done|]. done.
Qed.

(** X11: the phases Scheduled, Running and Succeeded are absorbing: whatever
    the passes that follow meet, they read the request once each and change
    neither the cluster nor the events, and they create and delete
    nothing. *)
Theorem Reconcile_terminal_phase_absorbing req st gw envs :
  workloads (cluster st) !! req = Some gw -> skipped (Phase (Status gw)) = true ->
  cluster (passes Sscanf_d envs req st) = cluster st /\
  events (passes Sscanf_d envs req st) = events st /\
  creates (calls (passes Sscanf_d envs req st)) = creates (calls st) /\
  deletes (calls (passes Sscanf_d envs req st)) = deletes (calls st) /\
  length (calls (passes Sscanf_d envs req st)) = (length (calls st) + length envs)%nat.
Proof.
  revert st. induction envs as [|env envs IH]; intros st Hgw Hskip; simpl.
  { repeat split; lia. }
  rewrite run_snd.
  assert (Hrun : exists o, Reconcile Sscanf_d env req st
                           = (o, logged L77 (GetWorkload req) st)).
  { destruct (fault env L77) as [e|] eqn:Hf.
    - rewrite (Reconcile_get_fault env req st e Hf). eauto.
    - rewrite (Reconcile_skipped_run env req st gw Hf Hgw Hskip). eauto. }
  destruct Hrun as [o ->]. simpl snd.
  destruct (IH (logged L77 (GetWorkload req) st) Hgw Hskip) as (Hc & He & Hcr & Hdl & Hlen).
  rewrite Hc, He, Hcr, Hdl, Hlen.
  split; [done|]. split; [done|]. split; [count_calls|]. split; [count_calls|].
  rewrite calls_logged, length_app. simpl. lia.
Qed.

(** X12: whatever a pass over [req] meets, it leaves the nodes and every other
    request as they are, keeps the spec, the UID and the deletion timestamp
    of the request itself, keeps every request stored under its own
    namespace and name, calls [Create] at most once and [Delete] at most
    once, and records at most one event. *)
Theorem Reconcile_frame env req st :
  workloads_keyed (cluster st) ->
  let st' := after Sscanf_d env req st in
  nodes (cluster st') = nodes (cluster st) /\
  (forall k, k <> req -> workloads (cluster st') !! k = workloads (cluster st) !! k) /\
  (forall gw', workloads (cluster st') !! req = Some gw' ->
     exists gw, workloads (cluster st) !! req = Some gw /\ Spec gw' = Spec gw /\
       UID (Meta gw') = UID (Meta gw) /\
       DeletionTimestamp (Meta gw') = DeletionTimestamp (Meta gw)) /\
  workloads_keyed (cluster st') /\
  (creates (calls st') <= creates (calls st) + 1)%nat /\
  (deletes (calls st') <= deletes (calls st) + 1)%nat /\
  (length (events st') <= length (events st) + 1)%nat.
Proof.
  intros Hkeyed st'. subst st'.
  destruct (Reconcile Sscanf_d env req st) as [o s1] eqn:Hrun.
  rewrite (after_eq _ _ _ _ _ Hrun).
  destruct (workloads (cluster st) !! req) as [gw|] eqn:Hgw.
  - pose proof (Hkeyed _ _ Hgw) as Hkey.
    destruct (Reconcile_cases env req st gw o s1 Hgw Hkey Hrun)
      as (Hn & Hw & Hcr & Hdl & Hev & Hst & _).
    split; [done|]. split; [done|]. split.
    { intros gw' Hgw'. exists gw. split; [done|].
      by destruct (Hst gw' Hgw') as (? & ? & ? & ? & _). }
    split.
    { intros k g Hk. destruct (decide (k = req)) as [->|Hne].
      - by destruct (Hst g Hk) as (_ & ? & _).
      - rewrite Hw in Hk by done. by apply Hkeyed. }
    split; [done|]. split; [done|].
    destruct Hev as [->|[ev ->]]; [lia | rewrite length_app; simpl; lia].
  - destruct (Reconcile_absent env req st Hgw) as [o' Heq].
    rewrite Heq in Hrun. inversion Hrun; subst o' s1.
    rewrite cluster_logged, events_logged.
    split; [done|]. split; [done|]. split; [by rewrite Hgw|]. split; [done|].
    split; [count_calls|]. split; [count_calls | lia].
Qed.

Lemma same_request_jobNameFor gw gw2 :
  same_request gw gw2 ->
  Namespace (Meta gw2) = Namespace (Meta gw) /\ jobNameFor gw2 = jobNameFor gw /\
  forall node name, buildJob gw2 node name = buildJob gw node name.
Proof.
  intros (Hapi & Hkind & Hspec & Hkey & Huid & _). unfold key_of in Hkey.
  inversion Hkey as [[Hns Hname]].
  split; [done|]. split; [unfold jobNameFor; by rewrite Hname, Huid|].
  intros node name. unfold buildJob. by rewrite Hapi, Hkind, Hspec, Hns, Hname, Huid.
Qed.

(** X13: the Jobs a pass can touch: only the one with the name derived from
    the request and the one the status names change.  For a request that
    is not being deleted no stored Job is removed or replaced; for one that
    is being deleted no Job is added.  Jobs stay stored under their own
    namespace and name. *)
Theorem Reconcile_touches_only_its_jobs env req st gw :
  workloads (cluster st) !! req = Some gw -> key_of (Meta gw) = req ->
  jobs_keyed (cluster st) ->
  let st' := after Sscanf_d env req st in
  (forall k, k <> (Namespace (Meta gw), jobNameFor gw) ->
             k <> (Namespace (Meta gw), JobName (Status gw)) ->
             jobs (cluster st') !! k = jobs (cluster st) !! k) /\
  (DeletionTimestamp (Meta gw) = None ->
   forall k j, jobs (cluster st) !! k = Some j -> jobs (cluster st') !! k = Some j) /\
  (DeletionTimestamp (Meta gw) <> None ->
   forall k j, jobs (cluster st') !! k = Some j -> jobs (cluster st) !! k = Some j) /\
  jobs_keyed (cluster st').
Proof.
  intros Hgw Hkey Hjk st'. subst st'.
  destruct (Reconcile Sscanf_d env req st) as [o s1] eqn:Hrun.
  rewrite (after_eq _ _ _ _ _ Hrun).
  assert (Hsame : jobs (cluster s1) = jobs (cluster st) ->
    (forall k, k <> (Namespace (Meta gw), jobNameFor gw) ->
               k <> (Namespace (Meta gw), JobName (Status gw)) ->
               jobs (cluster s1) !! k = jobs (cluster st) !! k) /\
    (DeletionTimestamp (Meta gw) = None ->
     forall k j, jobs (cluster st) !! k = Some j -> jobs (cluster s1) !! k = Some j) /\
    (DeletionTimestamp (Meta gw) <> None ->
     forall k j, jobs (cluster s1) !! k = Some j -> jobs (cluster st) !! k = Some j) /\
    jobs_keyed (cluster s1)).
  { intros Heq. unfold jobs_keyed. rewrite Heq. done. }
  destruct (Reconcile_paths env req st gw o s1 Hgw Hkey Hrun)
    as [[-> _] | [(_ & _ & Hdel & Hhd) | (_ & _ & Hdel & gw2 & st2 & Hs2 & Hreq & (Hj2 & _)
                                          & _ & _ & _ & _ & Hend)]].
  - by apply Hsame.
  - assert (Hs0 : synced gw (logged L77 (GetWorkload req) st))
      by (unfold synced; by rewrite Hkey).
    destruct (handleDeletion_cases env gw _ o s1 Hs0 Hdel Hhd)
      as (_ & _ & _ & _ & _ & Hj & _).
    rewrite cluster_logged in Hj.
    destruct Hj as [Hj | (job & Hjob & _ & Hj)]; [by apply Hsame|].
    rewrite (Hjk _ _ Hjob) in Hj. unfold jobs_keyed. rewrite Hj.
    split; [intros k _ Hk; by rewrite lookup_delete_ne|].
    split; [done|].
    split; [intros _ k j [_ H]%lookup_delete_Some; done|].
    intros k j [_ H]%lookup_delete_Some. by apply Hjk.
  - destruct Hend as [(err & _ & ->) | (_ & Hl127)]; [by apply Hsame|].
    destruct (Reconcile_L127_cases env gw2 st2 o s1 Hs2 Hl127)
      as ((_ & _ & _ & _ & Hj & _) & _).
    destruct (same_request_jobNameFor gw gw2 Hreq) as (Hns & Hjn & Hbuild).
    rewrite Hns, Hjn, Hj2 in Hj. setoid_rewrite Hbuild in Hj.
    destruct Hj as [Hj | (Hnone & node & Hj)]; [by apply Hsame|].
    unfold jobs_keyed. rewrite Hj.
    split; [intros k Hk _; by rewrite lookup_insert_ne|].
    split.
    { intros _ k j Hkj. rewrite lookup_insert_ne; [done|]. intros <-. congruence. }
    split; [done|].
    intros k j [[<- <-] | [_ H]]%lookup_insert_Some; [reflexivity | by apply Hjk].
Qed.

(** One pass over a request whose status names a Job only in a skipped
    phase: no [Delete] call, every stored Job is kept, and the request
    still has that property. *)
Lemma Reconcile_keeps_jobs env req st gw out st' :
  workloads (cluster st) !! req = Some gw -> key_of (Meta gw) = req ->
  job_only_when_scheduled gw ->
  Reconcile Sscanf_d env req st = (out, st') ->
  deletes (calls st') = deletes (calls st) /\
  (forall k j, jobs (cluster st) !! k = Some j -> jobs (cluster st') !! k = Some j) /\
  (forall gw', workloads (cluster st') !! req = Some gw' ->
               key_of (Meta gw') = req /\ job_only_when_scheduled gw').
Proof.
  intros Hgw Hkey HJ Hrun.
  assert (Hl : deletes (calls (logged L77 (GetWorkload req) st)) = deletes (calls st))
    by count_calls.
  destruct (Reconcile_paths env req st gw out st' Hgw Hkey Hrun)
    as [[-> _] | [(_ & Hskip & Hdel & Hhd) | (_ & Hskip & Hdel & gw2 & st2 & Hs2 & Hreq
                                              & (Hj2 & _) & _ & _ & Hdl2 & Hst2 & Hend)]].
  - split; [done|]. split; [done|]. rewrite cluster_logged, Hgw. by intros gw' [= <-].
  - assert (Hjn : JobName (Status gw) = "").
    { destruct (decide (JobName (Status gw) = "")) as [|Hne]; [done|].
      apply HJ in Hne. congruence. }
    assert (Hs0 : synced gw (logged L77 (GetWorkload req) st))
      by (unfold synced; by rewrite Hkey).
    destruct (handleDeletion_no_job env gw _ out st' Hjn Hhd) as (Hj & _ & _ & _ & Hd).
    destruct (handleDeletion_cases env gw _ out st' Hs0 Hdel Hhd)
      as (_ & _ & _ & _ & _ & _ & Hstored & _).
    rewrite Hkey in Hstored.
    split; [by rewrite Hd|]. split; [by rewrite Hj|].
    destruct Hstored as [-> | (_ & _ & _ & ->)]; [by intros gw' [= <-]|].
    destruct (_ =? _)%nat; [done|]. by intros gw' [= <-].
  - assert (Hjn : JobName (Status gw2) = "").
    { destruct (decide (JobName (Status gw) = "")) as [Hjn|Hne].
      - destruct Hst2 as [->|[_ [t ->]]]; done.
      - apply HJ in Hne. congruence. }
    assert (Hk2 : key_of (Meta gw2) = req)
      by (destruct Hreq as (_ & _ & _ & -> & _); done).
    destruct Hend as [(err & _ & ->) | (_ & Hl127)].
    { split; [done|]. split; [by rewrite Hj2|].
      unfold synced in Hs2. rewrite Hk2 in Hs2. rewrite Hs2. intros gw' [= <-].
      split; [done|]. intros Hne. by rewrite Hjn in Hne. }
    destruct (Reconcile_L127_cases env gw2 st2 out st' Hs2 Hl127)
      as ((_ & _ & _ & Hd & Hj & _) & _).
    destruct (Reconcile_L127_stored env gw2 st2 out st' Hs2 Hl127)
      as (gw3 & Hgw3 & Hmeta3 & Hst3).
    rewrite Hk2 in Hgw3.
    split; [by rewrite Hd|]. split.
    { intros k j Hkj. rewrite <- Hj2 in Hkj.
      destruct Hj as [-> | (Hnone & node & ->)]; [done|].
      rewrite lookup_insert_ne; [done|]. intros <-. congruence. }
    rewrite Hgw3. intros gw' [= <-]. split; [by rewrite Hmeta3|].
    intros Hne. destruct Hst3 as [[Hsame _] | Hph].
    + by rewrite Hsame, Hjn in Hne.
    + apply skipped_iff. by left.
Qed.

(** X14: a request whose status names a Job only in a skipped phase, as is the
    case when only this controller writes the status, never has a Job
    deleted for it: over any number of passes, whatever they meet, no
    [Delete] call is made and every stored Job stays stored, a deletion
    timestamp on the request notwithstanding. *)
Theorem Reconcile_never_deletes_a_job req st gw envs :
  workloads (cluster st) !! req = Some gw -> key_of (Meta gw) = req ->
  job_only_when_scheduled gw ->
  deletes (calls (passes Sscanf_d envs req st)) = deletes (calls st) /\
  (forall k j, jobs (cluster st) !! k = Some j ->
               jobs (cluster (passes Sscanf_d envs req st)) !! k = Some j) /\
  (forall gw', workloads (cluster (passes Sscanf_d envs req st)) !! req = Some gw' ->
               job_only_when_scheduled gw').
Proof.
  intros Hgw Hkey HJ.
  assert (Hgen : forall st0,
    (forall g, workloads (cluster st0) !! req = Some g ->
               key_of (Meta g) = req /\ job_only_when_scheduled g) ->
    deletes (calls (passes Sscanf_d envs req st0)) = deletes (calls st0) /\
    (forall k j, jobs (cluster st0) !! k = Some j ->
                 jobs (cluster (passes Sscanf_d envs req st0)) !! k = Some j) /\
    (forall gw', workloads (cluster (passes Sscanf_d envs req st0)) !! req = Some gw' ->
                 job_only_when_scheduled gw')).
  { clear. induction envs as [|env envs IH]; intros st0 Hinv; simpl.
    { split; [done|]. split; [done|]. intros gw' Hgw'. by apply Hinv. }
    rewrite run_snd.
    destruct (Reconcile Sscanf_d env req st0) as [o s1] eqn:Hrun. simpl snd.
    assert (Hstep : deletes (calls s1) = deletes (calls st0) /\
              (forall k j, jobs (cluster st0) !! k = Some j ->
                           jobs (cluster s1) !! k = Some j) /\
              (forall g, workloads (cluster s1) !! req = Some g ->
                         key_of (Meta g) = req /\ job_only_when_scheduled g)).
    { destruct (workloads (cluster st0) !! req) as [g0|] eqn:Hg0.
      - destruct (Hinv g0 eq_refl) as [Hk0 HJ0].
        exact (Reconcile_keeps_jobs env req st0 g0 o s1 Hg0 Hk0 HJ0 Hrun).
      - destruct (Reconcile_absent env req st0 Hg0) as [o' Heq].
        rewrite Heq in Hrun. inversion Hrun; subst o' s1.
        split; [count_calls|]. split; [done|]. rewrite cluster_logged, Hg0. done. }
    destruct Hstep as (Hd1 & Hj1 & Hinv1).
    destruct (IH s1 Hinv1) as (Hd & Hj & Hst).
    split; [by rewrite Hd|]. split; [|done]. intros k j Hkj. by apply Hj, Hj1. }
  apply Hgen. intros g Hg. rewrite Hgw in Hg. by inversion Hg; subst.
Qed.

(** X15: [Create] is called only in a pass over a request that is not being
    deleted and not in a skipped phase, and after such a pass the stored
    request carries the controller's finalizer: no Job is created for a
    request the controller could not clean up after. *)
Theorem Reconcile_creates_job_only_with_finalizer env req st gw :
  workloads (cluster st) !! req = Some gw -> key_of (Meta gw) = req ->
  let st' := after Sscanf_d env req st in
  creates (calls st') <> creates (calls st) ->
  DeletionTimestamp (Meta gw) = None /\ skipped (Phase (Status gw)) = false /\
  exists gw', workloads (cluster st') !! req = Some gw' /\
              containsString (Finalizers (Meta gw')) finalizerName = true.
Proof.
  intros Hgw Hkey st'. subst st'.
  destruct (Reconcile Sscanf_d env req st) as [o s1] eqn:Hrun.
  rewrite (after_eq _ _ _ _ _ Hrun). intros Hcr.
  assert (Hl : creates (calls (logged L77 (GetWorkload req) st)) = creates (calls st))
    by count_calls.
  destruct (Reconcile_paths env req st gw o s1 Hgw Hkey Hrun)
    as [[-> _] | [(_ & _ & Hdel & Hhd) | (_ & Hskip & Hdel & gw2 & st2 & Hs2 & Hreq
                                          & _ & _ & Hcr2 & _ & _ & Hend)]].
  - done.
  - assert (Hs0 : synced gw (logged L77 (GetWorkload req) st))
      by (unfold synced; by rewrite Hkey).
    destruct (handleDeletion_cases env gw _ o s1 Hs0 Hdel Hhd) as (_ & _ & _ & Hc & _).
    congruence.
  - destruct Hend as [(err & _ & ->) | (Hfin & Hl127)]; [done|].
    split; [done|]. split; [done|].
    destruct (Reconcile_L127_stored env gw2 st2 o s1 Hs2 Hl127)
      as (gw3 & Hgw3 & Hmeta3 & _).
    destruct Hreq as (_ & _ & _ & Hk2 & _). rewrite Hk2, Hkey in Hgw3.
    exists gw3. split; [done|]. by rewrite Hmeta3.
Qed.

(** X16: the retry count stored for a request never goes down, and its spec and
    UID never change, over any number of passes, whatever they meet. *)
Theorem RetryCount_never_decreases req st gw envs gw' :
  workloads (cluster st) !! req = Some gw -> key_of (Meta gw) = req ->
  int32_range (RetryCount (Status gw)) -> maxRetriesOf gw <= 2 ^ 31 - 1 ->
  workloads (cluster (passes Sscanf_d envs req st)) !! req = Some gw' ->
  RetryCount (Status gw) <= RetryCount (Status gw') /\
  Spec gw' = Spec gw /\ UID (Meta gw') = UID (Meta gw).
Proof.
  intros Hgw Hkey Hrange Hmax Hgw'.
  cut (key_of (Meta gw') = req /\ Spec gw' = Spec gw /\ UID (Meta gw') = UID (Meta gw) /\
       RetryCount (Status gw) <= RetryCount (Status gw')).
  { intros (_ & ? & ? & ?). done. }
  revert gw' Hgw'.
  apply (passes_invariant
           (fun g => key_of (Meta g) = req /\ Spec g = Spec gw /\
                     UID (Meta g) = UID (Meta gw) /\
                     RetryCount (Status gw) <= RetryCount (Status g))).
  - intros env st0 g o s1 Hg (Hk & Hspec & Huid & Hrc) Hrun g' Hg'.
    destruct (Reconcile_cases env req st0 g o s1 Hg Hk Hrun)
      as (_ & _ & _ & _ & _ & Hst & _).
    destruct (Hst g' Hg') as (Hspec' & Hk' & Huid' & _ & [Hstep _]).
    split; [done|]. split; [congruence|]. split; [congruence|].
    assert (Hm : maxRetriesOf g = maxRetriesOf gw) by (unfold maxRetriesOf; by rewrite Hspec).
    destruct Hstep as [-> | (Hlt & -> & _)]; [done|].
    unfold int32_range in Hrange. rewrite wrap32_small; lia.
  - intros g Hg. rewrite Hgw in Hg. inversion Hg; subst g. repeat split; try done; lia.
Qed.

(** X17: the inline test of line 133 agrees with [backoff.ShouldRetry]: a pass
    stores the phase Failed only for a request that was Failed already or
    whose retries are used up, i.e. for which
    [ShouldRetry (retryCount, maxRetries)] is false. *)
Theorem Reconcile_fails_only_when_exhausted env req st gw gw' :
  workloads (cluster st) !! req = Some gw -> key_of (Meta gw) = req ->
  workloads (cluster (after Sscanf_d env req st)) !! req = Some gw' ->
  Phase (Status gw') = PhaseFailed ->
  Phase (Status gw) = PhaseFailed \/
  ShouldRetry (RetryCount (Status gw)) (maxRetriesOf gw) = false.
Proof.
  intros Hgw Hkey Hgw' Hfailed.
  destruct (Reconcile Sscanf_d env req st) as [o s1] eqn:Hrun.
  rewrite (after_eq _ _ _ _ _ Hrun) in Hgw'.
  destruct (Reconcile_cases env req st gw o s1 Hgw Hkey Hrun)
    as (_ & _ & _ & _ & _ & Hst & _).
  destruct (Hst gw' Hgw') as (_ & _ & _ & _ & [_ Hphase]).
  rewrite Hfailed in Hphase.
  destruct Hphase as [<- | [[_ H] | [[Hmax _] | [_ [H|H]]]]]; try discriminate H.
  - by left.
  - right. unfold ShouldRetry. apply Z.ltb_ge. lia.
Qed.

(** *** The first writes of a pass *)

Lemma Reconcile_L107_fails env gw st e :
  containsString (Finalizers (Meta gw)) finalizerName = false -> fault env L110 = Some e ->
  exists st', Reconcile_L107 env gw st = (Return emptyResult (Some e), st') /\
              cluster st' = cluster st.
Proof.
  intros Hc Hf. unfold Reconcile_L107. rewrite Hc. change (negb false) with true.
  cbv iota zeta. rewrite bind_eq. unfold client_Update. cbv zeta. rewrite Hf.
  eexists. split; reflexivity.
Qed.

Lemma Reconcile_L116_fails env gw st e :
  Phase (Status gw) = "" -> fault env L120 = Some e ->
  exists st', Reconcile_L116 env gw st = (Return emptyResult (Some e), st') /\
              cluster st' = cluster st.
Proof.
  intros Hp Hf. unfold Reconcile_L116. rewrite Hp. change (String.eqb "" "") with true.
  cbv iota zeta. rewrite bind_eq. unfold client_StatusUpdate. cbv zeta. rewrite Hf.
  eexists. split; reflexivity.
Qed.

(** X29: lines 107-125, for a stored request that is neither skipped nor
    being deleted.  When the update that adds the finalizer fails, its error
    is returned and the cluster is unchanged.  When that update succeeds and
    the write of the initial phase fails, that error is returned, the
    finalizer is stored and the status is untouched.  When neither fails,
    then however the pass goes on the request is stored with the finalizer
    and a phase that is not empty. *)
Theorem Reconcile_initialises_request env req st gw :
  workloads (cluster st) !! req = Some gw -> key_of (Meta gw) = req ->
  fault env L77 = None -> skipped (Phase (Status gw)) = false ->
  DeletionTimestamp (Meta gw) = None ->
  (forall e, containsString (Finalizers (Meta gw)) finalizerName = false ->
     fault env L110 = Some e ->
     exists st', run (Reconcile Sscanf_d env req) st
                 = (Returned emptyResult (Some e), st') /\
                 cluster st' = cluster st) /\
  (forall e, fault env L110 = None -> Phase (Status gw) = "" -> fault env L120 = Some e ->
     exists st' gw', run (Reconcile Sscanf_d env req) st
                     = (Returned emptyResult (Some e), st') /\
       workloads (cluster st') !! req = Some gw' /\
       containsString (Finalizers (Meta gw')) finalizerName = true /\
       Status gw' = Status gw /\ jobs (cluster st') = jobs (cluster st)) /\
  (fault env L110 = None -> fault env L120 = None ->
     exists gw', workloads (cluster (after Sscanf_d env req st)) !! req = Some gw' /\
       containsString (Finalizers (Meta gw')) finalizerName = true /\
       Phase (Status gw') <> "").
Proof.
  intros Hgw Hkey Hf77 Hskip Hdel.
  assert (Hstart : Reconcile Sscanf_d env req st
                   = (gpuWorkload ← Reconcile_L107 env gw;
                      gpuWorkload ← Reconcile_L116 env gpuWorkload;
                      Reconcile_L127 Sscanf_d env gpuWorkload)
                       (logged L77 (GetWorkload req) st)).
  { rewrite Reconcile_stages, bind_eq, client_Get_eq, Hf77, Hgw. cbv iota beta.
    by rewrite Hskip, Hdel. }
  assert (Hs0 : synced gw (logged L77 (GetWorkload req) st))
    by (unfold synced; by rewrite Hkey).
  split; [|split].
  - intros e Hc Hf110. unfold run. rewrite Hstart, bind_eq.
    destruct (Reconcile_L107_fails env gw (logged L77 (GetWorkload req) st) e Hc Hf110)
      as (st' & -> & Hcl).
    exists st'. split; [reflexivity|]. by rewrite Hcl.
  - intros e Hf110 Hp Hf120. unfold run. rewrite Hstart, bind_eq.
    destruct (Reconcile_L107_cases env gw _ Hs0 Hdel)
      as [(err & st1 & Hf & _) | (gw1 & st1 & -> & Hs1 & Hk1 & (Hj1 & _ & _) & _ & _ & _
                                   & _ & _ & _ & _ & _ & Hfin1 & Hst1)]; [congruence|].
    rewrite bind_eq.
    destruct (Reconcile_L116_fails env gw1 st1 e ltac:(by rewrite Hst1) Hf120)
      as (st2 & -> & Hcl).
    exists st2, gw1. split; [reflexivity|].
    unfold synced in Hs1. rewrite Hk1, Hkey in Hs1.
    split; [by rewrite Hcl|]. split; [done|]. split; [done|]. by rewrite Hcl, Hj1.
  - intros Hf110 Hf120.
    destruct (Reconcile_prefix env req st gw Hgw Hkey Hf77 Hskip Hdel Hf110 Hf120)
      as (gw2 & st2 & Heq & Hs2 & Hk2 & _ & _ & _ & _ & Hprep).
    destruct (Reconcile Sscanf_d env req st) as [o s1] eqn:Hrun.
    rewrite (after_eq _ _ _ _ _ Hrun). symmetry in Heq.
    destruct (Reconcile_L127_cases env gw2 st2 o s1 Hs2 Heq) as (_ & Hstored).
    rewrite Hk2 in Hstored.
    assert (Hfin : containsString (Finalizers (Meta gw2)) finalizerName = true)
      by (by destruct Hprep as (_ & _ & _ & _ & _ & _ & _ & ? & _)).
    destruct Hstored as [Hst | (s' & Hst & Hts)].
    + exists gw2. split; [done|]. split; [done|].
      destruct Hprep as (_ & _ & _ & _ & _ & _ & _ & _ & [[-> ?] | [_ ->]]); done.
    + exists (set_Status gw2 s'). split; [done|]. split; [done|]. simpl.
      destruct Hts as [(_ & -> & _) | [(_ & -> & _) | (_ & -> & _)]]; done.
Qed.

(** *** The pass that schedules *)

Lemma prepared_same_request env gw gw2 : prepared env gw gw2 -> same_request gw gw2.
Proof.
  intros (Hapi & Hkind & Hspec & Hname & Hns & Huid & Hdel & _).
  unfold same_request, key_of. by rewrite Hapi, Hkind, Hspec, Hname, Hns, Huid, Hdel.
Qed.

Lemma createJobForWorkload_creates env gw node st :
  (8 <= String.length (UID (Meta gw)))%nat ->
  jobs (cluster st) !! (Namespace (Meta gw), jobNameFor gw) = None ->
  fault env L342 = None ->
  createJobForWorkload env gw node st
  = (Continue (inl (buildJob gw node (jobNameFor gw))),
     with_cluster
       (logged L342 (CreateJob (buildJob gw node (jobNameFor gw)))
          (logged L274 (GetJob (Namespace (Meta gw), jobNameFor gw)) st))
       (set_jobs (cluster st)
          (<[(Namespace (Meta gw), jobNameFor gw) := buildJob gw node (jobNameFor gw)]>
             (jobs (cluster st))))).
Proof.
  intros Huid Hnone Hf. unfold createJobForWorkload.
  replace (String.length (UID (Meta gw)) <? 8)%nat with false
    by (symmetry; apply Nat.ltb_ge; lia).
  cbv zeta. rewrite bind_eq, client_GetJob_eq, Hnone.
  assert (Hget : exists e, match fault env L274 with
                           | Some err => inr err
                           | None => inr (NewNotFound "jobs.batch"
                                           (snd (Namespace (Meta gw), jobNameFor gw)))
                           end = (inr e : Job + error))
    by (destruct (fault env L274); eauto).
  destruct Hget as [e ->]. rewrite bind_eq.
  rewrite (client_Create_ok env L342 (buildJob gw node (jobNameFor gw))
             (logged L274 (GetJob (Namespace (Meta gw), jobNameFor gw)) st) Hf Hnone).
  reflexivity.
Qed.

Lemma createJobForWorkload_existing env gw node st job :
  (8 <= String.length (UID (Meta gw)))%nat ->
  jobs (cluster st) !! (Namespace (Meta gw), jobNameFor gw) = Some job ->
  fault env L274 = None ->
  createJobForWorkload env gw node st
  = (Continue (inl job), logged L274 (GetJob (Namespace (Meta gw), jobNameFor gw)) st).
Proof.
  intros Huid Hjob Hf. unfold createJobForWorkload.
  replace (String.length (UID (Meta gw)) <? 8)%nat with false
    by (symmetry; apply Nat.ltb_ge; lia).
  cbv zeta. by rewrite bind_eq, client_GetJob_eq, Hjob, Hf.
Qed.

(** Lines 77-203 when nothing fails and the strategy finds a node: the
    pass reaches line 205 with the prepared request in memory and stored. *)
Lemma Reconcile_reaches_L205 env req st gw node :
  workloads (cluster st) !! req = Some gw -> key_of (Meta gw) = req ->
  fault env L77 = None -> skipped (Phase (Status gw)) = false ->
  DeletionTimestamp (Meta gw) = None ->
  fault env L110 = None -> fault env L120 = None ->
  RetryCount (Status gw) < maxRetriesOf gw -> fault env L147 = None ->
  ChooseNode Sscanf_d (strategyOf gw) (randIntn env) (gpuNodesOf st) gw = Ok node ->
  exists gw2 st2,
    Reconcile Sscanf_d env req st = Reconcile_L205 env gw2 node (logged L147 ListNodes st2) /\
    synced gw2 st2 /\ key_of (Meta gw2) = req /\ prepared env gw gw2 /\
    only_workload_changed req st st2 /\ events st2 = events st /\
    creates (calls st2) = creates (calls st) /\
    deletes (calls st2) = deletes (calls st).
Proof.
  intros Hgw Hkey Hf77 Hskip Hdel Hf110 Hf120 Hrc Hf147 Hchoose.
  destruct (Reconcile_prefix env req st gw Hgw Hkey Hf77 Hskip Hdel Hf110 Hf120)
    as (gw2 & st2 & Heq & Hs2 & Hk2 & Hchg & Hev & Hcr & Hdl & Hprep).
  destruct (prepared_facts env gw gw2 Hprep) as (Hmax & Hrc2 & _ & Hstrat & _).
  assert (Hspec : Spec gw2 = Spec gw) by (by destruct Hprep as (_ & _ & ? & _)).
  assert (Hnodes : gpuNodesOf st2 = gpuNodesOf st)
    by (apply gpuNodesOf_nodes; by destruct Hchg as (_ & ? & _)).
  assert (Hne : gpuNodesOf st2 <> []).
  { rewrite Hnodes. intros Hnil. rewrite Hnil, ChooseNode_nil in Hchoose. discriminate. }
  exists gw2, st2. split; [|done]. rewrite Heq.
  rewrite (Reconcile_L127_chosen env gw2 st2 node); try done.
  - lia.
  - by rewrite Hnodes, Hstrat, (ChooseNode_Spec _ _ _ gw gw2 Hspec).
Qed.

(** Lines 220-239 once the Job is there. *)
Lemma Reconcile_L205_job env gw node st0 job st1 :
  createJobForWorkload env gw node st0 = (Continue (inl job), st1) ->
  synced gw st1 -> fault env L227 = None ->
  exists st',
    Reconcile_L205 env gw node st0 = (Continue (emptyResult, None), st') /\
    workloads (cluster st') !! key_of (Meta gw)
    = Some (set_Status gw (scheduledStatus env gw node job)) /\
    only_workload_changed (key_of (Meta gw)) st1 st' /\
    events st' = (events st1 ++ [scheduledEvent (key_of (Meta gw)) gw node])%list /\
    creates (calls st') = creates (calls st1) /\
    deletes (calls st') = deletes (calls st1).
Proof.
  intros Hcj Hs1 Hf. unfold Reconcile_L205. rewrite bind_eq, Hcj. cbv iota beta.
  rewrite bind_eq.
  destruct (client_StatusUpdate_synced env L227 gw (scheduledStatus env gw node job) st1 Hs1)
    as (st2 & Hu & Hchg & Hev & Hcalls & Hstored).
  rewrite Hu, Hf in *. cbv iota beta.
  eexists. split; [reflexivity|]. simpl.
  split; [done|]. split; [done|]. split; [by rewrite Hev|].
  rewrite Hcalls. split; count_calls.
Qed.

(** X18: the pass that schedules, lines 205-239: when the strategy returns a
    node, no Job of the derived name is stored and no call fails, the Job
    built for that node is created (once), the stored status becomes
    Scheduled with the node, the Job name and the time of line 223, the
    retry count is kept, the finalizer is stored, one Scheduled event is
    recorded, and the pass returns an empty result and no error.  For a
    request of [g >= 0] GPUs the node is a Ready node of the cluster with at
    least [g] GPUs available. *)
Theorem Reconcile_schedules env req st gw node :
  workloads (cluster st) !! req = Some gw -> key_of (Meta gw) = req ->
  skipped (Phase (Status gw)) = false -> DeletionTimestamp (Meta gw) = None ->
  RetryCount (Status gw) < maxRetriesOf gw ->
  fault env L77 = None -> fault env L110 = None -> fault env L120 = None ->
  fault env L147 = None -> fault env L342 = None -> fault env L227 = None ->
  ChooseNode Sscanf_d (strategyOf gw) (randIntn env) (gpuNodesOf st) gw = Ok node ->
  (8 <= String.length (UID (Meta gw)))%nat ->
  jobs (cluster st) !! (Namespace (Meta gw), jobNameFor gw) = None ->
  exists st' gw',
    run (Reconcile Sscanf_d env req) st = (Returned emptyResult None, st') /\
    workloads (cluster st') !! req = Some gw' /\
    Phase (Status gw') = PhaseScheduled /\
    AssignedNode (Status gw') = Name (NodeMeta node) /\
    JobName (Status gw') = jobNameFor gw /\
    LastScheduleTime (Status gw') = Some (nowL223 env) /\
    RetryCount (Status gw') = RetryCount (Status gw) /\
    containsString (Finalizers (Meta gw')) finalizerName = true /\
    jobs (cluster st')
    = <[(Namespace (Meta gw), jobNameFor gw) := buildJob gw node (jobNameFor gw)]>
        (jobs (cluster st)) /\
    NodeName (buildJob gw node (jobNameFor gw)) = Name (NodeMeta node) /\
    creates (calls st') = (creates (calls st) + 1)%nat /\
    events st' = (events st ++ [scheduledEvent req gw node])%list /\
    (0 <= GPUCount (Spec gw) ->
     node ∈ nodes (cluster st) /\ isNodeReady node = true /\
     GPUCount (Spec gw) <= getAvailableGPUs Sscanf_d node).
Proof.
  intros Hgw Hkey Hskip Hdel Hrc Hf77 Hf110 Hf120 Hf147 Hf342 Hf227 Hchoose Huid Hnone.
  destruct (Reconcile_reaches_L205 env req st gw node Hgw Hkey Hf77 Hskip Hdel Hf110 Hf120
              Hrc Hf147 Hchoose)
    as (gw2 & st2 & Heq & Hs2 & Hk2 & Hprep & (Hj2 & Hn2 & Hw2) & Hev2 & Hcr2 & Hdl2).
  pose proof (prepared_same_request env gw gw2 Hprep) as Hreq.
  destruct (same_request_jobNameFor gw gw2 Hreq) as (Hns & Hjn & Hbuild).
  destruct (prepared_facts env gw gw2 Hprep) as (_ & Hrc2 & _ & Hstrat & _).
  assert (Huid2 : (8 <= String.length (UID (Meta gw2)))%nat)
    by (destruct Hreq as (_ & _ & _ & _ & -> & _); done).
  assert (Hnone2 : jobs (cluster (logged L147 ListNodes st2))
                     !! (Namespace (Meta gw2), jobNameFor gw2) = None)
    by (rewrite cluster_logged, Hns, Hjn, Hj2; done).
  pose proof (createJobForWorkload_creates env gw2 node _ Huid2 Hnone2 Hf342) as Hcj.
  destruct (Reconcile_L205_job env gw2 node _ _ _ Hcj Hs2 Hf227)
    as (st' & Hrun & Hstored & (Hj3 & Hn3 & Hw3) & Hev3 & Hcr3 & Hdl3).
  exists st', (set_Status gw2 (scheduledStatus env gw2 node (buildJob gw2 node (jobNameFor gw2)))).
  split; [unfold run; by rewrite Heq, Hrun|].
  rewrite Hk2 in Hstored. split; [done|]. split; [done|]. split; [done|].
  split; [by rewrite <- Hjn|]. split; [done|]. split; [done|].
  split; [by destruct Hprep as (_ & _ & _ & _ & _ & _ & _ & ? & _)|].
  split.
  { rewrite Hj3. change (jobs (cluster (with_cluster ?x (set_jobs ?c ?j)))) with j.
    rewrite ?cluster_logged, Hns, Hjn, Hj2, Hbuild. done. }
  split; [reflexivity|].
  split.
  { rewrite Hcr3. change (calls (with_cluster ?x _)) with (calls x).
    rewrite <- Hcr2. count_calls. }
  split.
  { rewrite Hev3. change (events (with_cluster ?x _)) with (events x).
    rewrite !events_logged, Hev2, Hk2. unfold scheduledEvent. by rewrite Hstrat. }
  intros Hg.
  assert (Hin : node ∈ gpuNodesOf st /\ GPUCount (Spec gw) <= getAvailableGPUs Sscanf_d node).
  { destruct (ChooseNode_Ok_inv Sscanf_d (strategyOf gw) (randIntn env) (gpuNodesOf st) gw Hg)
      as [_ H]. by apply H. }
  destruct Hin as [Hin Hq]. apply list_elem_of_filter in Hin as [Hready Hin].
  apply andb_True in Hready as [Hready _]. split; [done|]. split; [|done].
  by apply Is_true_true.
Qed.

(** X19: a Job of the derived name that is already stored is adopted: the pass
    creates nothing and leaves the Jobs as they are, and still stores the
    phase Scheduled with the name the Job carries and, as assigned node,
    the node the strategy has just chosen, whatever node that Job is pinned
    to. *)
Theorem Reconcile_adopts_existing_job env req st gw node job :
  workloads (cluster st) !! req = Some gw -> key_of (Meta gw) = req ->
  skipped (Phase (Status gw)) = false -> DeletionTimestamp (Meta gw) = None ->
  RetryCount (Status gw) < maxRetriesOf gw ->
  fault env L77 = None -> fault env L110 = None -> fault env L120 = None ->
  fault env L147 = None -> fault env L274 = None -> fault env L227 = None ->
  ChooseNode Sscanf_d (strategyOf gw) (randIntn env) (gpuNodesOf st) gw = Ok node ->
  (8 <= String.length (UID (Meta gw)))%nat ->
  jobs (cluster st) !! (Namespace (Meta gw), jobNameFor gw) = Some job ->
  exists st' gw',
    run (Reconcile Sscanf_d env req) st = (Returned emptyResult None, st') /\
    workloads (cluster st') !! req = Some gw' /\
    Phase (Status gw') = PhaseScheduled /\
    AssignedNode (Status gw') = Name (NodeMeta node) /\
    JobName (Status gw') = Name (JobMeta job) /\
    jobs (cluster st') = jobs (cluster st) /\
    creates (calls st') = creates (calls st) /\
    events st' = (events st ++ [scheduledEvent req gw node])%list.
Proof.
  intros Hgw Hkey Hskip Hdel Hrc Hf77 Hf110 Hf120 Hf147 Hf274 Hf227 Hchoose Huid Hjob.
  destruct (Reconcile_reaches_L205 env req st gw node Hgw Hkey Hf77 Hskip Hdel Hf110 Hf120
              Hrc Hf147 Hchoose)
    as (gw2 & st2 & Heq & Hs2 & Hk2 & Hprep & (Hj2 & Hn2 & Hw2) & Hev2 & Hcr2 & Hdl2).
  pose proof (prepared_same_request env gw gw2 Hprep) as Hreq.
  destruct (same_request_jobNameFor gw gw2 Hreq) as (Hns & Hjn & Hbuild).
  destruct (prepared_facts env gw gw2 Hprep) as (_ & Hrc2 & _ & Hstrat & _).
  assert (Huid2 : (8 <= String.length (UID (Meta gw2)))%nat)
    by (destruct Hreq as (_ & _ & _ & _ & -> & _); done).
  assert (Hjob2 : jobs (cluster (logged L147 ListNodes st2))
                    !! (Namespace (Meta gw2), jobNameFor gw2) = Some job)
    by (rewrite cluster_logged, Hns, Hjn, Hj2; done).
  pose proof (createJobForWorkload_existing env gw2 node _ job Huid2 Hjob2 Hf274) as Hcj.
  destruct (Reconcile_L205_job env gw2 node _ _ _ Hcj Hs2 Hf227)
    as (st' & Hrun & Hstored & (Hj3 & Hn3 & Hw3) & Hev3 & Hcr3 & Hdl3).
  exists st', (set_Status gw2 (scheduledStatus env gw2 node job)).
  split; [unfold run; by rewrite Heq, Hrun|].
  rewrite Hk2 in Hstored. split; [done|]. split; [done|]. split; [done|].
  split; [done|].
  split; [by rewrite Hj3, !cluster_logged|].
  split; [rewrite Hcr3, <- Hcr2; count_calls|].
  rewrite Hev3, !events_logged, Hev2, Hk2. unfold scheduledEvent. by rewrite Hstrat.
Qed.

Lemma createJobForWorkload_short_UID env gw node st :
  (String.length (UID (Meta gw)) < 8)%nat ->
  createJobForWorkload env gw node st = (Panic, st).
Proof.
  intros Huid. unfold createJobForWorkload.
  by replace (String.length (UID (Meta gw)) <? 8)%nat with true
    by (symmetry; by apply Nat.ltb_lt).
Qed.

(** X20: [gw.UID[:8]] on line 270 panics for a UID of fewer than 8 bytes: a pass
    that gets as far as a chosen node for such a request panics, having
    created no Job and recorded no event. *)
Theorem Reconcile_short_UID_panics env req st gw node :
  workloads (cluster st) !! req = Some gw -> key_of (Meta gw) = req ->
  skipped (Phase (Status gw)) = false -> DeletionTimestamp (Meta gw) = None ->
  RetryCount (Status gw) < maxRetriesOf gw ->
  fault env L77 = None -> fault env L110 = None -> fault env L120 = None ->
  fault env L147 = None ->
  ChooseNode Sscanf_d (strategyOf gw) (randIntn env) (gpuNodesOf st) gw = Ok node ->
  (String.length (UID (Meta gw)) < 8)%nat ->
  exists st',
    run (Reconcile Sscanf_d env req) st = (Panicked, st') /\
    jobs (cluster st') = jobs (cluster st) /\
    creates (calls st') = creates (calls st) /\ events st' = events st.
Proof.
  intros Hgw Hkey Hskip Hdel Hrc Hf77 Hf110 Hf120 Hf147 Hchoose Huid.
  destruct (Reconcile_reaches_L205 env req st gw node Hgw Hkey Hf77 Hskip Hdel Hf110 Hf120
              Hrc Hf147 Hchoose)
    as (gw2 & st2 & Heq & Hs2 & Hk2 & Hprep & (Hj2 & Hn2 & Hw2) & Hev2 & Hcr2 & Hdl2).
  assert (Huid2 : (String.length (UID (Meta gw2)) < 8)%nat)
    by (destruct Hprep as (_ & _ & _ & _ & _ & -> & _); done).
  exists (logged L147 ListNodes st2).
  split.
  { unfold run. rewrite Heq. unfold Reconcile_L205.
    by rewrite bind_eq, (createJobForWorkload_short_UID env gw2 node _ Huid2). }
  split; [by rewrite cluster_logged|]. split; [rewrite <- Hcr2; count_calls|].
  by rewrite events_logged.
Qed.

(** X21: [createJobForWorkload] takes every failure of the lookup on line 274
    for "no such Job" and goes on to create it: when the Job is stored
    after all, the create is refused with the API error AlreadyExists for
    [jobs.batch] and the quoted Job name, which is the error returned, and
    nothing is changed. *)
Theorem createJobForWorkload_lookup_failure env gw node st err job :
  (8 <= String.length (UID (Meta gw)))%nat ->
  fault env L274 = Some err -> fault env L342 = None ->
  jobs (cluster st) !! (Namespace (Meta gw), jobNameFor gw) = Some job ->
  exists st',
    createJobForWorkload env gw node st
    = (Continue (inr (NewAlreadyExists "jobs.batch" (jobNameFor gw))), st') /\
    cluster st' = cluster st /\ events st' = events st /\
    calls st' = (calls st ++ [(L274, GetJob (Namespace (Meta gw), jobNameFor gw));
                              (L342, CreateJob (buildJob gw node (jobNameFor gw)))])%list.
Proof.
  intros Huid Hf274 Hf342 Hjob. unfold createJobForWorkload.
  replace (String.length (UID (Meta gw)) <? 8)%nat with false
    by (symmetry; apply Nat.ltb_ge; lia).
  cbv zeta. rewrite bind_eq, client_GetJob_eq, Hf274, bind_eq.
  unfold client_Create. cbv zeta. rewrite Hf342.
  change (key_of (JobMeta (buildJob gw node (jobNameFor gw))))
    with (Namespace (Meta gw), jobNameFor gw).
  rewrite !cluster_logged, Hjob.
  eexists. split; [reflexivity|]. split; [done|]. split; [done|].
  rewrite !calls_logged, <- app_assoc. done.
Qed.

(** *** Retries *)

(** X22: a failed status write loses the retry: when no node has room and the
    write of line 199 fails, the pass still returns no error and asks to be
    requeued after the backoff for the incremented count, but the stored
    retry count and message are the old ones. *)
Theorem Reconcile_retry_lost_when_write_fails env req st gw err e :
  workloads (cluster st) !! req = Some gw -> key_of (Meta gw) = req ->
  fault env L77 = None -> skipped (Phase (Status gw)) = false ->
  DeletionTimestamp (Meta gw) = None ->
  fault env L110 = None -> fault env L120 = None ->
  RetryCount (Status gw) < maxRetriesOf gw -> fault env L147 = None ->
  gpuNodesOf st <> [] ->
  ChooseNode Sscanf_d (strategyOf gw) (randIntn env) (gpuNodesOf st) gw = Err err ->
  fault env L199 = Some e ->
  exists st' gw',
    run (Reconcile Sscanf_d env req) st
    = (requeued env gw (wrap32 (RetryCount (Status gw) + 1)), st') /\
    workloads (cluster st') !! req = Some gw' /\
    RetryCount (Status gw') = RetryCount (Status gw) /\
    Message (Status gw') = Message (Status gw) /\
    jobs (cluster st') = jobs (cluster st) /\ events st' = events st.
Proof.
  intros Hgw Hkey Hf77 Hskip Hdel Hf110 Hf120 Hrc Hf147 Hnodes Hchoose Hf199.
  destruct (Reconcile_prefix env req st gw Hgw Hkey Hf77 Hskip Hdel Hf110 Hf120)
    as (gw2 & st2 & Heq & Hs2 & Hk2 & (Hj2 & Hn2 & _) & He2 & _ & _ & Hprep).
  destruct (prepared_facts _ _ _ Hprep) as (Hm2 & Hrc2 & Hbase2 & Hstrat2 & _).
  assert (Hspec2 : Spec gw2 = Spec gw) by apply Hprep.
  assert (Hgn : gpuNodesOf st2 = gpuNodesOf st) by (by apply gpuNodesOf_nodes).
  destruct (Reconcile_L127_no_node env gw2 st2 err Hs2 ltac:(lia) Hf147
              ltac:(by rewrite Hgn)
              ltac:(by rewrite Hgn, Hstrat2, (ChooseNode_Spec _ _ _ gw gw2 Hspec2)))
    as (out & st' & Hrun & (-> & (Hj3 & _ & _) & Hev3 & _ & _ & Hstored)).
  rewrite Hf199, Hk2 in Hstored.
  exists st', gw2. split.
  { unfold run. rewrite Heq, Hrun, requeueWithBackoff_eq. unfold requeued.
    change (baseDurationOf (set_Status gw2 ?s)) with (baseDurationOf gw2).
    change (RetryCount (Status (set_Status gw2 (retryStatus (Status gw2) (errMsg err)))))
      with (wrap32 (RetryCount (Status gw2) + 1)).
    by rewrite Hrc2, Hbase2. }
  split; [done|]. split; [done|].
  split. { destruct Hprep as (_ & _ & _ & _ & _ & _ & _ & _ & [[-> _] | [_ ->]]); done. }
  split; congruence.
Qed.

Lemma baseDurationOf_range gw :
  (forall rp, RetryPolicy_ (Spec gw) = Some rp -> BackoffSeconds rp <= 9007199) ->
  0 < baseDurationOf gw < 2 ^ 53.
Proof.
  intros Hrp. unfold baseDurationOf.
  destruct (RetryPolicy_ (Spec gw)) as [rp|]; [|by vm_compute].
  specialize (Hrp rp eq_refl).
  destruct (Z.ltb_spec 0 (BackoffSeconds rp)); [|by vm_compute].
  rewrite wrap64_small; unfold MinInt64, MaxInt64, Second, Nanosecond; lia.
Qed.

(** X23: [requeueWithBackoff] never fails and never sets [Requeue]; the base of
    the delay is the policy's [BackoffSeconds] when that is positive and 30
    seconds otherwise, also when there is no policy; for a base of at most
    9007199 seconds the delay is at most 5 minutes 30 seconds, and, for a
    retry count that is not negative, at least the smaller of the base and
    5 minutes, hence positive. *)
Theorem requeueWithBackoff_bounds env gw :
  unit_float (randFloat64 env) = true ->
  (forall rp, RetryPolicy_ (Spec gw) = Some rp -> BackoffSeconds rp <= 9007199) ->
  snd (requeueWithBackoff env gw) = None /\
  Requeue (fst (requeueWithBackoff env gw)) = false /\
  RequeueAfter (fst (requeueWithBackoff env gw))
  = NextBackoff (baseDurationOf gw) (RetryCount (Status gw)) (randFloat64 env) /\
  (baseDurationOf gw
   = match RetryPolicy_ (Spec gw) with
     | Some rp => if 0 <? BackoffSeconds rp then BackoffSeconds rp * Second else 30 * Second
     | None => 30 * Second
     end) /\
  0 <= RequeueAfter (fst (requeueWithBackoff env gw)) <= 5 * Minute + 30 * Second /\
  (0 <= RetryCount (Status gw) ->
   0 < Z.min (baseDurationOf gw) (5 * Minute)
     <= RequeueAfter (fst (requeueWithBackoff env gw))).
Proof.
  intros Hr Hrp. pose proof (baseDurationOf_range gw Hrp) as Hb.
  rewrite requeueWithBackoff_eq. simpl fst. simpl snd. simpl Requeue. simpl RequeueAfter.
  split; [done|]. split; [done|]. split; [done|]. split.
  { unfold baseDurationOf. destruct (RetryPolicy_ (Spec gw)) as [rp|] eqn:Hp; [|done].
    specialize (Hrp rp eq_refl).
    destruct (Z.ltb_spec 0 (BackoffSeconds rp)); [|done].
    rewrite wrap64_small; unfold MinInt64, MaxInt64, Second, Nanosecond; lia. }
  destruct (NextBackoff_split (baseDurationOf gw) (RetryCount (Status gw)) (randFloat64 env)
              ltac:(lia) Hr) as (j & -> & Hj0 & Hj1 & _).
  pose proof (capped_nonneg (baseDurationOf gw) (RetryCount (Status gw)) ltac:(lia)) as H0.
  pose proof (capped_le_maxDuration (baseDurationOf gw) (RetryCount (Status gw))) as H1.
  rewrite maxDuration_eq in H1.
  split; [change (5 * Minute + 30 * Second) with 330000000000; lia|].
  intros Hrc. rewrite capped_nonneg_attempt by done.
  assert (1 <= 2 ^ Z.min (RetryCount (Status gw)) 10)
    by (apply (Z.pow_le_mono_r 2 0); lia).
  change (5 * Minute) with 300000000000. split; [lia|].
  assert (Z.min (baseDurationOf gw) 300000000000
          <= Z.min (baseDurationOf gw * 2 ^ Z.min (RetryCount (Status gw)) 10) 300000000000);
    [|lia].
  apply Z.min_le_compat_r. nia.
Qed.

Lemma passes_app envs1 envs2 req st :
  passes Sscanf_d (envs1 ++ envs2) req st
  = passes Sscanf_d envs2 req (passes Sscanf_d envs1 req st).
Proof. revert st. induction envs1 as [|env envs1 IH]; intros st; simpl; [done | apply IH]. Qed.

Lemma Reconcile_L127_no_node_creates env gw st err out st' :
  synced gw st -> RetryCount (Status gw) < maxRetriesOf gw ->
  fault env L147 = None -> gpuNodesOf st <> [] ->
  ChooseNode Sscanf_d (strategyOf gw) (randIntn env) (gpuNodesOf st) gw = Err err ->
  Reconcile_L127 Sscanf_d env gw st = (out, st') ->
  creates (calls st') = creates (calls st).
Proof.
  intros Hs Hrc Hf Hnodes Hchoose. unfold Reconcile_L127. cbv zeta.
  replace (maxRetriesOf gw <=? RetryCount (Status gw)) with false
    by (symmetry; apply Z.leb_gt; lia).
  rewrite bind_eq, client_List_eq, Hf. cbv iota beta.
  fold (gpuNodesOf st).
  replace (length (gpuNodesOf st) =? 0)%nat with false
    by (destruct (gpuNodesOf st); [done | reflexivity]).
  cbv iota. rewrite Factory_eq. cbv iota beta. fold (strategyOf gw). rewrite Hchoose.
  rewrite bind_eq.
  assert (Hs' : synced gw (logged L147 ListNodes st)) by exact Hs.
  destruct (client_StatusUpdate__synced env L199 gw
              (retryStatus (Status gw) (errMsg err))
              _ Hs') as (st1 & Hrun & _ & _ & Hcalls & _).
  unfold retryStatus in *. rewrite Hrun. intros H. inversion H; subst.
  rewrite Hcalls. count_calls.
Qed.

(** One pass with no failing call over a request no node has room for. *)
Lemma Reconcile_no_capacity_step env req st gw :
  workloads (cluster st) !! req = Some gw -> key_of (Meta gw) = req ->
  skipped (Phase (Status gw)) = false -> DeletionTimestamp (Meta gw) = None ->
  0 <= RetryCount (Status gw) < maxRetriesOf gw -> maxRetriesOf gw <= 2 ^ 31 - 1 ->
  (forall s, fault env s = None) ->
  gpuNodesOf st <> [] ->
  (forall m, m ∈ gpuNodesOf st -> getAvailableGPUs Sscanf_d m < GPUCount (Spec gw)) ->
  exists gw',
    workloads (cluster (after Sscanf_d env req st)) !! req = Some gw' /\
    key_of (Meta gw') = req /\ Spec gw' = Spec gw /\
    DeletionTimestamp (Meta gw') = None /\
    Phase (Status gw') = PhasePending /\
    RetryCount (Status gw') = RetryCount (Status gw) + 1 /\
    nodes (cluster (after Sscanf_d env req st)) = nodes (cluster st) /\
    jobs (cluster (after Sscanf_d env req st)) = jobs (cluster st) /\
    creates (calls (after Sscanf_d env req st)) = creates (calls st) /\
    events (after Sscanf_d env req st) = events st.
Proof.
  intros Hgw Hkey Hskip Hdel Hrc Hmax Hf Hnodes Hall.
  destruct (Reconcile_prefix env req st gw Hgw Hkey (Hf _) Hskip Hdel (Hf _) (Hf _))
    as (gw2 & st2 & Heq & Hs2 & Hk2 & (Hj2 & Hn2 & _) & He2 & Hcr2 & _ & Hprep).
  destruct (prepared_facts _ _ _ Hprep) as (Hm2 & Hrc2 & _ & Hstrat2 & _).
  assert (Hspec2 : Spec gw2 = Spec gw) by apply Hprep.
  assert (Hdel2 : DeletionTimestamp (Meta gw2) = None)
    by (destruct Hprep as (_ & _ & _ & _ & _ & _ & -> & _); done).
  assert (Hgn : gpuNodesOf st2 = gpuNodesOf st) by (by apply gpuNodesOf_nodes).
  pose proof (ChooseNode_none Sscanf_d (strategyOf gw) (randIntn env) (gpuNodesOf st) gw Hall)
    as Hchoose.
  destruct (Reconcile_L127_no_node env gw2 st2 _ Hs2 ltac:(lia) (Hf _)
              ltac:(by rewrite Hgn)
              ltac:(rewrite Hgn, Hstrat2, (ChooseNode_Spec _ _ _ gw gw2 Hspec2);
                    exact Hchoose))
    as (out & st' & Hrun & (_ & (Hj3 & Hn3 & _) & Hev3 & _ & _ & Hstored)).
  pose proof (Reconcile_L127_no_node_creates env gw2 st2 _ out st' Hs2 ltac:(lia) (Hf _)
                ltac:(by rewrite Hgn)
                ltac:(rewrite Hgn, Hstrat2, (ChooseNode_Spec _ _ _ gw gw2 Hspec2);
                      exact Hchoose) Hrun) as Hcr3.
  rewrite (Hf L199), Hk2 in Hstored. rewrite <- Heq in Hrun.
  rewrite (after_eq _ _ _ _ _ Hrun).
  eexists. split; [exact Hstored|].
  split; [exact Hk2|]. split; [exact Hspec2|]. split; [exact Hdel2|].
  split; [reflexivity|].
  split. { simpl. rewrite Hrc2. apply wrap32_small. lia. }
  split; [congruence|]. split; [congruence|]. split; congruence.
Qed.

Lemma passes_no_capacity req envs : forall st gw,
  workloads (cluster st) !! req = Some gw -> key_of (Meta gw) = req ->
  skipped (Phase (Status gw)) = false -> DeletionTimestamp (Meta gw) = None ->
  0 <= RetryCount (Status gw) ->
  RetryCount (Status gw) + Z.of_nat (length envs) <= maxRetriesOf gw ->
  maxRetriesOf gw <= 2 ^ 31 - 1 ->
  (forall e s, e ∈ envs -> fault e s = None) ->
  gpuNodesOf st <> [] ->
  (forall m, m ∈ gpuNodesOf st -> getAvailableGPUs Sscanf_d m < GPUCount (Spec gw)) ->
  exists gw',
    workloads (cluster (passes Sscanf_d envs req st)) !! req = Some gw' /\
    key_of (Meta gw') = req /\ Spec gw' = Spec gw /\
    DeletionTimestamp (Meta gw') = None /\
    skipped (Phase (Status gw')) = false /\
    RetryCount (Status gw') = RetryCount (Status gw) + Z.of_nat (length envs) /\
    nodes (cluster (passes Sscanf_d envs req st)) = nodes (cluster st) /\
    jobs (cluster (passes Sscanf_d envs req st)) = jobs (cluster st) /\
    creates (calls (passes Sscanf_d envs req st)) = creates (calls st) /\
    events (passes Sscanf_d envs req st) = events st.
Proof.
  induction envs as [|env envs IH];
    intros st gw Hgw Hkey Hskip Hdel Hrc0 Hrc Hmax Hf Hnodes Hall.
  { exists gw. simpl. repeat split; try done. lia. }
  simpl length in Hrc. simpl passes. fold (after Sscanf_d env req st).
  destruct (Reconcile_no_capacity_step env req st gw Hgw Hkey Hskip Hdel ltac:(lia) Hmax
              ltac:(intros s; apply Hf; by left) Hnodes Hall)
    as (gw1 & Hgw1 & Hk1 & Hspec1 & Hdel1 & Hph1 & Hrc1 & Hn1 & Hj1 & Hcr1 & Hev1).
  assert (Hm1 : maxRetriesOf gw1 = maxRetriesOf gw)
    by (unfold maxRetriesOf; by rewrite Hspec1).
  assert (Hgn : gpuNodesOf (after Sscanf_d env req st) = gpuNodesOf st)
    by (by apply gpuNodesOf_nodes).
  destruct (IH (after Sscanf_d env req st) gw1 Hgw1 Hk1 ltac:(by rewrite Hph1) Hdel1
              ltac:(lia) ltac:(lia) ltac:(lia)
              ltac:(intros e s He; apply Hf; by right)
              ltac:(by rewrite Hgn)
              ltac:(rewrite Hgn, Hspec1; exact Hall))
    as (gw' & Hgw' & Hk' & Hspec' & Hdel' & Hskip' & Hrc' & Hn' & Hj' & Hcr' & Hev').
  exists gw'. split; [done|]. split; [done|]. split; [congruence|]. split; [done|].
  split; [done|]. split; [simpl length; lia|]. split; [congruence|]. split; [congruence|].
  split; congruence.
Qed.

(** X24: when the cluster has Ready GPU nodes but none of them has room for
    the request, the request is given up after its retries are used up: if
    no call fails, [maxRetries - retryCount] passes leave it Pending with
    the retry count at [maxRetries], and the pass after those stores the
    phase Failed and records one event; no Job is created on the way.
    (Without any Ready GPU node a pass requeues without counting a retry.) *)
Theorem Reconcile_gives_up_after_maxRetries req st gw envs env :
  workloads (cluster st) !! req = Some gw -> key_of (Meta gw) = req ->
  skipped (Phase (Status gw)) = false -> DeletionTimestamp (Meta gw) = None ->
  0 <= RetryCount (Status gw) <= maxRetriesOf gw -> maxRetriesOf gw <= 2 ^ 31 - 1 ->
  gpuNodesOf st <> [] ->
  (forall m, m ∈ gpuNodesOf st -> getAvailableGPUs Sscanf_d m < GPUCount (Spec gw)) ->
  (forall e s, e ∈ env :: envs -> fault e s = None) ->
  Z.of_nat (length envs) = maxRetriesOf gw - RetryCount (Status gw) ->
  (exists gw1, workloads (cluster (passes Sscanf_d envs req st)) !! req = Some gw1 /\
     RetryCount (Status gw1) = maxRetriesOf gw /\
     (envs <> [] -> Phase (Status gw1) = PhasePending)) /\
  exists gw',
    workloads (cluster (passes Sscanf_d (envs ++ [env]) req st)) !! req = Some gw' /\
    Phase (Status gw') = PhaseFailed /\ RetryCount (Status gw') = maxRetriesOf gw /\
    jobs (cluster (passes Sscanf_d (envs ++ [env]) req st)) = jobs (cluster st) /\
    creates (calls (passes Sscanf_d (envs ++ [env]) req st)) = creates (calls st) /\
    length (events (passes Sscanf_d (envs ++ [env]) req st)) = S (length (events st)).
Proof.
  intros Hgw Hkey Hskip Hdel Hrc Hmax Hnodes Hall Hf Hlen.
  destruct (passes_no_capacity req envs st gw Hgw Hkey Hskip Hdel ltac:(lia) ltac:(lia)
              Hmax ltac:(intros e s He; apply Hf; by right) Hnodes Hall)
    as (gw1 & Hgw1 & Hk1 & Hspec1 & Hdel1 & Hskip1 & Hrc1 & Hn1 & Hj1 & Hcr1 & Hev1).
  assert (Hm1 : maxRetriesOf gw1 = maxRetriesOf gw)
    by (unfold maxRetriesOf; by rewrite Hspec1).
  split.
  { exists gw1. split; [done|]. split; [lia|]. intros Hne.
    destruct (exists_last Hne) as (envs0 & e0 & ->).
    rewrite passes_app in Hgw1. simpl in Hgw1.
    fold (after Sscanf_d e0 req (passes Sscanf_d envs0 req st)) in Hgw1.
    rewrite length_app in Hlen. simpl in Hlen.
    destruct (passes_no_capacity req envs0 st gw Hgw Hkey Hskip Hdel ltac:(lia) ltac:(lia)
                Hmax ltac:(intros e s He; apply Hf; right; apply elem_of_app; by left)
                Hnodes Hall)
      as (gw0 & Hgw0 & Hk0 & Hspec0 & Hdel0 & Hskip0 & Hrc0 & Hn0 & _).
    assert (Hm0 : maxRetriesOf gw0 = maxRetriesOf gw)
      by (unfold maxRetriesOf; by rewrite Hspec0).
    assert (Hgn0 : gpuNodesOf (passes Sscanf_d envs0 req st) = gpuNodesOf st)
      by (by apply gpuNodesOf_nodes).
    destruct (Reconcile_no_capacity_step e0 req _ gw0 Hgw0 Hk0 Hskip0 Hdel0 ltac:(lia)
                ltac:(lia)
                ltac:(intros s; apply Hf; right; apply elem_of_app; right; by left)
                ltac:(by rewrite Hgn0) ltac:(rewrite Hgn0, Hspec0; exact Hall))
      as (g & Hg & _ & _ & _ & Hph & _).
    rewrite Hgw1 in Hg. by inversion Hg; subst. }
  rewrite passes_app. simpl. rewrite run_snd.
  set (st1 := passes Sscanf_d envs req st) in *.
  destruct (Reconcile_prefix env req st1 gw1 Hgw1 Hk1 ltac:(apply Hf; by left) Hskip1 Hdel1
              ltac:(apply Hf; by left) ltac:(apply Hf; by left))
    as (gw2 & st2 & Heq & Hs2 & Hk2 & (Hj2 & Hn2 & _) & He2 & Hcr2 & _ & Hprep).
  destruct (prepared_facts _ _ _ Hprep) as (Hm2 & Hrc2 & _).
  destruct (Reconcile_L127_failed env gw2 st2 Hs2 ltac:(lia))
    as (out & st' & Hrun & (Hj3 & _ & _) & Hcr3 & _ & Hcase).
  rewrite (Hf env L136 ltac:(by left)) in Hcase. destruct Hcase as (_ & Hev3 & Hstored).
  rewrite Heq, Hrun. simpl snd. rewrite Hk2 in Hstored.
  eexists. split; [exact Hstored|]. split; [reflexivity|].
  split; [simpl; lia|]. split; [congruence|]. split; [congruence|].
  rewrite Hev3, length_app, He2, Hev1. simpl. lia.
Qed.

(** *** Deletion *)

(** X25: a request that is being deleted, is not in a skipped phase and names no
    Job: without the controller's finalizer the pass does nothing; with it,
    the pass removes the finalizer without looking up or deleting any Job,
    and the request disappears when that was its last finalizer.  A failure
    of that update is returned and leaves the request as it was. *)
Theorem Reconcile_deletion_removes_finalizer env req st gw :
  workloads (cluster st) !! req = Some gw -> key_of (Meta gw) = req ->
  fault env L77 = None -> skipped (Phase (Status gw)) = false ->
  DeletionTimestamp (Meta gw) <> None ->
  (containsString (Finalizers (Meta gw)) finalizerName = false ->
   run (Reconcile Sscanf_d env req) st
   = (Returned emptyResult None, logged L77 (GetWorkload req) st)) /\
  (containsString (Finalizers (Meta gw)) finalizerName = true ->
   JobName (Status gw) = "" ->
   exists st',
     run (Reconcile Sscanf_d env req) st
     = (Returned emptyResult (fault env L260), st') /\
     workloads (cluster st') !! req
     = match fault env L260 with
       | Some _ => Some gw
       | None =>
           if (length (removeString (Finalizers (Meta gw)) finalizerName) =? 0)%nat
           then None else Some (withoutFinalizer gw)
       end /\
     jobs (cluster st') = jobs (cluster st) /\ events st' = events st /\
     calls st' = (calls st ++ [(L77, GetWorkload req);
                               (L260, UpdateWorkload (withoutFinalizer gw))])%list).
Proof.
  intros Hgw Hkey Hf77 Hskip Hdel.
  assert (Hrun : Reconcile Sscanf_d env req st
                 = handleDeletion env gw (logged L77 (GetWorkload req) st)).
  { rewrite Reconcile_stages, bind_eq, client_Get_eq, Hf77, Hgw. cbv iota beta.
    rewrite Hskip. destruct (DeletionTimestamp (Meta gw)); done. }
  unfold run. rewrite Hrun. unfold handleDeletion. split.
  - by intros ->.
  - intros -> Hjn. rewrite Hjn. change (negb (String.eqb "" "")) with false. cbv iota.
    rewrite bind_eq, ret_eq, bind_eq. fold (withoutFinalizer gw).
    destruct (fault env L260) as [e|] eqn:Hf260.
    + unfold client_Update. rewrite Hf260.
      eexists. split; [reflexivity|]. rewrite !cluster_logged.
      split; [done|]. split; [done|]. split; [done|].
      by rewrite !calls_logged, <- app_assoc.
    + assert (Hs : workloads (cluster (logged L77 (GetWorkload req) st))
                     !! key_of (Meta (withoutFinalizer gw)) = Some gw)
        by (change (key_of (Meta (withoutFinalizer gw))) with (key_of (Meta gw));
            rewrite cluster_logged, Hkey; exact Hgw).
      rewrite (client_Update_ok env L260 (withoutFinalizer gw) gw _ Hf260 Hs).
      replace (negb (IsZero (DeletionTimestamp (Meta (withoutFinalizer gw))))) with true
        by (simpl; destruct (DeletionTimestamp (Meta gw)); done).
      eexists. split; [reflexivity|].
      change (key_of (Meta (withoutFinalizer gw))) with (key_of (Meta gw)).
      rewrite Hkey. split.
      { simpl. destruct (_ =? _)%nat; [apply lookup_delete_eq | apply lookup_insert_eq]. }
      split; [done|]. split; [done|].
      change (calls (with_cluster ?x _)) with (calls x).
      by rewrite !calls_logged, <- app_assoc.
Qed.

(** X26: [handleDeletion] for a request whose status names a Job that is stored:
    when no call fails the Job is deleted first and the finalizer removed
    after it, each with one call, and the request disappears when that was
    its last finalizer. *)
Theorem handleDeletion_releases_job env gw st job :
  synced gw st -> DeletionTimestamp (Meta gw) <> None ->
  containsString (Finalizers (Meta gw)) finalizerName = true ->
  JobName (Status gw) <> "" ->
  jobs (cluster st) !! (Namespace (Meta gw), JobName (Status gw)) = Some job ->
  key_of (JobMeta job) = (Namespace (Meta gw), JobName (Status gw)) ->
  fault env L249 = None -> fault env L251 = None -> fault env L260 = None ->
  exists st',
    handleDeletion env gw st = (Continue (emptyResult, None), st') /\
    jobs (cluster st')
    = delete (Namespace (Meta gw), JobName (Status gw)) (jobs (cluster st)) /\
    workloads (cluster st') !! key_of (Meta gw)
    = (if (length (removeString (Finalizers (Meta gw)) finalizerName) =? 0)%nat
       then None else Some (withoutFinalizer gw)) /\
    calls st' = (calls st ++ [(L249, GetJob (Namespace (Meta gw), JobName (Status gw)));
                              (L251, DeleteJob (Namespace (Meta gw), JobName (Status gw)));
                              (L260, UpdateWorkload (withoutFinalizer gw))])%list.
Proof.
  intros Hs Hdel Hfin Hjn Hjob Hjk Hf249 Hf251 Hf260. unfold handleDeletion.
  rewrite Hfin.
  replace (String.eqb (JobName (Status gw)) "") with false
    by (symmetry; by apply String.eqb_neq).
  change (negb false) with true. cbv iota.
  rewrite bind_eq, bind_eq, client_GetJob_eq, Hf249, Hjob, bind_eq.
  unfold client_Delete. cbv zeta. rewrite Hf251, Hjk, !cluster_logged, Hjob.
  cbv iota beta. unfold IgnoreNotFound. rewrite ret_eq. fold (withoutFinalizer gw).
  rewrite bind_eq.
  match goal with |- context [client_Update env L260 (withoutFinalizer gw) ?s] =>
    assert (Hs1 : workloads (cluster s) !! key_of (Meta (withoutFinalizer gw)) = Some gw)
      by exact Hs;
    rewrite (client_Update_ok env L260 (withoutFinalizer gw) gw s Hf260 Hs1) end.
  replace (negb (IsZero (DeletionTimestamp (Meta (withoutFinalizer gw))))) with true
    by (simpl; destruct (DeletionTimestamp (Meta gw)); done).
  eexists. split; [reflexivity|]. split; [done|].
  change (key_of (Meta (withoutFinalizer gw))) with (key_of (Meta gw)).
  split.
  { simpl. destruct (_ =? _)%nat; [apply lookup_delete_eq | apply lookup_insert_eq]. }
  change (calls (with_cluster ?x _)) with (calls x).
  rewrite calls_logged. change (calls (with_cluster ?x _)) with (calls x).
  by rewrite !calls_logged, <- !app_assoc.
Qed.

(** X27: [handleDeletion] takes every failure of the Job lookup on line 249, not
    only NotFound, for "no Job": when the lookup fails, or the Job the
    status names is not stored, the finalizer is removed all the same and
    no [Delete] call is made, so a Job that does exist stays behind. *)
Theorem handleDeletion_lookup_failure_leaves_job env gw st :
  synced gw st -> DeletionTimestamp (Meta gw) <> None ->
  containsString (Finalizers (Meta gw)) finalizerName = true ->
  JobName (Status gw) <> "" ->
  fault env L249 <> None
  \/ jobs (cluster st) !! (Namespace (Meta gw), JobName (Status gw)) = None ->
  fault env L260 = None ->
  exists st',
    handleDeletion env gw st = (Continue (emptyResult, None), st') /\
    jobs (cluster st') = jobs (cluster st) /\
    deletes (calls st') = deletes (calls st) /\
    workloads (cluster st') !! key_of (Meta gw)
    = (if (length (removeString (Finalizers (Meta gw)) finalizerName) =? 0)%nat
       then None else Some (withoutFinalizer gw)).
Proof.
  intros Hs Hdel Hfin Hjn Hlookup Hf260. unfold handleDeletion.
  rewrite Hfin.
  replace (String.eqb (JobName (Status gw)) "") with false
    by (symmetry; by apply String.eqb_neq).
  change (negb false) with true. cbv iota.
  rewrite bind_eq, bind_eq, client_GetJob_eq.
  assert (Hget : exists e, match fault env L249 with
                           | Some err => inr err
                           | None =>
                               match jobs (cluster st)
                                       !! (Namespace (Meta gw), JobName (Status gw)) with
                               | Some job => inl job
                               | None => inr (NewNotFound "jobs.batch"
                                   (snd (Namespace (Meta gw), JobName (Status gw))))
                               end
                           end = (inr e : Job + error)).
  { destruct (fault env L249); [eauto|]. destruct Hlookup as [? | ->]; [done | eauto]. }
  destruct Hget as [e ->]. rewrite ret_eq. fold (withoutFinalizer gw). rewrite bind_eq.
  match goal with |- context [client_Update env L260 (withoutFinalizer gw) ?s] =>
    assert (Hs1 : workloads (cluster s) !! key_of (Meta (withoutFinalizer gw)) = Some gw)
      by exact Hs;
    rewrite (client_Update_ok env L260 (withoutFinalizer gw) gw s Hf260 Hs1) end.
  replace (negb (IsZero (DeletionTimestamp (Meta (withoutFinalizer gw))))) with true
    by (simpl; destruct (DeletionTimestamp (Meta gw)); done).
  eexists. split; [reflexivity|]. split; [done|].
  change (calls (with_cluster ?x _)) with (calls x).
  split; [count_calls|].
  change (key_of (Meta (withoutFinalizer gw))) with (key_of (Meta gw)).
  simpl. destruct (_ =? _)%nat; [apply lookup_delete_eq | apply lookup_insert_eq].
Qed.

End ReconcileFacts.

(** * Instances *)

Lemma NextBackoff_capped_exponential_plus_jitter_witness :
  0 < 30 * Second < 2 ^ 53 /\ 0 <= 0 /\ unit_float pred_one = true /\
  30 * Second <= NextBackoff (30 * Second) 0 pred_one <= 33 * Second.
Proof.
  split; [vm_compute; split; reflexivity|]. split; [lia|]. split; [reflexivity|].
  apply (NextBackoff_capped_exponential_plus_jitter (30 * Second) 0 pred_one);
    [vm_compute; split; reflexivity | lia | reflexivity].
Defined.

(** C8 as stated fails at the largest draw: [rand.Float64()] can return
    [1 - 2^-53], the two roundings of [r * 30e9 * 0.1] then give exactly
    [3e9], and [NextBackoff (30s, 0)] is 33 s, outside [[30s, 33s)]. *)
Lemma NextBackoff_30s_reaches_33s :
  unit_float pred_one = true /\
  NextBackoff (30 * Second) 0 pred_one = 33 * Second /\
  ~ (NextBackoff (30 * Second) 0 pred_one < 33 * Second).
Proof.
  split; [reflexivity|]. split; [vm_compute; reflexivity|]. vm_compute. discriminate.
Qed.

Lemma NextBackoff_negative_attempt_nonneg_base_witness :
  0 <= 30 * Second < 2 ^ 53 /\ unit_float (Float64 0 0) = true /\
  0 <= capped (30 * Second) (-1) <= NextBackoff (30 * Second) (-1) (Float64 0 0).
Proof.
  split; [vm_compute; split; [discriminate | reflexivity]|]. split; [reflexivity|].
  apply (NextBackoff_negative_attempt_nonneg_base (30 * Second) (-1) (Float64 0 0));
    [vm_compute; split; [discriminate | reflexivity] | reflexivity].
Defined.

(** C9 as stated fails: attempt -1 gives half the base, not the base, and a
    negative base gives a negative delay. *)
Lemma NextBackoff_negative_inputs :
  NextBackoff (30 * Second) (-1) (Float64 0 0) = 15 * Second /\
  NextBackoff (30 * Second) 0 (Float64 0 0) = 30 * Second /\
  NextBackoff (30 * Second) (-1) (Float64 0 0) <> NextBackoff (30 * Second) 0 (Float64 0 0) /\
  NextBackoff (- (30 * Second)) 0 (Float64 0 0) = - (30 * Second) /\
  ~ (0 <= NextBackoff (- (30 * Second)) 0 (Float64 0 0)).
Proof.
  split; [vm_compute; reflexivity|]. split; [vm_compute; reflexivity|].
  split; [vm_compute; discriminate|]. split; [vm_compute; reflexivity|].
  vm_compute. intros H. by apply H.
Qed.

Lemma LeastLoaded_ChooseNode_correct_witness :
  0 <= GPUCount (Spec (createMockGPUWorkload 1)) /\
  LeastLoaded_ChooseNode no_number twoNodes (createMockGPUWorkload 1) <> Crash.
Proof.
  split; [vm_compute; discriminate|].
  apply (LeastLoaded_ChooseNode_correct no_number twoNodes (createMockGPUWorkload 1)).
  vm_compute. discriminate.
Defined.

Lemma CostOptimized_ChooseNode_correct_witness :
  0 <= GPUCount (Spec (createMockGPUWorkload 1)) /\
  (filter (fun node => Is_true (isCheapNode no_number
                                  (GPUCount (Spec (createMockGPUWorkload 1))) node))
     twoNodes = [] ->
   CostOptimized_ChooseNode no_number twoNodes (createMockGPUWorkload 1)
   = LeastLoaded_ChooseNode no_number twoNodes (createMockGPUWorkload 1)).
Proof.
  split; [vm_compute; discriminate|].
  apply (CostOptimized_ChooseNode_correct no_number twoNodes (createMockGPUWorkload 1)).
  vm_compute. discriminate.
Defined.

Lemma createJobForWorkload_gpu_quantity_witness :
  (8 <= String.length (UID (Meta sampleWorkload)))%nat /\
  jobs (cluster (clusterOf sampleWorkload [] twoNodes))
    !! (Namespace (Meta sampleWorkload), jobNameFor sampleWorkload) = None /\
  fault (sampleEnv noFault) L342 = None /\
  0 < GPUCount (Spec sampleWorkload) < 2 ^ 31 /\
  GPUCount (Spec sampleWorkload) = 2 /\
  exists job st' c,
    createJobForWorkload (sampleEnv noFault) sampleWorkload (createMockNode "node1" 2)
      (clusterOf sampleWorkload [] twoNodes) = (Continue (inl job), st') /\
    jobs (cluster st') !! (Namespace (Meta sampleWorkload), jobNameFor sampleWorkload)
    = Some job /\
    Containers job = [c] /\
    Requests c !! "nvidia.com/gpu" = Some 1 /\ Limits c !! "nvidia.com/gpu" = Some 1.
Proof.
  split; [vm_compute; lia|]. split; [reflexivity|]. split; [reflexivity|].
  split; [vm_compute; split; reflexivity|]. split; [reflexivity|].
  destruct (createJobForWorkload_gpu_quantity (sampleEnv noFault) sampleWorkload
              (createMockNode "node1" 2) (clusterOf sampleWorkload [] twoNodes))
    as (job & st' & d & Hrun & Hstored & (c & Hc & Hreq & Hlim & _) & _ & _ & Hone);
    [vm_compute; lia | reflexivity | reflexivity | vm_compute; split; reflexivity |].
  assert (Hd : d = 1) by (apply Hone; vm_compute; discriminate).
  rewrite Hd in Hreq, Hlim.
  exists job, st', c. split; [exact Hrun|]. split; [exact Hstored|]. split; [exact Hc|].
  split; [exact Hreq | exact Hlim].
Defined.

Lemma Reconcile_skips_scheduled_witness :
  workloads (cluster (clusterOf scheduledWorkload [sampleJob] twoNodes)) !! sampleKey
  = Some scheduledWorkload /\
  (Phase (Status scheduledWorkload) = PhaseScheduled
   \/ Phase (Status scheduledWorkload) = PhaseRunning
   \/ Phase (Status scheduledWorkload) = PhaseSucceeded) /\
  exists res err st',
    run (Reconcile no_number (sampleEnv noFault) sampleKey)
      (clusterOf scheduledWorkload [sampleJob] twoNodes) = (Returned res err, st') /\
    cluster st' = cluster (clusterOf scheduledWorkload [sampleJob] twoNodes) /\
    events st' = events (clusterOf scheduledWorkload [sampleJob] twoNodes) /\
    calls st' = (calls (clusterOf scheduledWorkload [sampleJob] twoNodes)
                 ++ [(L77, GetWorkload sampleKey)])%list /\
    creates (calls st') = creates (calls (clusterOf scheduledWorkload [sampleJob] twoNodes)) /\
    (fault (sampleEnv noFault) L77 = None -> res = emptyResult /\ err = None).
Proof.
  split; [reflexivity|]. split; [left; reflexivity|].
  apply (Reconcile_skips_scheduled no_number (sampleEnv noFault) sampleKey
           (clusterOf scheduledWorkload [sampleJob] twoNodes) scheduledWorkload);
    [reflexivity | left; reflexivity].
Defined.

Lemma Reconcile_skips_deleted_scheduled_witness :
  fault (sampleEnv noFault) L77 = None /\
  workloads (cluster (clusterOf deletedScheduled [sampleJob] twoNodes)) !! sampleKey
  = Some deletedScheduled /\
  Phase (Status deletedScheduled) = PhaseScheduled /\
  DeletionTimestamp (Meta deletedScheduled) = Some 5000 /\
  jobs (cluster (clusterOf deletedScheduled [sampleJob] twoNodes))
    !! (Namespace (Meta deletedScheduled), JobName (Status deletedScheduled))
  = Some sampleJob /\
  containsString (Finalizers (Meta deletedScheduled)) finalizerName = true /\
  exists st',
    run (Reconcile no_number (sampleEnv noFault) sampleKey)
      (clusterOf deletedScheduled [sampleJob] twoNodes) = (Returned emptyResult None, st') /\
    jobs (cluster st') = jobs (cluster (clusterOf deletedScheduled [sampleJob] twoNodes)) /\
    workloads (cluster st') !! sampleKey = Some deletedScheduled /\
    deletes (calls st') = deletes (calls (clusterOf deletedScheduled [sampleJob] twoNodes)).
Proof.
  split; [reflexivity|]. split; [reflexivity|]. split; [reflexivity|].
  split; [reflexivity|]. split; [vm_compute; reflexivity|]. split; [reflexivity|].
  apply (Reconcile_skips_deleted_scheduled no_number (sampleEnv noFault) sampleKey
           (clusterOf deletedScheduled [sampleJob] twoNodes) deletedScheduled 5000);
    reflexivity.
Defined.

Lemma Reconcile_retry_ceiling_witness :
  workloads (cluster (clusterOf exhaustedWorkload [] twoNodes)) !! sampleKey
  = Some exhaustedWorkload /\
  key_of (Meta exhaustedWorkload) = sampleKey /\
  int32_range (RetryCount (Status exhaustedWorkload)) /\
  maxRetriesOf exhaustedWorkload <= 2 ^ 31 - 1 /\
  exists st' gw',
    run (Reconcile no_number (sampleEnv noFault) sampleKey)
      (clusterOf exhaustedWorkload [] twoNodes) = (Returned emptyResult None, st') /\
    workloads (cluster st') !! sampleKey = Some gw' /\
    Phase (Status gw') = PhaseFailed /\
    Message (Status gw')
    = "Failed to schedule after " ++ format_d (maxRetriesOf exhaustedWorkload) ++ " retries" /\
    RetryCount (Status gw') = RetryCount (Status exhaustedWorkload) /\
    events st' = (events (clusterOf exhaustedWorkload [] twoNodes) ++
      [{| evObject := sampleKey; evType := EventTypeWarning;
          evReason := "MaxRetriesExceeded";
          evMessage := "Failed to schedule after "
                       ++ format_d (maxRetriesOf exhaustedWorkload) ++ " retries" |}])%list /\
    jobs (cluster st') = jobs (cluster (clusterOf exhaustedWorkload [] twoNodes)) /\
    creates (calls st') = creates (calls (clusterOf exhaustedWorkload [] twoNodes)).
Proof.
  split; [reflexivity|]. split; [reflexivity|].
  split; [vm_compute; split; discriminate|]. split; [vm_compute; discriminate|].
  apply (Reconcile_retry_ceiling no_number (sampleEnv noFault) sampleKey
           (clusterOf exhaustedWorkload [] twoNodes) exhaustedWorkload);
    try reflexivity; vm_compute; try discriminate; split; discriminate.
Defined.

(** C3 as stated fails on the message: after the pass that gives up the
    stored message is "Failed to schedule after 3 retries". *)
Lemma Reconcile_failed_message :
  Message <$> (Status <$>
    workloads (cluster (snd (run (Reconcile no_number (sampleEnv noFault) sampleKey)
                               (clusterOf exhaustedWorkload [] twoNodes)))) !! sampleKey)
  = Some "Failed to schedule after 3 retries" /\
  Message <$> (Status <$>
    workloads (cluster (snd (run (Reconcile no_number (sampleEnv noFault) sampleKey)
                               (clusterOf exhaustedWorkload [] twoNodes)))) !! sampleKey)
  <> Some "exceeded 3 retries".
Proof. split; [vm_compute; reflexivity | vm_compute; discriminate]. Qed.

Lemma Reconcile_transient_failures_witness :
  workloads (cluster (clusterOf retriedWorkload [] twoNodes)) !! sampleKey
  = Some retriedWorkload /\
  key_of (Meta retriedWorkload) = sampleKey /\
  fault (sampleEnv (failing L147 boom)) L77 = None /\
  skipped (Phase (Status retriedWorkload)) = false /\
  DeletionTimestamp (Meta retriedWorkload) = None /\
  fault (sampleEnv (failing L147 boom)) L110 = None /\
  fault (sampleEnv (failing L147 boom)) L120 = None /\
  0 <= RetryCount (Status retriedWorkload) < maxRetriesOf retriedWorkload /\
  maxRetriesOf retriedWorkload <= 2 ^ 31 - 1 /\
  exists st',
    run (Reconcile no_number (sampleEnv (failing L147 boom)) sampleKey)
      (clusterOf retriedWorkload [] twoNodes)
    = (requeued (sampleEnv (failing L147 boom)) retriedWorkload
         (RetryCount (Status retriedWorkload)), st') /\
    jobs (cluster st') = jobs (cluster (clusterOf retriedWorkload [] twoNodes)) /\
    (fault (sampleEnv (failing L147 boom)) L151 = None ->
     stored_pending st' sampleKey (RetryCount (Status retriedWorkload))
       ("Error listing nodes: " ++ errMsg boom)).
Proof.
  split; [reflexivity|]. split; [reflexivity|]. split; [reflexivity|].
  split; [reflexivity|]. split; [reflexivity|]. split; [reflexivity|].
  split; [reflexivity|]. split; [vm_compute; split; [discriminate | reflexivity]|].
  split; [vm_compute; discriminate|].
  apply (Reconcile_transient_failures no_number (sampleEnv (failing L147 boom)) sampleKey
           (clusterOf retriedWorkload [] twoNodes) retriedWorkload);
    try reflexivity;
    [vm_compute; split; [discriminate | reflexivity] | vm_compute; discriminate].
Defined.

(** C4 as stated fails: a pass whose node list fails leaves the stored
    retry count at 1. *)
Lemma Reconcile_list_failure_not_counted :
  fault (sampleEnv (failing L147 boom)) L147 = Some boom /\
  RetryCount (Status retriedWorkload) = 1 /\
  RetryCount <$> (Status <$>
    workloads (cluster (snd (run (Reconcile no_number (sampleEnv (failing L147 boom))
                                    sampleKey)
                               (clusterOf retriedWorkload [] twoNodes)))) !! sampleKey)
  = Some 1 /\
  RetryCount <$> (Status <$>
    workloads (cluster (snd (run (Reconcile no_number (sampleEnv (failing L147 boom))
                                    sampleKey)
                               (clusterOf retriedWorkload [] twoNodes)))) !! sampleKey)
  <> Some 2.
Proof.
  split; [reflexivity|]. split; [reflexivity|].
  split; [vm_compute; reflexivity | vm_compute; discriminate].
Qed.

Lemma createJobForWorkload_idempotent_witness :
  createJobForWorkload (sampleEnv noFault) sampleWorkload (createMockNode "node1" 2)
    (clusterOf sampleWorkload [] twoNodes)
  = (Continue (inl sampleJob),
     snd (createJobForWorkload (sampleEnv noFault) sampleWorkload
            (createMockNode "node1" 2) (clusterOf sampleWorkload [] twoNodes))) /\
  Name (Meta retriedWorkload) = Name (Meta sampleWorkload) /\
  Namespace (Meta retriedWorkload) = Namespace (Meta sampleWorkload) /\
  UID (Meta retriedWorkload) = UID (Meta sampleWorkload) /\
  fault (sampleEnv noFault) L274 = None /\
  jobNameFor sampleWorkload = "train-job-0a1b2c3d" /\
  createJobForWorkload (sampleEnv noFault) retriedWorkload (createMockNode "node2" 4)
    (snd (createJobForWorkload (sampleEnv noFault) sampleWorkload
            (createMockNode "node1" 2) (clusterOf sampleWorkload [] twoNodes)))
  = (Continue (inl sampleJob),
     logged L274 (GetJob (Namespace (Meta sampleWorkload), jobNameFor sampleWorkload))
       (snd (createJobForWorkload (sampleEnv noFault) sampleWorkload
               (createMockNode "node1" 2) (clusterOf sampleWorkload [] twoNodes)))).
Proof.
  split; [vm_compute; reflexivity|]. split; [reflexivity|]. split; [reflexivity|].
  split; [reflexivity|]. split; [reflexivity|]. split; [vm_compute; reflexivity|].
  apply (createJobForWorkload_idempotent (sampleEnv noFault) (sampleEnv noFault)
           sampleWorkload retriedWorkload (createMockNode "node1" 2)
           (createMockNode "node2" 4) (clusterOf sampleWorkload [] twoNodes) sampleJob);
    reflexivity.
Defined.

(** A second run whose look-up of the Job fails takes the Job for absent
    (line 274 only tests [err == nil]) and calls [r.Create] again: the call
    is refused with AlreadyExists, the run returns that error in place of
    the Job, and two creates have been issued for one request. *)
Lemma createJobForWorkload_failed_lookup_creates_again :
  createJobForWorkload (sampleEnv noFault) sampleWorkload (createMockNode "node1" 2)
    (clusterOf sampleWorkload [] twoNodes)
  = (Continue (inl sampleJob),
     snd (createJobForWorkload (sampleEnv noFault) sampleWorkload
            (createMockNode "node1" 2) (clusterOf sampleWorkload [] twoNodes))) /\
  creates (calls (clusterOf sampleWorkload [] twoNodes)) = 0%nat /\
  fault (sampleEnv (failing L274 boom)) L274 = Some boom /\
  fst (createJobForWorkload (sampleEnv (failing L274 boom)) sampleWorkload
         (createMockNode "node1" 2)
         (snd (createJobForWorkload (sampleEnv noFault) sampleWorkload
                 (createMockNode "node1" 2) (clusterOf sampleWorkload [] twoNodes))))
  = Continue (inr (NewAlreadyExists "jobs.batch" "train-job-0a1b2c3d")) /\
  creates (calls (snd (createJobForWorkload (sampleEnv (failing L274 boom)) sampleWorkload
                         (createMockNode "node1" 2)
                         (snd (createJobForWorkload (sampleEnv noFault) sampleWorkload
                                 (createMockNode "node1" 2)
                                 (clusterOf sampleWorkload [] twoNodes))))))
  = 2%nat.
Proof.
  split; [vm_compute; reflexivity|]. split; [reflexivity|]. split; [reflexivity|].
  split; vm_compute; reflexivity.
Qed.

(** ** Instances of the further properties *)

Ltac evaluate :=
  vm_compute; repeat split;
  first [reflexivity | discriminate | (let H := fresh in intros H; discriminate H)].

Ltac side := first [reflexivity | evaluate | (vm_compute; lia)].

Ltac each_member H :=
  repeat (apply elem_of_cons in H as [->|H]); [.. | by apply elem_of_nil in H].

Lemma CalculateNextRetryTime_within_330s_witness :
  0 <= 30 * Second < 2 ^ 53 /\ unit_float pred_one = true /\
  0 <= CalculateNextRetryTime (30 * Second) (-3) pred_one <= 5 * Minute + 30 * Second.
Proof.
  split; [evaluate|]. split; [reflexivity|].
  apply (CalculateNextRetryTime_within_330s (30 * Second) (-3) pred_one); evaluate.
Defined.

Lemma NextBackoff_grows_with_attempt_witness :
  0 <= 30 * Second < 2 ^ 53 /\ unit_float pred_one = true /\ 0 <= 1 /\
  NextBackoff (30 * Second) 0 (Float64 0 0) <= NextBackoff (30 * Second) 1 pred_one.
Proof.
  split; [evaluate|]. split; [reflexivity|]. split; [evaluate|].
  apply (NextBackoff_grows_with_attempt (30 * Second) 0 1 pred_one); evaluate.
Defined.

Lemma ChooseNode_sound_witness :
  0 <= GPUCount (Spec (createMockGPUWorkload 1)) /\
  ChooseNode no_number RandomStrategy 7 twoNodes (createMockGPUWorkload 1) <> Crash.
Proof.
  split; [evaluate|].
  apply (ChooseNode_sound no_number RandomStrategy 7 twoNodes (createMockGPUWorkload 1)).
  evaluate.
Defined.

Lemma ChooseNode_no_capacity_witness :
  0 <= GPUCount (Spec (createMockGPUWorkload 8)) /\
  (forall m, m ∈ twoNodes ->
             getAvailableGPUs no_number m < GPUCount (Spec (createMockGPUWorkload 8))) /\
  exists e, ChooseNode no_number CostOptimizedStrategy 0 twoNodes (createMockGPUWorkload 8)
            = Err e.
Proof.
  split; [evaluate|].
  assert (H : forall m, m ∈ twoNodes ->
            getAvailableGPUs no_number m < GPUCount (Spec (createMockGPUWorkload 8))).
  { intros m Hm. each_member Hm; reflexivity. }
  split; [exact H|].
  apply (ChooseNode_no_capacity no_number CostOptimizedStrategy 0 twoNodes
           (createMockGPUWorkload 8)); [evaluate | exact H].
Defined.

Lemma Random_ChooseNode_reaches_witness :
  createMockNode "node2" 4 ∈ twoNodes /\
  GPUCount (Spec (createMockGPUWorkload 1))
  <= getAvailableGPUs no_number (createMockNode "node2" 4) /\
  exists rnd, Random_ChooseNode no_number rnd twoNodes (createMockGPUWorkload 1)
              = Ok (createMockNode "node2" 4).
Proof.
  assert (H : createMockNode "node2" 4 ∈ twoNodes)
    by (apply elem_of_cons; right; apply elem_of_cons; by left).
  split; [exact H|]. split; [evaluate|].
  apply (Random_ChooseNode_reaches no_number twoNodes (createMockGPUWorkload 1)
           (createMockNode "node2" 4)); [exact H | evaluate].
Defined.

Lemma hasGPUs_keeps_candidates_witness :
  0 < 3 /\
  filter (fun node => Is_true (suitable no_number 3 node))
    (filter (fun node => Is_true (isNodeReady node && hasGPUs node)) twoNodes)
  = filter (fun node => Is_true (suitable no_number 3 node))
      (filter (fun node => Is_true (isNodeReady node)) twoNodes).
Proof.
  split; [evaluate|]. apply (hasGPUs_keeps_candidates no_number twoNodes 3). evaluate.
Defined.

Lemma Reconcile_missing_request_witness :
  workloads (cluster (clusterOf sampleWorkload [] twoNodes)) !! mockKey = None /\
  exists err,
    run (Reconcile no_number (sampleEnv noFault) mockKey)
      (clusterOf sampleWorkload [] twoNodes)
    = (Returned emptyResult err,
       logged L77 (GetWorkload mockKey) (clusterOf sampleWorkload [] twoNodes)).
Proof.
  split; [reflexivity|].
  destruct (Reconcile_missing_request no_number (sampleEnv noFault) mockKey
              (clusterOf sampleWorkload [] twoNodes) eq_refl) as (err & H & _).
  exists err. exact H.
Defined.

Lemma Reconcile_terminal_phase_absorbing_witness :
  workloads (cluster (clusterOf scheduledWorkload [sampleJob] twoNodes)) !! sampleKey
  = Some scheduledWorkload /\
  skipped (Phase (Status scheduledWorkload)) = true /\
  cluster (passes no_number [sampleEnv noFault; sampleEnv (failing L77 boom)] sampleKey
             (clusterOf scheduledWorkload [sampleJob] twoNodes))
  = cluster (clusterOf scheduledWorkload [sampleJob] twoNodes).
Proof.
  split; [reflexivity|]. split; [reflexivity|].
  apply (Reconcile_terminal_phase_absorbing no_number sampleKey
           (clusterOf scheduledWorkload [sampleJob] twoNodes) scheduledWorkload
           [sampleEnv noFault; sampleEnv (failing L77 boom)]); reflexivity.
Defined.

Lemma sample_workloads_keyed gw js ns : workloads_keyed (cluster (clusterOf gw js ns)).
Proof.
  intros k g Hk. change (({[key_of (Meta gw) := gw]} : gmap _ _) !! k = Some g) in Hk.
  apply lookup_singleton_Some in Hk as [<- <-]. reflexivity.
Qed.

Lemma Reconcile_frame_witness :
  workloads_keyed (cluster (clusterOf sampleWorkload [] twoNodes)) /\
  nodes (cluster (after no_number (sampleEnv noFault) sampleKey
                    (clusterOf sampleWorkload [] twoNodes)))
  = nodes (cluster (clusterOf sampleWorkload [] twoNodes)).
Proof.
  split; [apply sample_workloads_keyed|].
  apply (Reconcile_frame no_number (sampleEnv noFault) sampleKey
           (clusterOf sampleWorkload [] twoNodes)). apply sample_workloads_keyed.
Defined.

Lemma sample_jobs_keyed gw ns : jobs_keyed (cluster (clusterOf gw [] ns)).
Proof.
  intros k j Hk. change ((∅ : gmap _ _) !! k = Some j) in Hk.
  by apply lookup_empty_Some in Hk.
Qed.

Lemma Reconcile_touches_only_its_jobs_witness :
  workloads (cluster (clusterOf sampleWorkload [] twoNodes)) !! sampleKey
  = Some sampleWorkload /\
  key_of (Meta sampleWorkload) = sampleKey /\
  jobs_keyed (cluster (clusterOf sampleWorkload [] twoNodes)) /\
  jobs_keyed (cluster (after no_number (sampleEnv noFault) sampleKey
                         (clusterOf sampleWorkload [] twoNodes))).
Proof.
  split; [reflexivity|]. split; [reflexivity|]. split; [apply sample_jobs_keyed|].
  apply (Reconcile_touches_only_its_jobs no_number (sampleEnv noFault) sampleKey
           (clusterOf sampleWorkload [] twoNodes) sampleWorkload);
    [reflexivity | reflexivity | apply sample_jobs_keyed].
Defined.

Lemma Reconcile_never_deletes_a_job_witness :
  workloads (cluster (clusterOf pendingDeleted [sampleJob] twoNodes)) !! sampleKey
  = Some pendingDeleted /\
  key_of (Meta pendingDeleted) = sampleKey /\
  job_only_when_scheduled pendingDeleted /\
  deletes (calls (passes no_number [sampleEnv noFault; sampleEnv noFault] sampleKey
                    (clusterOf pendingDeleted [sampleJob] twoNodes)))
  = deletes (calls (clusterOf pendingDeleted [sampleJob] twoNodes)).
Proof.
  assert (H : job_only_when_scheduled pendingDeleted) by (intros H; by destruct H).
  split; [reflexivity|]. split; [reflexivity|]. split; [exact H|].
  apply (Reconcile_never_deletes_a_job no_number sampleKey
           (clusterOf pendingDeleted [sampleJob] twoNodes) pendingDeleted
           [sampleEnv noFault; sampleEnv noFault]); [reflexivity | reflexivity | exact H].
Defined.

Lemma Reconcile_creates_job_only_with_finalizer_witness :
  workloads (cluster (clusterOf sampleWorkload [] twoNodes)) !! sampleKey
  = Some sampleWorkload /\
  key_of (Meta sampleWorkload) = sampleKey /\
  creates (calls (after no_number (sampleEnv noFault) sampleKey
                    (clusterOf sampleWorkload [] twoNodes)))
  <> creates (calls (clusterOf sampleWorkload [] twoNodes)) /\
  exists gw',
    workloads (cluster (after no_number (sampleEnv noFault) sampleKey
                          (clusterOf sampleWorkload [] twoNodes))) !! sampleKey = Some gw' /\
    containsString (Finalizers (Meta gw')) finalizerName = true.
Proof.
  assert (H : creates (calls (after no_number (sampleEnv noFault) sampleKey
                                (clusterOf sampleWorkload [] twoNodes)))
              <> creates (calls (clusterOf sampleWorkload [] twoNodes))) by evaluate.
  split; [reflexivity|]. split; [reflexivity|]. split; [exact H|].
  apply (Reconcile_creates_job_only_with_finalizer no_number (sampleEnv noFault) sampleKey
           (clusterOf sampleWorkload [] twoNodes) sampleWorkload eq_refl eq_refl H).
Defined.

Lemma RetryCount_never_decreases_witness :
  workloads (cluster (clusterOf sampleWorkload [] smallNodes)) !! sampleKey
  = Some sampleWorkload /\
  key_of (Meta sampleWorkload) = sampleKey /\
  int32_range (RetryCount (Status sampleWorkload)) /\
  maxRetriesOf sampleWorkload <= 2 ^ 31 - 1 /\
  workloads (cluster (passes no_number [sampleEnv noFault] sampleKey
                        (clusterOf sampleWorkload [] smallNodes))) !! sampleKey
  = Some noRoomWorkload /\
  RetryCount (Status sampleWorkload) <= RetryCount (Status noRoomWorkload).
Proof.
  split; [reflexivity|]. split; [reflexivity|]. split; [evaluate|]. split; [evaluate|].
  split; [vm_compute; reflexivity|].
  apply (RetryCount_never_decreases no_number sampleKey
           (clusterOf sampleWorkload [] smallNodes) sampleWorkload [sampleEnv noFault]
           noRoomWorkload);
    [reflexivity | reflexivity | evaluate | evaluate | vm_compute; reflexivity].
Defined.

Lemma Reconcile_fails_only_when_exhausted_witness :
  workloads (cluster (clusterOf exhaustedWorkload [] twoNodes)) !! sampleKey
  = Some exhaustedWorkload /\
  key_of (Meta exhaustedWorkload) = sampleKey /\
  workloads (cluster (after no_number (sampleEnv noFault) sampleKey
                        (clusterOf exhaustedWorkload [] twoNodes))) !! sampleKey
  = Some failedWorkload /\
  Phase (Status failedWorkload) = PhaseFailed /\
  (Phase (Status exhaustedWorkload) = PhaseFailed \/
   ShouldRetry (RetryCount (Status exhaustedWorkload)) (maxRetriesOf exhaustedWorkload)
   = false).
Proof.
  split; [reflexivity|]. split; [reflexivity|]. split; [vm_compute; reflexivity|].
  split; [reflexivity|].
  apply (Reconcile_fails_only_when_exhausted no_number (sampleEnv noFault) sampleKey
           (clusterOf exhaustedWorkload [] twoNodes) exhaustedWorkload failedWorkload);
    [reflexivity | reflexivity | vm_compute; reflexivity | reflexivity].
Defined.

Lemma Reconcile_schedules_witness :
  workloads (cluster (clusterOf sampleWorkload [] twoNodes)) !! sampleKey
  = Some sampleWorkload /\
  key_of (Meta sampleWorkload) = sampleKey /\
  skipped (Phase (Status sampleWorkload)) = false /\
  DeletionTimestamp (Meta sampleWorkload) = None /\
  RetryCount (Status sampleWorkload) < maxRetriesOf sampleWorkload /\
  (forall s, fault (sampleEnv noFault) s = None) /\
  ChooseNode no_number (strategyOf sampleWorkload) (randIntn (sampleEnv noFault))
    (gpuNodesOf (clusterOf sampleWorkload [] twoNodes)) sampleWorkload
  = Ok (createMockNode "node2" 4) /\
  (8 <= String.length (UID (Meta sampleWorkload)))%nat /\
  jobs (cluster (clusterOf sampleWorkload [] twoNodes))
    !! (Namespace (Meta sampleWorkload), jobNameFor sampleWorkload) = None /\
  exists st' gw',
    run (Reconcile no_number (sampleEnv noFault) sampleKey)
      (clusterOf sampleWorkload [] twoNodes) = (Returned emptyResult None, st') /\
    workloads (cluster st') !! sampleKey = Some gw' /\
    Phase (Status gw') = PhaseScheduled /\
    AssignedNode (Status gw') = "node2".
Proof.
  split; [reflexivity|]. split; [reflexivity|]. split; [reflexivity|].
  split; [reflexivity|]. split; [evaluate|]. split; [reflexivity|].
  split; [vm_compute; reflexivity|]. split; [vm_compute; lia|]. split; [reflexivity|].
  destruct (Reconcile_schedules no_number (sampleEnv noFault) sampleKey
              (clusterOf sampleWorkload [] twoNodes) sampleWorkload
              (createMockNode "node2" 4))
    as (st' & gw' & Hrun & Hgw' & Hph & Hnode & _);
    [side .. |].
  exists st', gw'. split; [exact Hrun|]. split; [exact Hgw'|]. split; [exact Hph|].
  exact Hnode.
Defined.

Lemma Reconcile_adopts_existing_job_witness :
  workloads (cluster (clusterOf sampleWorkload [sampleJob] twoNodes)) !! sampleKey
  = Some sampleWorkload /\
  ChooseNode no_number (strategyOf sampleWorkload) (randIntn (sampleEnv noFault))
    (gpuNodesOf (clusterOf sampleWorkload [sampleJob] twoNodes)) sampleWorkload
  = Ok (createMockNode "node2" 4) /\
  jobs (cluster (clusterOf sampleWorkload [sampleJob] twoNodes))
    !! (Namespace (Meta sampleWorkload), jobNameFor sampleWorkload) = Some sampleJob /\
  NodeName sampleJob = "node1" /\
  exists st' gw',
    run (Reconcile no_number (sampleEnv noFault) sampleKey)
      (clusterOf sampleWorkload [sampleJob] twoNodes) = (Returned emptyResult None, st') /\
    workloads (cluster st') !! sampleKey = Some gw' /\
    Phase (Status gw') = PhaseScheduled /\
    AssignedNode (Status gw') = "node2".
Proof.
  split; [reflexivity|]. split; [vm_compute; reflexivity|].
  split; [vm_compute; reflexivity|]. split; [reflexivity|].
  destruct (Reconcile_adopts_existing_job no_number (sampleEnv noFault) sampleKey
              (clusterOf sampleWorkload [sampleJob] twoNodes) sampleWorkload
              (createMockNode "node2" 4) sampleJob)
    as (st' & gw' & Hrun & Hgw' & Hph & Hnode & _);
    [side .. |].
  exists st', gw'. split; [exact Hrun|]. split; [exact Hgw'|]. split; [exact Hph|].
  exact Hnode.
Defined.

Lemma Reconcile_short_UID_panics_witness :
  workloads (cluster (clusterOf (createMockGPUWorkload 1) [] twoNodes)) !! mockKey
  = Some (createMockGPUWorkload 1) /\
  ChooseNode no_number (strategyOf (createMockGPUWorkload 1)) (randIntn (sampleEnv noFault))
    (gpuNodesOf (clusterOf (createMockGPUWorkload 1) [] twoNodes)) (createMockGPUWorkload 1)
  = Ok (createMockNode "node2" 4) /\
  (String.length (UID (Meta (createMockGPUWorkload 1))) < 8)%nat /\
  exists st',
    run (Reconcile no_number (sampleEnv noFault) mockKey)
      (clusterOf (createMockGPUWorkload 1) [] twoNodes) = (Panicked, st').
Proof.
  split; [reflexivity|]. split; [vm_compute; reflexivity|]. split; [vm_compute; lia|].
  destruct (Reconcile_short_UID_panics no_number (sampleEnv noFault) mockKey
              (clusterOf (createMockGPUWorkload 1) [] twoNodes) (createMockGPUWorkload 1)
              (createMockNode "node2" 4))
    as (st' & Hrun & _);
    [side .. |].
  exists st'. exact Hrun.
Defined.

Lemma createJobForWorkload_lookup_failure_witness :
  (8 <= String.length (UID (Meta sampleWorkload)))%nat /\
  fault (sampleEnv (failing L274 boom)) L274 = Some boom /\
  fault (sampleEnv (failing L274 boom)) L342 = None /\
  jobs (cluster (clusterOf sampleWorkload [sampleJob] twoNodes))
    !! (Namespace (Meta sampleWorkload), jobNameFor sampleWorkload) = Some sampleJob /\
  exists st',
    createJobForWorkload (sampleEnv (failing L274 boom)) sampleWorkload
      (createMockNode "node2" 4) (clusterOf sampleWorkload [sampleJob] twoNodes)
    = (Continue (inr (NewAlreadyExists "jobs.batch" (jobNameFor sampleWorkload))), st').
Proof.
  split; [vm_compute; lia|]. split; [reflexivity|]. split; [reflexivity|].
  split; [vm_compute; reflexivity|].
  destruct (createJobForWorkload_lookup_failure (sampleEnv (failing L274 boom))
              sampleWorkload (createMockNode "node2" 4)
              (clusterOf sampleWorkload [sampleJob] twoNodes) boom sampleJob)
    as (st' & Hrun & _);
    [side .. |].
  exists st'. exact Hrun.
Defined.

Lemma Reconcile_retry_lost_when_write_fails_witness :
  workloads (cluster (clusterOf sampleWorkload [] smallNodes)) !! sampleKey
  = Some sampleWorkload /\
  gpuNodesOf (clusterOf sampleWorkload [] smallNodes) <> [] /\
  ChooseNode no_number (strategyOf sampleWorkload)
    (randIntn (sampleEnv (failing L199 boom)))
    (gpuNodesOf (clusterOf sampleWorkload [] smallNodes)) sampleWorkload
  = Err (Errorf "no node has enough available GPUs for workload requiring 2 GPUs") /\
  fault (sampleEnv (failing L199 boom)) L199 = Some boom /\
  exists st' gw',
    run (Reconcile no_number (sampleEnv (failing L199 boom)) sampleKey)
      (clusterOf sampleWorkload [] smallNodes)
    = (requeued (sampleEnv (failing L199 boom)) sampleWorkload
         (wrap32 (RetryCount (Status sampleWorkload) + 1)), st') /\
    workloads (cluster st') !! sampleKey = Some gw' /\
    RetryCount (Status gw') = RetryCount (Status sampleWorkload).
Proof.
  assert (Hn : gpuNodesOf (clusterOf sampleWorkload [] smallNodes) <> []) by evaluate.
  split; [reflexivity|]. split; [exact Hn|]. split; [vm_compute; reflexivity|].
  split; [reflexivity|].
  destruct (Reconcile_retry_lost_when_write_fails no_number
              (sampleEnv (failing L199 boom)) sampleKey
              (clusterOf sampleWorkload [] smallNodes) sampleWorkload
              (Errorf "no node has enough available GPUs for workload requiring 2 GPUs")
              boom)
    as (st' & gw' & Hrun & Hgw' & Hrc & _);
    [first [exact Hn | side] .. |].
  exists st', gw'. split; [exact Hrun|]. split; [exact Hgw' | exact Hrc].
Defined.

Lemma requeueWithBackoff_bounds_witness :
  unit_float (randFloat64 (sampleEnv noFault)) = true /\
  (forall rp, RetryPolicy_ (Spec sampleWorkload) = Some rp -> BackoffSeconds rp <= 9007199) /\
  0 <= RequeueAfter (fst (requeueWithBackoff (sampleEnv noFault) sampleWorkload))
    <= 5 * Minute + 30 * Second.
Proof.
  assert (H : forall rp, RetryPolicy_ (Spec sampleWorkload) = Some rp ->
                         BackoffSeconds rp <= 9007199).
  { intros rp Hrp. inversion Hrp. evaluate. }
  split; [reflexivity|]. split; [exact H|].
  apply (requeueWithBackoff_bounds (sampleEnv noFault) sampleWorkload eq_refl H).
Defined.

Lemma Reconcile_gives_up_after_maxRetries_witness :
  workloads (cluster (clusterOf sampleWorkload [] smallNodes)) !! sampleKey
  = Some sampleWorkload /\
  gpuNodesOf (clusterOf sampleWorkload [] smallNodes) <> [] /\
  (forall m, m ∈ gpuNodesOf (clusterOf sampleWorkload [] smallNodes) ->
             getAvailableGPUs no_number m < GPUCount (Spec sampleWorkload)) /\
  Z.of_nat (length [sampleEnv noFault; sampleEnv noFault; sampleEnv noFault])
  = maxRetriesOf sampleWorkload - RetryCount (Status sampleWorkload) /\
  exists gw',
    workloads (cluster (passes no_number
                          ([sampleEnv noFault; sampleEnv noFault; sampleEnv noFault]
                           ++ [sampleEnv noFault]) sampleKey
                          (clusterOf sampleWorkload [] smallNodes))) !! sampleKey
    = Some gw' /\
    Phase (Status gw') = PhaseFailed /\
    RetryCount (Status gw') = maxRetriesOf sampleWorkload.
Proof.
  assert (Hn : gpuNodesOf (clusterOf sampleWorkload [] smallNodes) <> []) by evaluate.
  assert (Hall : forall m, m ∈ gpuNodesOf (clusterOf sampleWorkload [] smallNodes) ->
                   getAvailableGPUs no_number m < GPUCount (Spec sampleWorkload)).
  { intros m Hm.
    replace (gpuNodesOf (clusterOf sampleWorkload [] smallNodes)) with smallNodes in Hm
      by (vm_compute; reflexivity).
    each_member Hm; reflexivity. }
  assert (Hf : forall e s,
            e ∈ sampleEnv noFault
                :: [sampleEnv noFault; sampleEnv noFault; sampleEnv noFault] ->
            fault e s = None).
  { intros e s He. each_member He; reflexivity. }
  split; [reflexivity|]. split; [exact Hn|]. split; [exact Hall|].
  split; [vm_compute; reflexivity|].
  destruct (Reconcile_gives_up_after_maxRetries no_number sampleKey
              (clusterOf sampleWorkload [] smallNodes) sampleWorkload
              [sampleEnv noFault; sampleEnv noFault; sampleEnv noFault]
              (sampleEnv noFault))
    as (_ & gw' & Hgw' & Hph & Hrc & _);
    [first [exact Hn | exact Hall | exact Hf | side] .. |].
  exists gw'. split; [exact Hgw'|]. split; [exact Hph | exact Hrc].
Defined.

Lemma Reconcile_deletion_removes_finalizer_witness :
  workloads (cluster (clusterOf pendingDeleted [] twoNodes)) !! sampleKey
  = Some pendingDeleted /\
  key_of (Meta pendingDeleted) = sampleKey /\
  fault (sampleEnv noFault) L77 = None /\
  skipped (Phase (Status pendingDeleted)) = false /\
  DeletionTimestamp (Meta pendingDeleted) <> None /\
  containsString (Finalizers (Meta pendingDeleted)) finalizerName = true /\
  JobName (Status pendingDeleted) = "" /\
  exists st',
    run (Reconcile no_number (sampleEnv noFault) sampleKey)
      (clusterOf pendingDeleted [] twoNodes) = (Returned emptyResult None, st') /\
    workloads (cluster st') !! sampleKey = None.
Proof.
  assert (H : DeletionTimestamp (Meta pendingDeleted) <> None) by evaluate.
  split; [reflexivity|]. split; [reflexivity|]. split; [reflexivity|].
  split; [reflexivity|]. split; [exact H|]. split; [reflexivity|]. split; [reflexivity|].
  destruct (Reconcile_deletion_removes_finalizer no_number (sampleEnv noFault) sampleKey
              (clusterOf pendingDeleted [] twoNodes) pendingDeleted eq_refl eq_refl eq_refl
              eq_refl H) as [_ Hrem].
  destruct (Hrem eq_refl eq_refl) as (st' & Hrun & Hstored & _).
  exists st'. split; [exact Hrun | exact Hstored].
Defined.

Lemma handleDeletion_releases_job_witness :
  synced deletedWithJob (clusterOf deletedWithJob [sampleJob] twoNodes) /\
  DeletionTimestamp (Meta deletedWithJob) <> None /\
  containsString (Finalizers (Meta deletedWithJob)) finalizerName = true /\
  JobName (Status deletedWithJob) <> "" /\
  jobs (cluster (clusterOf deletedWithJob [sampleJob] twoNodes))
    !! (Namespace (Meta deletedWithJob), JobName (Status deletedWithJob)) = Some sampleJob /\
  key_of (JobMeta sampleJob)
  = (Namespace (Meta deletedWithJob), JobName (Status deletedWithJob)) /\
  exists st',
    handleDeletion (sampleEnv noFault) deletedWithJob
      (clusterOf deletedWithJob [sampleJob] twoNodes)
    = (Continue (emptyResult, None), st') /\
    jobs (cluster st')
    = delete (Namespace (Meta deletedWithJob), JobName (Status deletedWithJob))
        (jobs (cluster (clusterOf deletedWithJob [sampleJob] twoNodes))).
Proof.
  assert (Hs : synced deletedWithJob (clusterOf deletedWithJob [sampleJob] twoNodes))
    by reflexivity.
  assert (Hd : DeletionTimestamp (Meta deletedWithJob) <> None) by evaluate.
  assert (Hj : JobName (Status deletedWithJob) <> "") by evaluate.
  split; [exact Hs|]. split; [exact Hd|]. split; [reflexivity|]. split; [exact Hj|].
  split; [vm_compute; reflexivity|]. split; [vm_compute; reflexivity|].
  destruct (handleDeletion_releases_job (sampleEnv noFault) deletedWithJob
              (clusterOf deletedWithJob [sampleJob] twoNodes) sampleJob Hs Hd eq_refl Hj)
    as (st' & Hrun & Hjobs & _);
    [side .. |].
  exists st'. split; [exact Hrun | exact Hjobs].
Defined.

Lemma handleDeletion_lookup_failure_leaves_job_witness :
  synced deletedWithJob (clusterOf deletedWithJob [sampleJob] twoNodes) /\
  DeletionTimestamp (Meta deletedWithJob) <> None /\
  containsString (Finalizers (Meta deletedWithJob)) finalizerName = true /\
  JobName (Status deletedWithJob) <> "" /\
  fault (sampleEnv (failing L249 boom)) L249 <> None /\
  fault (sampleEnv (failing L249 boom)) L260 = None /\
  exists st',
    handleDeletion (sampleEnv (failing L249 boom)) deletedWithJob
      (clusterOf deletedWithJob [sampleJob] twoNodes)
    = (Continue (emptyResult, None), st') /\
    jobs (cluster st') = jobs (cluster (clusterOf deletedWithJob [sampleJob] twoNodes)).
Proof.
  assert (Hs : synced deletedWithJob (clusterOf deletedWithJob [sampleJob] twoNodes))
    by reflexivity.
  assert (Hd : DeletionTimestamp (Meta deletedWithJob) <> None) by evaluate.
  assert (Hj : JobName (Status deletedWithJob) <> "") by evaluate.
  assert (Hf : fault (sampleEnv (failing L249 boom)) L249 <> None) by evaluate.
  split; [exact Hs|]. split; [exact Hd|]. split; [reflexivity|]. split; [exact Hj|].
  split; [exact Hf|]. split; [reflexivity|].
  destruct (handleDeletion_lookup_failure_leaves_job (sampleEnv (failing L249 boom))
              deletedWithJob (clusterOf deletedWithJob [sampleJob] twoNodes)
              Hs Hd eq_refl Hj (or_introl Hf) eq_refl)
    as (st' & Hrun & Hjobs & _).
  exists st'. split; [exact Hrun | exact Hjobs].
Defined.

Lemma NextBackoff_exceeds_5_minutes_witness :
  0 <= 30 * Second < 2 ^ 53 /\ 0 <= 100 /\
  5 * Minute <= 30 * Second * 2 ^ Z.min 100 10 /\
  unit_float (Float64 1 (-1)) = true /\ (1 # 17179869184 <= value (Float64 1 (-1)))%Q /\
  5 * Minute < NextBackoff (30 * Second) 100 (Float64 1 (-1)).
Proof.
  split; [evaluate|]. split; [evaluate|]. split; [evaluate|]. split; [reflexivity|].
  split; [evaluate|].
  apply (NextBackoff_exceeds_5_minutes (30 * Second) 100 (Float64 1 (-1))); side.
Defined.

Lemma Reconcile_initialises_request_witness :
  workloads (cluster (clusterOf (createMockGPUWorkload 1) [] twoNodes)) !! mockKey
  = Some (createMockGPUWorkload 1) /\
  key_of (Meta (createMockGPUWorkload 1)) = mockKey /\
  fault (sampleEnv (failing L110 boom)) L77 = None /\
  skipped (Phase (Status (createMockGPUWorkload 1))) = false /\
  DeletionTimestamp (Meta (createMockGPUWorkload 1)) = None /\
  containsString (Finalizers (Meta (createMockGPUWorkload 1))) finalizerName = false /\
  fault (sampleEnv (failing L110 boom)) L110 = Some boom /\
  exists st',
    run (Reconcile no_number (sampleEnv (failing L110 boom)) mockKey)
      (clusterOf (createMockGPUWorkload 1) [] twoNodes)
    = (Returned emptyResult (Some boom), st') /\
    cluster st' = cluster (clusterOf (createMockGPUWorkload 1) [] twoNodes).
Proof.
  split; [reflexivity|]. split; [reflexivity|]. split; [reflexivity|].
  split; [reflexivity|]. split; [reflexivity|]. split; [reflexivity|].
  split; [reflexivity|].
  apply (Reconcile_initialises_request no_number (sampleEnv (failing L110 boom)) mockKey
           (clusterOf (createMockGPUWorkload 1) [] twoNodes) (createMockGPUWorkload 1)
           eq_refl eq_refl eq_refl eq_refl eq_refl); reflexivity.
Defined.
